(** * skill_client: progressive skill loading and the ReAct loop

    A shallow embedding of the Python sources

      - [core/skill_loader.py]  (class [SkillLoader])
      - [core/base_tools.py]    (class [BaseToolExecutor])
      - [core/llm_client.py]    (class [LLMClient])
      - [core/base_agent.py]    (class [BaseAgent])
      - [main.py]               (the choice of the provider and the
                                 interactive loop)

    Conventions.

      - A Python [str] is a [string]; every character is one code point
        below 256.
      - A value of unknown type ([Any]: a decoded JSON document, a raw
        tool-call payload) is a [pyval].
      - A [dict] whose iteration order is observable is an association
        list in insertion order ([Py.dict_set] overwrites in place or
        appends); a [dict] that is only looked up is a [gmap].
      - A function that can raise returns an [outcome]; a function that
        prints or reads a file returns the list of its [event]s.
      - Calls that leave the program ([json.loads], [yaml.safe_load],
        [repr], the chat-completion endpoint, and the tool handlers, whose
        bodies are calls of the operating system) are section variables. *)

From Stdlib Require Import ZArith Lia Bool Ascii String.
From stdpp Require Import gmap strings list fin_maps.

Set Warnings "-register-all".

(* ===================================================================== *)
(** ** Python values and string operations *)
(* ===================================================================== *)

Module Py.

(** An exception object: its class name and [str(e)]. *)
Record exn := mk_exn { exn_class : string; exn_text : string }.

Inductive outcome (A : Type) : Type :=
| Ok (a : A)
| Raise (e : exn).
Arguments Ok {A} a.
Arguments Raise {A} e.

Definition nl : string := String "010"%char "".

(** [str.isspace] for one code point below 256. *)
Definition isspace (c : ascii) : bool :=
  let n := nat_of_ascii c in
  (((9 <=? n) && (n <=? 13)) || ((28 <=? n) && (n <=? 32))
   || (n =? 133) || (n =? 160))%nat.

Fixpoint lstrip (s : string) : string :=
  match s with
  | String c s' => if isspace c then lstrip s' else s
  | EmptyString => EmptyString
  end.

Fixpoint rstrip (s : string) : string :=
  match s with
  | String c s' =>
      match rstrip s' with
      | EmptyString => if isspace c then EmptyString else String c EmptyString
      | r => String c r
      end
  | EmptyString => EmptyString
  end.

(** [s.strip()] *)
Definition strip (s : string) : string := rstrip (lstrip s).

(** Truth value of a [str]: non-empty. *)
Definition truthy (s : string) : bool :=
  match s with EmptyString => false | _ => true end.

(** [s[:n]] for [n >= 0]. *)
Fixpoint take (n : nat) (s : string) : string :=
  match n, s with
  | S k, String c s' => String c (take k s')
  | _, _ => EmptyString
  end.

(** [s[n:]] for [n >= 0]. *)
Fixpoint drop (n : nat) (s : string) : string :=
  match n, s with
  | S k, String _ s' => drop k s'
  | _, _ => s
  end.

(** [s.startswith(p)] *)
Definition startswith (p s : string) : bool := String.prefix p s.

(** The leftmost occurrence of a non-empty [sep] in [s]: the text before
    it and the text after it ([str.partition] without the separator). *)
Fixpoint cut (sep s : string) : option (string * string) :=
  if startswith sep s then Some (EmptyString, drop (String.length sep) s)
  else match s with
       | EmptyString => None
       | String c s' =>
           match cut sep s' with
           | Some (a, b) => Some (String c a, b)
           | None => None
           end
       end.

(** [s.split(sep, maxsplit)] for a non-empty [sep] and [maxsplit >= 0]. *)
Fixpoint split (sep s : string) (maxsplit : nat) : list string :=
  match maxsplit with
  | O => [s]
  | S k =>
      match cut sep s with
      | None => [s]
      | Some (a, b) => a :: split sep b k
      end
  end.

(** [sub in s] for strings. *)
Definition contains (sub s : string) : bool :=
  match sub with
  | EmptyString => true
  | _ => match cut sub s with Some _ => true | None => false end
  end.

(** A value of type [Any]. [PFloat] carries the number's [repr]. *)
Inductive pyval :=
| PNone
| PBool (b : bool)
| PInt (z : Z)
| PFloat (r : string)
| PStr (s : string)
| PList (l : list pyval)
| PDict (d : list (string * pyval)).

(** [type(v).__name__] *)
Definition type_name (v : pyval) : string :=
  match v with
  | PNone => "NoneType"
  | PBool _ => "bool"
  | PInt _ => "int"
  | PFloat _ => "float"
  | PStr _ => "str"
  | PList _ => "list"
  | PDict _ => "dict"
  end.

(** Whether [hash(v)] succeeds. *)
Definition hashable (v : pyval) : bool :=
  match v with
  | PList _ | PDict _ => false
  | _ => true
  end.

(** *** Insertion-ordered dictionaries with string keys *)

Section Dict.
Context {V : Type}.

Fixpoint dict_get (k : string) (d : list (string * V)) : option V :=
  match d with
  | [] => None
  | (k', v) :: d' => if String.eqb k k' then Some v else dict_get k d'
  end.

(** [k in d] *)
Definition dict_mem (k : string) (d : list (string * V)) : bool :=
  match dict_get k d with Some _ => true | None => false end.

(** [d[k] = v]: an existing key keeps its position. *)
Fixpoint dict_set (k : string) (v : V) (d : list (string * V))
  : list (string * V) :=
  match d with
  | [] => [(k, v)]
  | (k', v') :: d' =>
      if String.eqb k k' then (k, v) :: d' else (k', v') :: dict_set k v d'
  end.

(** [list(d.keys())] *)
Definition dict_keys (d : list (string * V)) : list string := map fst d.
End Dict.

(** [v.get(key, default)] on a value of unknown type: only a [dict] has
    the method. *)
Definition get_attr_get (v : pyval) (key : string) (default : pyval)
  : outcome pyval :=
  match v with
  | PDict d =>
      Ok (match dict_get key d with Some x => x | None => default end)
  | _ =>
      Raise (mk_exn "AttributeError"
               ("'" +:+ type_name v +:+ "' object has no attribute 'get'"))
  end.

End Py.

(* ===================================================================== *)
(** ** core/skill_loader.py *)
(* ===================================================================== *)

Module SkillLoader.
Import Py.

(** *** The file system seen through [pathlib] *)

(** What a path resolves to: a directory with its entry names in the order
    [iterdir] yields them, or a regular file whose [read_text] gives its
    text or raises (no permission, not UTF-8). *)
Inductive node :=
| Dir (entries : list string)
| File (text : outcome string).

Definition fs := string -> option node.

(** [base / rel] *)
Definition joinpath (base rel : string) : string :=
  if startswith "/" rel then rel else base +:+ "/" +:+ rel.

(** [Path(p).name]: the last component. *)
Fixpoint basename (p : string) : string :=
  match p with
  | EmptyString => EmptyString
  | String c p' =>
      if contains "/" p' then basename p'
      else if Ascii.eqb c "/"%char then p' else p
  end.

Definition path_exists (f : fs) (p : string) : bool :=
  match f p with Some _ => true | None => false end.

Definition is_dir (f : fs) (p : string) : bool :=
  match f p with Some (Dir _) => true | _ => false end.

Definition read_text (f : fs) (p : string) : outcome string :=
  match f p with
  | Some (File t) => t
  | Some (Dir _) =>
      Raise (mk_exn "IsADirectoryError" ("Is a directory: '" +:+ p +:+ "'"))
  | None =>
      Raise (mk_exn "FileNotFoundError"
               ("No such file or directory: '" +:+ p +:+ "'"))
  end.

Definition iterdir (f : fs) (p : string) : outcome (list string) :=
  match f p with
  | Some (Dir entries) => Ok (map (joinpath p) entries)
  | Some (File _) =>
      Raise (mk_exn "NotADirectoryError" ("Not a directory: '" +:+ p +:+ "'"))
  | None =>
      Raise (mk_exn "FileNotFoundError"
               ("No such file or directory: '" +:+ p +:+ "'"))
  end.

(** *** Observable effects of the loader

    File reads and the diagnostic lines it prints (the banner lines are
    left out). [EvRead] records the call of [read_text], whether or not
    it succeeds. *)
Inductive event :=
| EvRead (path : string)
| EvNoSkillFolders
| EvDiscovered (name description : string)
| EvFailedToLoad (folder : string) (e : exn)
| EvSkillNotFound (name : string)
| EvActivating (name : string)
| EvResourceNotFound (resource_path : string)
| EvLoadingResource (resource_path : string)
| EvLoaded (chars : nat)
| EvLoadFailed (e : exn).

Definition is_read (p : string) (e : event) : bool :=
  match e with EvRead q => String.eqb p q | _ => false end.

(** Number of [read_text] calls on [p] in a trace. *)
Definition reads_of (p : string) (evs : list event) : nat :=
  length (List.filter (is_read p) evs).

(** *** The loader object *)

(** One value of [skill_metadata]; the annotation [Dict[str, str]] fixes
    the fields to strings. *)
Record metadata := mk_metadata {
  md_name : string;
  md_description : string;
  md_path : string;
  md_license : string
}.

Record loader := mk_loader {
  skills_directory : string;
  (* Level 1 *)
  skill_metadata : list (string * metadata);
  (* Level 2 *)
  skill_content : gmap string string;
  (* Level 3 *)
  skill_resources : gmap string (gmap string string)
}.

Definition set_skill_metadata (ld : loader) (m : list (string * metadata)) :=
  mk_loader (skills_directory ld) m (skill_content ld) (skill_resources ld).

Definition set_skill_content (ld : loader) (c : gmap string string) :=
  mk_loader (skills_directory ld) (skill_metadata ld) c (skill_resources ld).

Definition set_skill_resources (ld : loader)
    (r : gmap string (gmap string string)) :=
  mk_loader (skills_directory ld) (skill_metadata ld) (skill_content ld) r.

(** [SkillLoader.__init__] *)
Definition init (f : fs) (skills_directory : string) : outcome loader :=
  if negb (path_exists f skills_directory) then
    Raise (mk_exn "ValueError"
             ("Skills directory not found: " +:+ skills_directory))
  else Ok (mk_loader skills_directory [] ∅ ∅).

(** What [yaml.safe_load] returns for a front-matter text: a mapping with
    string scalars, or a document of another type (a scalar, a sequence,
    [None] for an empty text). *)
Inductive yamldoc :=
| YMapping (d : list (string * string))
| YOther (type_name : string).

(** [frontmatter.get(key, default)] *)
Definition yaml_get (doc : yamldoc) (key default : string) : outcome string :=
  match doc with
  | YMapping d =>
      Ok (match dict_get key d with Some v => v | None => default end)
  | YOther ty =>
      Raise (mk_exn "AttributeError"
               ("'" +:+ ty +:+ "' object has no attribute 'get'"))
  end.

Section Discovery.
(** [yaml.safe_load]: the document, or the [YAMLError] it raises. *)
Variable yaml_safe_load : string -> outcome yamldoc.

(** The front-matter text of a marker file's content, when the content
    starts with the delimiter. *)
Definition frontmatter_text (content : string) : option string :=
  if startswith "---" content then
    match split "---" content 2 with
    | _ :: part1 :: _ => Some part1
    | _ => None
    end
  else None.

(** [SkillLoader._load_skill_metadata] *)
Definition _load_skill_metadata (f : fs) (skill_folder : string)
  : outcome (option metadata) * list event :=
  let skill_file := joinpath skill_folder "SKILL.md" in
  (match read_text f skill_file with
   | Raise e => Raise e
   | Ok content =>
       match frontmatter_text content with
       | None => Ok None
       | Some text =>
           match yaml_safe_load text with
           | Raise e => Raise e
           | Ok frontmatter =>
               match yaml_get frontmatter "name" (basename skill_folder),
                     yaml_get frontmatter "description" "",
                     yaml_get frontmatter "license" "" with
               | Ok n, Ok d, Ok l =>
                   Ok (Some (mk_metadata n d skill_folder l))
               | Raise e, _, _ => Raise e
               | _, Raise e, _ => Raise e
               | _, _, Raise e => Raise e
               end
           end
       end
   end,
   [EvRead skill_file]).

(** The folders under the root that hold a marker file. *)
Definition skill_folders (f : fs) (items : list string) : list string :=
  List.filter
    (fun item => is_dir f item && path_exists f (joinpath item "SKILL.md"))
    items.

(** The body of the [for skill_folder in skill_folders] loop, with its
    [try]/[except Exception]. *)
Definition load_folder (f : fs) (skill_folder : string)
    (meta : list (string * metadata))
  : list (string * metadata) * list event :=
  match _load_skill_metadata f skill_folder with
  | (Ok (Some md), ev) =>
      (dict_set (md_name md) md meta,
       ev ++ [EvDiscovered (md_name md) (take 80 (md_description md))])
  | (Ok None, ev) => (meta, ev)
  | (Raise e, ev) => (meta, ev ++ [EvFailedToLoad (basename skill_folder) e])
  end.

Fixpoint load_folders (f : fs) (folders : list string)
    (meta : list (string * metadata))
  : list (string * metadata) * list event :=
  match folders with
  | [] => (meta, [])
  | skill_folder :: rest =>
      let '(meta1, ev1) := load_folder f skill_folder meta in
      let '(meta2, ev2) := load_folders f rest meta1 in
      (meta2, ev1 ++ ev2)
  end.

(** [SkillLoader.discover_skills]: the returned mapping, the loader
    afterwards and the trace. *)
Definition discover_skills (f : fs) (ld : loader)
  : outcome (list (string * metadata)) * loader * list event :=
  match iterdir f (skills_directory ld) with
  | Raise e => (Raise e, ld, [])
  | Ok items =>
      match skill_folders f items with
      | [] => (Ok [], ld, [EvNoSkillFolders])
      | folders =>
          let '(meta, ev) := load_folders f folders (skill_metadata ld) in
          (Ok meta, set_skill_metadata ld meta, ev)
      end
  end.
End Discovery.

(** [SkillLoader.activate_skill] *)
Definition activate_skill (f : fs) (ld : loader) (skill_name : string)
  : option string * loader * list event :=
  match dict_get skill_name (skill_metadata ld) with
  | None => (None, ld, [EvSkillNotFound skill_name])
  | Some md =>
      match skill_content ld !! skill_name with
      | Some content => (Some content, ld, [])
      | None =>
          let skill_file := joinpath (md_path md) "SKILL.md" in
          match read_text f skill_file with
          | Ok content =>
              (Some content,
               set_skill_content ld (<[skill_name := content]> (skill_content ld)),
               [EvActivating skill_name; EvRead skill_file;
                EvLoaded (String.length content)])
          | Raise e =>
              (None, ld,
               [EvActivating skill_name; EvRead skill_file; EvLoadFailed e])
          end
      end
  end.

(** [SkillLoader.load_resource] *)
Definition load_resource (f : fs) (ld : loader)
    (skill_name resource_path : string)
  : option string * loader * list event :=
  match dict_get skill_name (skill_metadata ld) with
  | None => (None, ld, [EvSkillNotFound skill_name])
  | Some md =>
      let resource_file := joinpath (md_path md) resource_path in
      if negb (path_exists f resource_file) then
        (None, ld, [EvResourceNotFound resource_path])
      else
        (* Initialize cache for this skill if needed *)
        let resources :=
          match skill_resources ld !! skill_name with
          | Some _ => skill_resources ld
          | None => <[skill_name := ∅]> (skill_resources ld)
          end in
        let cache := default ∅ (resources !! skill_name) in
        match cache !! resource_path with
        | Some content => (Some content, set_skill_resources ld resources, [])
        | None =>
            match read_text f resource_file with
            | Ok content =>
                (Some content,
                 set_skill_resources ld
                   (<[skill_name := <[resource_path := content]> cache]>
                      resources),
                 [EvLoadingResource resource_path; EvRead resource_file;
                  EvLoaded (String.length content)])
            | Raise e =>
                (None, set_skill_resources ld resources,
                 [EvLoadingResource resource_path; EvRead resource_file;
                  EvLoadFailed e])
            end
        end
  end.

(** [SkillLoader.list_skills] *)
Definition list_skills (ld : loader) : list string :=
  dict_keys (skill_metadata ld).

(** [SkillLoader.get_skill_description] *)
Definition get_skill_description (ld : loader) (skill_name : string)
  : option string :=
  match dict_get skill_name (skill_metadata ld) with
  | Some md => Some (md_description md)
  | None => None
  end.

End SkillLoader.

(* ===================================================================== *)
(** ** Conversation messages and tool schemas *)
(* ===================================================================== *)

Module Conversation.

(** One entry of an assistant message's ["tool_calls"]: the identifier,
    the type, and the function's name and raw arguments. *)
Record tool_call := mk_tool_call {
  tc_id : string;
  tc_type : string;
  tc_name : string;
  tc_arguments : Py.pyval
}.

(** A message dict. A key that is absent is [None] here; ["content"] can
    also be present with the value [None]. *)
Record message := mk_message {
  role : string;
  content : option string;
  tool_calls : option (list tool_call);
  tool_call_id : option string;
  name : option string
}.

Definition system_message (text : string) : message :=
  mk_message "system" (Some text) None None None.

Definition user_message (text : string) : message :=
  mk_message "user" (Some text) None None None.

Definition assistant_message (text : option string)
    (calls : option (list tool_call)) : message :=
  mk_message "assistant" text calls None None.

Definition tool_message (id fname result : string) : message :=
  mk_message "tool" (Some result) None (Some id) (Some fname).

(** A tool definition in the format of the chat-completion endpoint:
    the function's name and description, its parameters as (name, type,
    description), and the required ones. *)
Record tool_schema := mk_tool_schema {
  ts_type : string;
  ts_name : string;
  ts_description : string;
  ts_properties : list (string * string * string);
  ts_required : list string
}.

End Conversation.

(* ===================================================================== *)
(** ** core/base_tools.py *)
(* ===================================================================== *)

Module BaseTools.
Import Py Conversation.

(** The keys of [self.tools]. *)
Definition tools : list string :=
  ["read_file"; "write_file"; "list_files"; "execute_bash";
   "create_directory"].

(** [BaseToolExecutor.get_tool_definitions] *)
Definition get_tool_definitions : list tool_schema :=
  [ mk_tool_schema "function" "read_file"
      "Read contents of a file. Supports text and binary files."
      [("path", "string", "Path to the file to read (relative or absolute)")]
      ["path"];
    mk_tool_schema "function" "write_file"
      "Write content to a file. Creates the file if it doesn't exist, overwrites if it does."
      [("path", "string", "Path to the file to write (relative or absolute)");
       ("content", "string", "Content to write to the file")]
      ["path"; "content"];
    mk_tool_schema "function" "list_files"
      "List files and directories in a directory."
      [("path", "string",
        "Path to the directory to list (relative or absolute)")]
      ["path"];
    mk_tool_schema "function" "execute_bash"
      "Execute a bash command and return the output. Use for running scripts, python commands, etc."
      [("command", "string", "The bash command to execute")]
      ["command"];
    mk_tool_schema "function" "create_directory"
      "Create a directory. Creates parent directories if needed."
      [("path", "string",
        "Path to the directory to create (relative or absolute)")]
      ["path"] ].

Section Execute.
(** Calling, with the arguments as keywords, the handler registered under a name of
    [tools]: the text it returns or the exception it lets escape (also
    the [TypeError] of a call whose keywords do not fit), and the file
    system afterwards. *)
Variable call_handler :
  string -> pyval -> SkillLoader.fs -> outcome string * SkillLoader.fs.

(** [BaseToolExecutor.execute_tool] *)
Definition execute_tool (tool_name : string) (args : pyval)
    (f : SkillLoader.fs) : string * SkillLoader.fs :=
  if negb (existsb (String.eqb tool_name) tools) then
    ("Error: Unknown tool '" +:+ tool_name +:+ "'", f)
  else
    match call_handler tool_name args f with
    | (Ok result, f') => (result, f')
    | (Raise e, f') =>
        ("Error executing " +:+ tool_name +:+ ": " +:+ exn_text e, f')
    end.
End Execute.

End BaseTools.

(* ===================================================================== *)
(** ** core/llm_client.py *)
(* ===================================================================== *)

Module LLMClient.
Import Py Conversation.

(** The reply object of the endpoint, as far as [chat] reads it:
    [completion.choices[i].message] with its [content] and [tool_calls]. *)
Record api_tool_call := mk_api_tool_call {
  atc_id : string;
  atc_type : string;
  atc_name : string;
  atc_arguments : string
}.

Record api_message := mk_api_message {
  am_content : option string;
  am_tool_calls : option (list api_tool_call)
}.

Record completion := mk_completion { choices : list api_message }.

(** The keyword arguments of [chat.completions.create]. *)
Record api_params := mk_api_params {
  ap_model : string;
  ap_messages : list message;
  ap_tools : option (list tool_schema);
  ap_parallel_tool_calls : option bool
}.

Record client := mk_client {
  model : string;
  provider : string;
  api_key : string;
  base_url : string;
  (* whether [self.client] holds the API client object *)
  client_ready : bool
}.

Definition env_key_map : list (string * string) :=
  [("openai", "OPENAI_API_KEY"); ("deepseek", "DEEPSEEK_API_KEY");
   ("anthropic", "ANTHROPIC_API_KEY")].

Definition url_map : list (string * string) :=
  [("openai", "https://api.openai.com/v1");
   ("deepseek", "https://api.deepseek.com/v1");
   ("anthropic", "https://api.anthropic.com")].

Definition truthy_opt (o : option string) : bool :=
  match o with Some s => truthy s | None => false end.

(** [LLMClient.__init__], with [_init_client]: [getenv] is [os.getenv]
    and [openai_installed] says whether [from openai import OpenAI]
    succeeds. *)
Definition init (getenv : string -> option string) (openai_installed : bool)
    (model : string) (api_key base_url : option string) (provider : string)
  : outcome client :=
  let key :=
    if truthy_opt api_key then api_key
    else getenv (default "API_KEY" (dict_get provider env_key_map)) in
  if negb (truthy_opt key) then
    Raise (mk_exn "ValueError"
             ("API key not found for provider: " +:+ provider))
  else
    let url :=
      if truthy_opt base_url then default "" base_url
      else default "https://api.openai.com/v1" (dict_get provider url_map) in
    if openai_installed then
      Ok (mk_client model provider (default "" key) url true)
    else
      Raise (mk_exn "ImportError"
               "OpenAI package not installed. Install with: pip install openai").

Definition convert_tool_call (tc : api_tool_call) : tool_call :=
  mk_tool_call (atc_id tc) (atc_type tc) (atc_name tc)
    (PStr (atc_arguments tc)).

(** The message of the [except Exception] branch. *)
Definition error_reply (e : exn) : message :=
  assistant_message (Some ("Error: " +:+ exn_text e)) None.

(** The [api_params] that [chat] builds: the tools are passed on, with
    [parallel_tool_calls], only when there are some. *)
Definition build_params (c : client) (messages : list message)
    (tools : option (list tool_schema)) : api_params :=
  match tools with
  | Some ((_ :: _) as ts) =>
      mk_api_params (model c) messages (Some ts) (Some true)
  | _ => mk_api_params (model c) messages None None
  end.

Section Chat.
(** The state of the backend and one call of
    [client.chat.completions.create]. *)
Variable B : Type.
Variable create : B -> api_params -> outcome completion * B.

(** [LLMClient.chat] *)
Definition chat (c : client) (b : B) (messages : list message)
    (tools : option (list tool_schema)) : outcome (list message) * B :=
  if negb (client_ready c) then
    (Raise (mk_exn "RuntimeError" "Client not initialized"), b)
  else
    match create b (build_params c messages tools) with
    | (Raise e, b') => (Ok [error_reply e], b')
    | (Ok completion, b') =>
        match choices completion with
        | [] =>
            (Ok [error_reply (mk_exn "IndexError" "list index out of range")],
             b')
        | message :: _ =>
            match am_tool_calls message with
            | Some ((_ :: _) as tcs) =>
                (Ok [assistant_message (am_content message)
                       (Some (map convert_tool_call tcs))], b')
            | _ => (Ok [assistant_message (am_content message) None], b')
            end
        end
    end.
End Chat.

End LLMClient.

(* ===================================================================== *)
(** ** core/base_agent.py *)
(* ===================================================================== *)

Module BaseAgent.
Import Py Conversation.

(** [BaseAgent._get_use_skill_tool] *)
Definition _get_use_skill_tool : tool_schema :=
  mk_tool_schema "function" "use_skill"
    "Activate a skill to access its full capabilities. Call this when you need to use a specific skill to complete the user's request."
    [("skill_name", "string",
      "The name of the skill to activate (e.g., 'pptx', 'canvas-design')");
     ("reason", "string", "Brief explanation of why you need this skill")]
    ["skill_name"; "reason"].

(** Truth value of an optional string: [None] and the empty string are
    false. *)
Definition truthy_opt (o : option string) : bool :=
  match o with Some s => truthy s | None => false end.

(** How an f-string renders an optional string. *)
Definition fmt_opt (o : option string) : string :=
  match o with Some s => s | None => "None" end.

(** The message returned when the loop ends on an empty conversation. *)
Definition max_rounds_message : message :=
  assistant_message (Some "Error: Max reasoning rounds reached") None.

Section Agent.
(** The state of the backend behind the LLM client. *)
Variable B : Type.
(** [json.loads(s, strict=...)] by its documented contract: the decoded
    document, or the text of the [JSONDecodeError]. *)
Variable json_loads : bool -> string -> pyval + string.
(** [repr] of a value that is not a string. *)
Variable py_repr : pyval -> string.
(** The handlers of the base tools, see [BaseTools.execute_tool]. *)
Variable call_handler :
  string -> pyval -> SkillLoader.fs -> outcome string * SkillLoader.fs.

(** [llm_client.chat(messages, tools=tools)] *)
Definition gateway : Type :=
  B -> list message -> list tool_schema -> outcome (list message) * B.

Record agent := mk_agent {
  system_prompt : string;
  model : string;
  max_rounds : Z;
  llm_client : option gateway;
  skill_loader : option SkillLoader.loader;
  (* skill name -> full SKILL.md, in activation order *)
  activated_skills : list (string * string)
}.

(** What the agent acts on: the file system (shared by the loader and
    the base tools), the backend, and, as a record of what happened,
    the loader's events and the conversation of every gateway call. *)
Record world := mk_world {
  w_fs : SkillLoader.fs;
  w_backend : B;
  w_events : list SkillLoader.event;
  w_calls : list (list message)
}.

Definition set_loader (ag : agent) (ld : SkillLoader.loader) : agent :=
  mk_agent (system_prompt ag) (model ag) (max_rounds ag) (llm_client ag)
    (Some ld) (activated_skills ag).

Definition set_activated (ag : agent) (a : list (string * string)) : agent :=
  mk_agent (system_prompt ag) (model ag) (max_rounds ag) (llm_client ag)
    (skill_loader ag) a.

Definition add_events (w : world) (ev : list SkillLoader.event) : world :=
  mk_world (w_fs w) (w_backend w) (w_events w ++ ev) (w_calls w).

Definition set_fs (w : world) (f : SkillLoader.fs) : world :=
  mk_world f (w_backend w) (w_events w) (w_calls w).

(** The world after a gateway call made with [msgs]. *)
Definition after_call (w : world) (msgs : list message) (b : B) : world :=
  mk_world (w_fs w) b (w_events w) (w_calls w ++ [msgs]).

(** [str(v)] *)
Definition py_str (v : pyval) : string :=
  match v with PStr s => s | _ => py_repr v end.

(** [BaseAgent.activate_skill]. The name is what the model sent: a
    value that cannot be hashed makes the membership test raise, and a
    hashable value that is not a string equals no key, so the loader
    reports it as not found. *)
Definition activate_skill (ag : agent) (w : world) (skill_name : pyval)
  : outcome bool * agent * world :=
  match skill_loader ag with
  | None => (Ok false, ag, w)
  | Some ld =>
      if negb (hashable skill_name) then
        (Raise (mk_exn "TypeError"
                  ("unhashable type: '" +:+ type_name skill_name +:+ "'")),
         ag, w)
      else
        match skill_name with
        | PStr s =>
            if dict_mem s (activated_skills ag) then (Ok true, ag, w)
            else
              let '(content, ld', ev) :=
                SkillLoader.activate_skill (w_fs w) ld s in
              let ag' := set_loader ag ld' in
              let w' := add_events w ev in
              if truthy_opt content then
                (Ok true,
                 set_activated ag'
                   (dict_set s (default "" content) (activated_skills ag')),
                 w')
              else (Ok false, ag', w')
        | _ =>
            (Ok false, ag,
             add_events w [SkillLoader.EvSkillNotFound (py_str skill_name)])
        end
  end.

(** [BaseAgent.get_available_skills] *)
Definition get_available_skills (ag : agent)
  : list (string * option string) :=
  match skill_loader ag with
  | None => []
  | Some ld =>
      map (fun skill_name =>
             (skill_name, SkillLoader.get_skill_description ld skill_name))
        (SkillLoader.list_skills ld)
  end.

(** [BaseAgent._handle_use_skill] *)
Definition _handle_use_skill (ag : agent) (w : world)
    (skill_name reason : pyval) : outcome string * agent * world :=
  match activate_skill ag w skill_name with
  | (Ok true, ag', w') =>
      (Ok ("Skill '" +:+ py_str skill_name +:+
           "' activated successfully. You now have access to its full instructions and capabilities."),
       ag', w')
  | (Ok false, ag', w') =>
      (Ok ("Failed to activate skill '" +:+ py_str skill_name +:+
           "'. Please check if the skill exists."),
       ag', w')
  | (Raise e, ag', w') => (Raise e, ag', w')
  end.

(** [BaseAgent._parse_tool_args]: the pair [(args, error_message)]. *)
Definition _parse_tool_args (arguments : pyval) (function_name : string)
  : option pyval * option string :=
  match arguments with
  | PNone => (Some (PDict []), None)
  | PDict _ => (Some arguments, None)
  | PStr text =>
      if negb (truthy (strip text)) then (Some (PDict []), None)
      else
        match json_loads true text with
        | inl v => (Some v, None)
        | inr _ =>
            match json_loads false text with
            | inl v => (Some v, None)
            | inr e =>
                let snippet := strip text in
                let snippet :=
                  if (200 <? String.length snippet)%nat
                  then take 200 snippet +:+ "...(truncated)"
                  else snippet in
                (None,
                 Some ("Error: Invalid JSON arguments for tool '" +:+
                       function_name +:+ "': " +:+ e +:+ ". " +:+
                       "Raw: " +:+ snippet))
            end
        end
  | _ =>
      (None,
       Some ("Error: Tool '" +:+ function_name +:+
             "' arguments must be a JSON string, " +:+
             "got " +:+ type_name arguments +:+ "."))
  end.

(** The Level-1 section of the system prompt. *)
Definition skill_list (available : list (string * option string)) : string :=
  fold_left
    (fun acc skill =>
       acc +:+ "- **" +:+ fst skill +:+ "**: " +:+ fmt_opt (snd skill) +:+ nl)
    available
    (nl +:+ nl +:+ "## Available Skills (Level 1)" +:+ nl +:+ nl +:+
     "You have access to the following skills. To use a skill, call the use_skill function." +:+
     nl +:+ nl).

(** The Level-2 section of the system prompt. *)
Definition skill_instructions (activated : list (string * string)) : string :=
  fold_left
    (fun acc skill =>
       (acc +:+ "### Skill: " +:+ fst skill +:+ nl +:+ nl) +:+
       snd skill +:+ nl +:+ nl)
    activated
    (nl +:+ nl +:+ "## Activated Skills (Level 2)" +:+ nl +:+ nl).

(** The content of [full_messages[0]] as [chat] builds it before the
    loop. *)
Definition system_content (ag : agent) : string :=
  let c0 := system_prompt ag in
  let c1 :=
    match skill_loader ag with
    | Some _ =>
        match get_available_skills ag with
        | [] => c0
        | available => c0 +:+ skill_list available
        end
    | None => c0
    end in
  match activated_skills ag with
  | [] => c1
  | activated => c1 +:+ skill_instructions activated
  end.

(** One iteration of [for tool_call in last_message["tool_calls"]]:
    the conversation with the tool message appended. *)
Definition process_tool_call (tc : tool_call) (full_messages : list message)
    (ag : agent) (w : world) : outcome (list message) * agent * world :=
  let function_name := tc_name tc in
  let '(args, parse_error) :=
    _parse_tool_args (tc_arguments tc) function_name in
  let '(result, ag', w') :=
    if truthy_opt parse_error then (Ok (default "" parse_error), ag, w)
    else
      let args := default PNone args in
      if String.eqb function_name "use_skill" then
        match get_attr_get args "skill_name" (PStr ""),
              get_attr_get args "reason" (PStr "") with
        | Ok skill_name, Ok reason => _handle_use_skill ag w skill_name reason
        | Raise e, _ => (Raise e, ag, w)
        | _, Raise e => (Raise e, ag, w)
        end
      else
        let '(r, f') :=
          BaseTools.execute_tool call_handler function_name args (w_fs w) in
        (Ok r, ag, set_fs w f') in
  match result with
  | Ok r =>
      (Ok (full_messages ++ [tool_message (tc_id tc) function_name r]),
       ag', w')
  | Raise e => (Raise e, ag', w')
  end.

Fixpoint process_tool_calls (tcs : list tool_call)
    (full_messages : list message) (ag : agent) (w : world)
  : outcome (list message) * agent * world :=
  match tcs with
  | [] => (Ok full_messages, ag, w)
  | tc :: rest =>
      match process_tool_call tc full_messages ag w with
      | (Ok full_messages', ag', w') =>
          process_tool_calls rest full_messages' ag' w'
      | (Raise e, ag', w') => (Raise e, ag', w')
      end
  end.

(** How one pass through the body of the [while] loop ends: at
    [continue] or at the end of the body, at [return last_message], or
    with an exception. *)
Inductive round_result :=
| Continue (full_messages : list message)
| Return (last_message : message)
| Fault (e : exn).

(** The tools offered in a round. *)
Definition offered_tools (ag : agent) : list tool_schema :=
  (match skill_loader ag with Some _ => [_get_use_skill_tool] | None => [] end)
  ++ BaseTools.get_tool_definitions.

(** The body of the [while] loop. *)
Definition round (gw : gateway) (full_messages : list message)
    (ag : agent) (w : world) : round_result * agent * world :=
  match gw (w_backend w) full_messages (offered_tools ag) with
  | (Raise e, b') => (Fault e, ag, after_call w full_messages b')
  | (Ok response_messages, b') =>
      let w1 := after_call w full_messages b' in
      let full_messages' := full_messages ++ response_messages in
      match last full_messages' with
      | None =>
          (Fault (mk_exn "IndexError" "list index out of range"), ag, w1)
      | Some last_message =>
          if String.eqb (role last_message) "assistant" then
            match tool_calls last_message with
            | Some tcs =>
                match process_tool_calls tcs full_messages' ag w1 with
                | (Ok msgs, ag', w') => (Continue msgs, ag', w')
                | (Raise e, ag', w') => (Fault e, ag', w')
                end
            | None => (Return last_message, ag, w1)
            end
          else (Continue full_messages', ag, w1)
      end
  end.

(** The [while round_count < self.max_rounds] loop with [rounds]
    iterations left, and the [return] after it. *)
Fixpoint react_loop (gw : gateway) (rounds : nat)
    (full_messages : list message) (ag : agent) (w : world)
  : outcome message * agent * world :=
  match rounds with
  | O => (Ok (default max_rounds_message (last full_messages)), ag, w)
  | S rounds' =>
      match round gw full_messages ag w with
      | (Continue full_messages', ag', w') =>
          react_loop gw rounds' full_messages' ag' w'
      | (Return last_message, ag', w') => (Ok last_message, ag', w')
      | (Fault e, ag', w') => (Raise e, ag', w')
      end
  end.

(** [BaseAgent.chat]. The counter starts at 0 and the loop runs while
    it is below [max_rounds]: [Z.to_nat max_rounds] iterations at most. *)
Definition chat (ag : agent) (messages : list message) (w : world)
  : outcome message * agent * world :=
  match llm_client ag with
  | None =>
      (Raise (mk_exn "RuntimeError"
                "LLM client not set. Call set_llm_client() first"),
       ag, w)
  | Some gw =>
      react_loop gw (Z.to_nat (max_rounds ag))
        (system_message (system_content ag) :: messages) ag w
  end.

(** [BaseAgent.process]: the content of the reply ([None] when the
    reply carries none). *)
Definition process (ag : agent) (prompt : string) (w : world)
  : outcome (option string) * agent * world :=
  match chat ag [user_message prompt] w with
  | (Ok response, ag', w') => (Ok (content response), ag', w')
  | (Raise e, ag', w') => (Raise e, ag', w')
  end.
End Agent.

Arguments mk_agent {B}.
Arguments system_prompt {B}.
Arguments model {B}.
Arguments max_rounds {B}.
Arguments llm_client {B}.
Arguments skill_loader {B}.
Arguments activated_skills {B}.
Arguments mk_world {B}.
Arguments w_fs {B}.
Arguments w_backend {B}.
Arguments w_events {B}.
Arguments w_calls {B}.

End BaseAgent.

(* ===================================================================== *)
(** ** Concrete collaborators for the examples

    A skills directory, finite fragments of the JSON and YAML decoders
    (the documents the examples use, decoded as the libraries decode
    them), handlers for two tools, and scripted backends. *)
(* ===================================================================== *)

Module Sample.
Import Py Conversation.

(** The double quote. *)
Definition q : string := String "034"%char "".

Definition pptx_header : string :=
  nl +:+ "name: pptx" +:+ nl +:+
  "description: create PowerPoint files" +:+ nl.

Definition pptx_body : string :=
  "---" +:+ pptx_header +:+ "---" +:+ nl +:+ "# PPTX" +:+ nl +:+
  "Build the deck with python-pptx." +:+ nl.

(** A marker file whose front matter is never closed. *)
Definition open_header : string :=
  nl +:+ "name: notes" +:+ nl +:+ "description: take notes" +:+ nl.

Definition broken_header : string := nl +:+ "name: [unclosed" +:+ nl.

Definition yaml_error : exn :=
  mk_exn "ParserError" "while parsing a flow sequence".

(** [skills/] holds a valid bundle, a plain file, a folder without a
    marker file, a bundle whose header is no YAML and a bundle whose
    header is not closed. *)
Definition disk : SkillLoader.fs := fun p =>
  if String.eqb p "skills" then
    Some (SkillLoader.Dir ["pptx"; "README.txt"; "drafts"; "broken"; "notes"])
  else if String.eqb p "skills/pptx" then
    Some (SkillLoader.Dir ["SKILL.md"; "ooxml.md"])
  else if String.eqb p "skills/pptx/SKILL.md" then
    Some (SkillLoader.File (Ok pptx_body))
  else if String.eqb p "skills/pptx/ooxml.md" then
    Some (SkillLoader.File (Ok "OOXML reference"))
  else if String.eqb p "skills/README.txt" then
    Some (SkillLoader.File (Ok "about"))
  else if String.eqb p "skills/drafts" then Some (SkillLoader.Dir [])
  else if String.eqb p "skills/broken" then
    Some (SkillLoader.Dir ["SKILL.md"])
  else if String.eqb p "skills/broken/SKILL.md" then
    Some (SkillLoader.File (Ok ("---" +:+ broken_header +:+ "---" +:+ nl)))
  else if String.eqb p "skills/notes" then
    Some (SkillLoader.Dir ["SKILL.md"])
  else if String.eqb p "skills/notes/SKILL.md" then
    Some (SkillLoader.File (Ok ("---" +:+ open_header)))
  else None.

Definition yaml_safe_load (text : string)
  : outcome SkillLoader.yamldoc :=
  if String.eqb text pptx_header then
    Ok (SkillLoader.YMapping
          [("name", "pptx"); ("description", "create PowerPoint files")])
  else if String.eqb text open_header then
    Ok (SkillLoader.YMapping
          [("name", "notes"); ("description", "take notes")])
  else if String.eqb text broken_header then Raise yaml_error
  else if String.eqb (strip text) "" then Ok (SkillLoader.YOther "NoneType")
  else Ok (SkillLoader.YOther "str").

(** The loader after discovery over [disk]. *)
Definition pptx_metadata : SkillLoader.metadata :=
  SkillLoader.mk_metadata "pptx" "create PowerPoint files" "skills/pptx" "".

Definition notes_metadata : SkillLoader.metadata :=
  SkillLoader.mk_metadata "notes" "take notes" "skills/notes" "".

Definition catalog : SkillLoader.loader :=
  SkillLoader.mk_loader "skills"
    [("pptx", pptx_metadata); ("notes", notes_metadata)] ∅ ∅.

(** Raw argument payloads. *)
Definition use_pptx_args : string :=
  "{" +:+ q +:+ "skill_name" +:+ q +:+ ": " +:+ q +:+ "pptx" +:+ q +:+ ", " +:+
  q +:+ "reason" +:+ q +:+ ": " +:+ q +:+ "slides" +:+ q +:+ "}".

Definition a1_args : string := "{" +:+ q +:+ "a" +:+ q +:+ ":1}".

Definition path_args : string :=
  "{" +:+ q +:+ "path" +:+ q +:+ ": " +:+ q +:+ "skills/README.txt" +:+ q +:+ "}".

Definition json_error : string :=
  "Expecting value: line 1 column 1 (char 0)".

Definition json_loads (strict : bool) (text : string) : pyval + string :=
  if String.eqb text use_pptx_args then
    inl (PDict [("skill_name", PStr "pptx"); ("reason", PStr "slides")])
  else if String.eqb text a1_args then inl (PDict [("a", PInt 1)])
  else if String.eqb text path_args then
    inl (PDict [("path", PStr "skills/README.txt")])
  else if String.eqb text "{}" then inl (PDict [])
  else if String.eqb text "[]" then inl (PList [])
  else inr json_error.

(** [repr] of the scalars without digits; the examples render no other
    value. *)
Definition py_repr (v : pyval) : string :=
  match v with
  | PNone => "None"
  | PBool true => "True"
  | PBool false => "False"
  | _ => "..."
  end.

(** Handlers: [read_file] on a readable file, [list_files] failing with
    an [OSError]; any other call does not fit the handler's signature. *)
Definition call_handler (tool_name : string) (args : pyval)
    (f : SkillLoader.fs) : outcome string * SkillLoader.fs :=
  match args with
  | PDict [("path", PStr p)] =>
      if String.eqb tool_name "read_file" then
        match SkillLoader.read_text f p with
        | Ok text => (Ok ("File: " +:+ p +:+ nl +:+ nl +:+ text), f)
        | Raise e => (Ok ("Error: File not found: " +:+ p), f)
        end
      else if String.eqb tool_name "list_files" then
        (Raise (mk_exn "PermissionError" "[Errno 13] Permission denied"), f)
      else (Raise (mk_exn "TypeError" "got an unexpected keyword argument 'path'"), f)
  | _ => (Raise (mk_exn "TypeError" "missing 1 required positional argument"), f)
  end.

(** A gateway that plays a script: the reply of the n-th call is the
    n-th entry, and an empty list of messages after the script's end. *)
Definition scripted (script : list (list message)) : BaseAgent.gateway nat :=
  fun n _ _ => (Ok (nth n script []), S n).

(** A gateway that sends the same reply at every call. *)
Definition repeating (reply : list message) : BaseAgent.gateway nat :=
  fun n _ _ => (Ok reply, S n).

Definition request (id fname : string) (arguments : pyval) : tool_call :=
  mk_tool_call id "function" fname arguments.

Definition agent_with (gw : BaseAgent.gateway nat) (rounds : Z)
    (ld : option SkillLoader.loader) : BaseAgent.agent nat :=
  BaseAgent.mk_agent "You are a helpful AI assistant with access to skills."
    "gpt-4" rounds (Some gw) ld [].

Definition start : BaseAgent.world nat := BaseAgent.mk_world disk 0 [] [].

Definition chat := BaseAgent.chat nat json_loads py_repr call_handler.

(** The content of the system message of the n-th gateway call. *)
Definition system_of_call (w : BaseAgent.world nat) (n : nat)
  : option string :=
  match nth n (BaseAgent.w_calls w) [] with
  | m :: _ => content m
  | [] => None
  end.

(** A backend for [LLMClient.chat] that is out of reach. *)
Definition unreachable : nat -> LLMClient.api_params ->
                         outcome LLMClient.completion * nat :=
  fun n _ => (Raise (mk_exn "APIConnectionError" "Connection error."), S n).

Definition getenv (var : string) : option string :=
  if String.eqb var "OPENAI_API_KEY" then Some "sk-test" else None.

(** Replies of the backend. *)

(** A request for a tool that is not registered. *)
Definition unknown_tool_reply : list message :=
  [assistant_message None (Some [request "call_1" "foo" (PStr "{}")])].

(** A request to activate [pptx]. *)
Definition use_pptx_reply : list message :=
  [assistant_message None
     (Some [request "call_1" "use_skill" (PStr use_pptx_args)])].

(** A request for [use_skill] whose arguments are the JSON array [[]]. *)
Definition use_skill_array_reply : list message :=
  [assistant_message None
     (Some [request "call_1" "use_skill" (PStr "[]")])].

(** Three requests, the second as in [use_skill_array_reply]. *)
Definition three_requests : list tool_call :=
  [request "call_a" "read_file" (PStr path_args);
   request "call_b" "use_skill" (PStr "[]");
   request "call_c" "list_files" (PStr path_args)].

Definition plain_reply : list message :=
  [assistant_message (Some "Here is your deck.") None].

(** The system prompt of [agent_with] with the Level-1 list of
    [catalog], and the section that the body of [pptx] would add. *)
Definition level1_prompt : string :=
  "You are a helpful AI assistant with access to skills." +:+ nl +:+ nl +:+
  "## Available Skills (Level 1)" +:+ nl +:+ nl +:+
  "You have access to the following skills. To use a skill, call the use_skill function." +:+
  nl +:+ nl +:+
  "- **pptx**: create PowerPoint files" +:+ nl +:+
  "- **notes**: take notes" +:+ nl.

Definition pptx_section : string :=
  nl +:+ nl +:+ "## Activated Skills (Level 2)" +:+ nl +:+ nl +:+
  "### Skill: pptx" +:+ nl +:+ nl +:+ pptx_body +:+ nl +:+ nl.

End Sample.

(* ===================================================================== *)
(** ** Notions the properties are stated with *)
(* ===================================================================== *)

Module Described.

(** The header text of a marker file whose content is the delimiter
    followed by [rest]: what lies between the opening delimiter and the
    next occurrence of the delimiter, or all of [rest] when the delimiter
    does not occur again. *)
Definition header_between (rest text : string) : Prop :=
  (exists after,
      rest = text +:+ "---" +:+ after /\
      forall a b, rest = a +:+ "---" +:+ b ->
                  String.length text <= String.length a)
  \/ ((forall a b, rest <> a +:+ "---" +:+ b) /\ text = rest).

(** A valid bundle is a folder whose marker file yields metadata; the
    bundles of a list of folders, in order. *)
Definition valid_bundles (yaml_safe_load : string -> Py.outcome SkillLoader.yamldoc)
    (f : SkillLoader.fs) (folders : list string) : list SkillLoader.metadata :=
  omap (fun folder =>
          match fst (SkillLoader._load_skill_metadata yaml_safe_load f folder)
          with
          | Py.Ok (Some md) => Some md
          | _ => None
          end) folders.

(** The mapping from the names of the bundles to their metadata. *)
Definition mapping_of (bundles : list SkillLoader.metadata)
  : list (string * SkillLoader.metadata) :=
  fold_left (fun m md => Py.dict_set (SkillLoader.md_name md) md m) bundles [].

(** What a request yields when it goes to the registry: the parse error
    or the text of [execute_tool], with the file system afterwards. *)
Definition registry_result (json_loads : bool -> string -> Py.pyval + string)
    (call_handler :
       string -> Py.pyval -> SkillLoader.fs ->
       Py.outcome string * SkillLoader.fs)
    (tc : Conversation.tool_call) (f : SkillLoader.fs)
  : string * SkillLoader.fs :=
  let '(args, parse_error) :=
    BaseAgent._parse_tool_args json_loads (Conversation.tc_arguments tc)
      (Conversation.tc_name tc) in
  if BaseAgent.truthy_opt parse_error then (default "" parse_error, f)
  else BaseTools.execute_tool call_handler (Conversation.tc_name tc)
         (default Py.PNone args) f.

(** The tool messages of a list of requests that all go to the registry,
    run one after the other, with the file system afterwards. *)
Fixpoint registry_messages (json_loads : bool -> string -> Py.pyval + string)
    (call_handler :
       string -> Py.pyval -> SkillLoader.fs ->
       Py.outcome string * SkillLoader.fs)
    (tcs : list Conversation.tool_call) (f : SkillLoader.fs)
  : list Conversation.message * SkillLoader.fs :=
  match tcs with
  | [] => ([], f)
  | tc :: rest =>
      let '(result, f1) := registry_result json_loads call_handler tc f in
      let '(msgs, f2) := registry_messages json_loads call_handler rest f1 in
      (Conversation.tool_message (Conversation.tc_id tc)
         (Conversation.tc_name tc) result :: msgs, f2)
  end.

(** The tool message that answers a request with a given result. *)
Definition answer (tc : Conversation.tool_call) (result : string)
  : Conversation.message :=
  Conversation.tool_message (Conversation.tc_id tc) (Conversation.tc_name tc)
    result.

(** A backend whose every reply is one assistant message with tool-call
    requests, none of them for [use_skill]. *)
Definition registry_only {B : Type} (gw : BaseAgent.gateway B) : Prop :=
  forall b msgs tools,
  exists text tcs b',
    gw b msgs tools
      = (Py.Ok [Conversation.assistant_message text (Some tcs)], b') /\
    Forall (fun tc => Conversation.tc_name tc <> "use_skill") tcs.

End Described.

(* ===================================================================== *)
(** ** The agent's state over a session *)
(* ===================================================================== *)

Module Session.

(** [ag'] is a later state of the agent [ag]: the configuration is the
    same, the activated skills of [ag] are still there, with the same
    bodies and in the same order, followed by the newly activated ones,
    and the loader, if there is one, has the same metadata and resources
    and a body cache that has only grown. *)
Definition grows {B : Type} (ag ag' : BaseAgent.agent B) : Prop :=
  BaseAgent.system_prompt ag' = BaseAgent.system_prompt ag /\
  BaseAgent.max_rounds ag' = BaseAgent.max_rounds ag /\
  BaseAgent.llm_client ag' = BaseAgent.llm_client ag /\
  (exists added,
      BaseAgent.activated_skills ag' = BaseAgent.activated_skills ag ++ added) /\
  match BaseAgent.skill_loader ag, BaseAgent.skill_loader ag' with
  | None, None => True
  | Some ld, Some ld' =>
      SkillLoader.skills_directory ld' = SkillLoader.skills_directory ld /\
      SkillLoader.skill_metadata ld' = SkillLoader.skill_metadata ld /\
      SkillLoader.skill_resources ld' = SkillLoader.skill_resources ld /\
      SkillLoader.skill_content ld ⊆ SkillLoader.skill_content ld'
  | _, _ => False
  end.

(** The activated set agrees with the catalog: no name is activated
    twice, and every activated skill is a discovered one whose body is
    the one the loader has cached. *)
Definition consistent {B : Type} (ag : BaseAgent.agent B) : Prop :=
  NoDup (Py.dict_keys (BaseAgent.activated_skills ag)) /\
  forall skill_name body,
    In (skill_name, body) (BaseAgent.activated_skills ag) ->
    body <> "" /\
    exists ld md,
      BaseAgent.skill_loader ag = Some ld /\
      Py.dict_get skill_name (SkillLoader.skill_metadata ld) = Some md /\
      SkillLoader.skill_content ld !! skill_name = Some body.

(** The two results of the activation tool. *)
Definition activated_text (skill_name : string) : string :=
  "Skill '" +:+ skill_name +:+
  "' activated successfully. You now have access to its full instructions and capabilities.".

Definition failed_text (skill_name : string) : string :=
  "Failed to activate skill '" +:+ skill_name +:+
  "'. Please check if the skill exists.".

End Session.

(* ===================================================================== *)
(** ** The catalog after discovery *)
(* ===================================================================== *)

Module Catalog.

(** An entry of the metadata table is sound on a file system: it is
    filed under its own name, and its folder holds a marker file that
    can be read and begins with the front-matter delimiter. *)
Definition sound_entry (f : SkillLoader.fs) (k : string)
    (md : SkillLoader.metadata) : Prop :=
  SkillLoader.md_name md = k /\
  exists content,
    SkillLoader.read_text f
      (SkillLoader.joinpath (SkillLoader.md_path md) "SKILL.md")
      = Py.Ok content /\
    Py.startswith "---" content = true.

(** The table lists no name twice and every entry is sound. *)
Definition sound (f : SkillLoader.fs)
    (meta : list (string * SkillLoader.metadata)) : Prop :=
  NoDup (Py.dict_keys meta) /\
  forall k md, Py.dict_get k meta = Some md -> sound_entry f k md.

(** The paths of the [read_text] calls of a trace, in order. *)
Definition reads (evs : list SkillLoader.event) : list string :=
  omap (fun e => match e with SkillLoader.EvRead p => Some p | _ => None end)
    evs.

End Catalog.

(* ===================================================================== *)
(** ** main.py: how the parts are wired *)
(* ===================================================================== *)

Module Main.
Import Py.

(** [a or b] on the results of [os.getenv]. *)
Definition or_else (a b : option string) : option string :=
  if LLMClient.truthy_opt a then a else b.

(** The check for an API key and the choice of provider and model;
    [None] when [main] returns for lack of a key. *)
Definition select_provider (getenv : string -> option string)
  : option (string * string) :=
  let api_key :=
    or_else (getenv "OPENAI_API_KEY") (getenv "DEEPSEEK_API_KEY") in
  if negb (LLMClient.truthy_opt api_key) then None
  else
    let provider :=
      if LLMClient.truthy_opt (getenv "DEEPSEEK_API_KEY") then "deepseek"
      else "openai" in
    let model :=
      if String.eqb provider "deepseek" then "deepseek-chat" else "gpt-4" in
    Some (provider, model).

(** [llm_client = LLMClient(model=model, provider=provider)] *)
Definition make_client (getenv : string -> option string)
    (openai_installed : bool) : option (outcome LLMClient.client) :=
  match select_provider getenv with
  | None => None
  | Some (provider, model) =>
      Some (LLMClient.init getenv openai_installed model None None provider)
  end.

(** The agent's gateway once [set_llm_client] has been given the client:
    [self.llm_client.chat(full_messages, tools=tools)]. *)
Definition gateway_of {B : Type}
    (create : B -> LLMClient.api_params -> outcome LLMClient.completion * B)
    (c : LLMClient.client) : BaseAgent.gateway B :=
  fun b messages tools => LLMClient.chat B create c b messages (Some tools).

(** [BaseAgent(system_prompt=..., model=model)] with the client and the
    loader set. *)
Definition make_agent {B : Type}
    (create : B -> LLMClient.api_params -> outcome LLMClient.completion * B)
    (c : LLMClient.client) (ld : SkillLoader.loader) (model : string)
  : BaseAgent.agent B :=
  BaseAgent.mk_agent "You are a helpful AI assistant with access to skills."
    model 100 (Some (gateway_of create c)) (Some ld) [].

End Main.

(* ===================================================================== *)
(** ** A skills directory with two bundles of one name *)
(* ===================================================================== *)

Module Twins.
Import Py.

(** A header that declares no name. *)
Definition plain_header : string :=
  nl +:+ "description: a bundle without a name" +:+ nl.

(** [skills/] holds two bundles whose headers both declare the name
    [pptx], and a bundle whose header declares none. *)
Definition disk : SkillLoader.fs := fun p =>
  if String.eqb p "skills" then
    Some (SkillLoader.Dir ["pptx"; "pptx-old"; "plain"])
  else if String.eqb p "skills/pptx" then Some (SkillLoader.Dir ["SKILL.md"])
  else if String.eqb p "skills/pptx/SKILL.md" then
    Some (SkillLoader.File (Ok Sample.pptx_body))
  else if String.eqb p "skills/pptx-old" then
    Some (SkillLoader.Dir ["SKILL.md"])
  else if String.eqb p "skills/pptx-old/SKILL.md" then
    Some (SkillLoader.File
            (Ok ("---" +:+ Sample.pptx_header +:+ "---" +:+ nl +:+ "old")))
  else if String.eqb p "skills/plain" then Some (SkillLoader.Dir ["SKILL.md"])
  else if String.eqb p "skills/plain/SKILL.md" then
    Some (SkillLoader.File (Ok ("---" +:+ plain_header +:+ "---" +:+ nl)))
  else None.

Definition yaml_safe_load (text : string) : outcome SkillLoader.yamldoc :=
  if String.eqb text plain_header then
    Ok (SkillLoader.YMapping [("description", "a bundle without a name")])
  else Sample.yaml_safe_load text.

End Twins.

(* ===================================================================== *)
(** ** main.py: the interactive loop *)
(* ===================================================================== *)

Module Repl.
Import Py.

(** [str.lower] for one code point below 256: the letters A to Z and the
    capital letters of Latin-1. *)
Definition lower_char (c : ascii) : ascii :=
  let n := nat_of_ascii c in
  if (((65 <=? n) && (n <=? 90))
      || ((192 <=? n) && (n <=? 222) && negb (n =? 215)))%nat
  then ascii_of_nat (n + 32) else c.

Fixpoint lower (s : string) : string :=
  match s with
  | EmptyString => EmptyString
  | String c s' => String (lower_char c) (lower s')
  end.

(** What [input("You: ")] does: it returns a line, raises [EOFError] at
    the end of the input, or is interrupted from the keyboard. *)
Inductive input_result :=
| Line (text : string)
| EndOfInput
| Interrupted.

(** What the loop prints, the separators left out. *)
Inductive shown :=
| Goodbye
| Assistant (response : option string)
| Failed (e : exn).

Definition eof_error : exn := mk_exn "EOFError" "EOF when reading a line".

(** [user_input.lower() in ['quit', 'exit', 'q']] *)
Definition is_quit (user_input : string) : bool :=
  existsb (String.eqb (lower user_input)) ["quit"; "exit"; "q"].

(** Whether an input makes the loop [break]. *)
Definition ends (i : input_result) : bool :=
  match i with
  | Line text => is_quit (strip text)
  | EndOfInput => false
  | Interrupted => true
  end.

Section Loop.
Variable B : Type.
Variable json_loads : bool -> string -> pyval + string.
Variable py_repr : pyval -> string.
Variable call_handler :
  string -> pyval -> SkillLoader.fs -> outcome string * SkillLoader.fs.

(** One pass through the body of [while True]: whether the loop goes
    on, the agent and the world afterwards, and what was printed. *)
Definition turn (ag : BaseAgent.agent B) (w : BaseAgent.world B)
    (i : input_result)
  : bool * BaseAgent.agent B * BaseAgent.world B * list shown :=
  match i with
  | Interrupted => (false, ag, w, [Goodbye])
  | EndOfInput => (true, ag, w, [Failed eof_error])
  | Line text =>
      let user_input := strip text in
      if is_quit user_input then (false, ag, w, [Goodbye])
      else if negb (truthy user_input) then (true, ag, w, [])
      else
        match BaseAgent.process B json_loads py_repr call_handler
                ag user_input w with
        | (Ok response, ag', w') => (true, ag', w', [Assistant response])
        | (Raise e, ag', w') => (true, ag', w', [Failed e])
        end
  end.

(** The loop over the results of the successive calls of [input]:
    whether it is still running after them, with the state and the
    output. What follows a [break] is not read. *)
Fixpoint run (inputs : list input_result) (ag : BaseAgent.agent B)
    (w : BaseAgent.world B)
  : bool * BaseAgent.agent B * BaseAgent.world B * list shown :=
  match inputs with
  | [] => (true, ag, w, [])
  | i :: rest =>
      match turn ag w i with
      | (true, ag', w', out) =>
          let '(running, ag'', w'', out') := run rest ag' w' in
          (running, ag'', w'', out ++ out')
      | (false, ag', w', out) => (false, ag', w', out)
      end
  end.
End Loop.

End Repl.

(* ===================================================================== *)
(** ** core/llm_client.py: the client's own tool dispatch *)
(* ===================================================================== *)

Module Executor.
Import Py Conversation.

(** Truth value of a value. The [repr] of a float that is zero is [0.0]
    or [-0.0]. *)
Definition truth (v : pyval) : bool :=
  match v with
  | PNone => false
  | PBool b => b
  | PInt z => negb (Z.eqb z 0)
  | PFloat r => negb (String.eqb r "0.0" || String.eqb r "-0.0")
  | PStr s => truthy s
  | PList l => match l with [] => false | _ => true end
  | PDict d => match d with [] => false | _ => true end
  end.

(** A tool message as the method builds it. *)
Definition tool_result (tool_call_id name : pyval) (content : string)
  : pyval :=
  PDict [("role", PStr "tool"); ("tool_call_id", tool_call_id);
         ("name", name); ("content", PStr content)].

(** A key of a message dict. *)
Definition field (key : string) (m : pyval) : option pyval :=
  match m with PDict d => dict_get key d | _ => None end.

(** The dict that [LLMClient.chat] builds for a tool call of the
    reply. *)
Definition as_dict (tc : tool_call) : pyval :=
  PDict [("id", PStr (tc_id tc)); ("type", PStr (tc_type tc));
         ("function",
          PDict [("name", PStr (tc_name tc));
                 ("arguments", tc_arguments tc)])].

Section Execute.
Variable json_loads : bool -> string -> pyval + string.
Variable py_repr : pyval -> string.

(** [tool_executor.execute_tool(function_name, args)] of whatever
    object was set: its result or the exception it raises, and the file
    system afterwards. *)
Definition executor : Type :=
  pyval -> pyval -> SkillLoader.fs -> outcome pyval * SkillLoader.fs.

(** [str(v)] *)
Definition py_str (v : pyval) : string :=
  match v with PStr s => s | _ => py_repr v end.

(** One element of the list built when no executor is set. *)
Definition unconfigured (tc : pyval) : outcome pyval :=
  match get_attr_get tc "id" PNone with
  | Raise e => Raise e
  | Ok tool_call_id =>
      match get_attr_get tc "function" (PDict []) with
      | Raise e => Raise e
      | Ok func =>
          match get_attr_get func "name" (PStr "unknown") with
          | Raise e => Raise e
          | Ok name =>
              Ok (tool_result tool_call_id name
                    "Error: No tool executor configured")
          end
      end
  end.

Fixpoint unconfigured_all (tool_calls : list pyval) : outcome (list pyval) :=
  match tool_calls with
  | [] => Ok []
  | tc :: rest =>
      match unconfigured tc with
      | Raise e => Raise e
      | Ok m =>
          match unconfigured_all rest with
          | Raise e => Raise e
          | Ok ms => Ok (m :: ms)
          end
      end
  end.

(** One iteration of [for tool_call in tool_calls]: the message that is
    appended, if any. *)
Definition answer (ex : executor) (tool_call : pyval) (f : SkillLoader.fs)
  : outcome (option pyval) * SkillLoader.fs :=
  match get_attr_get tool_call "id" PNone with
  | Raise e => (Raise e, f)
  | Ok tool_call_id =>
      match get_attr_get tool_call "function" PNone with
      | Raise e => (Raise e, f)
      | Ok func_info =>
          if negb (truth func_info) || negb (truth tool_call_id)
          then (Ok None, f)
          else
            match get_attr_get func_info "name" PNone with
            | Raise e => (Raise e, f)
            | Ok function_name =>
                match get_attr_get func_info "arguments" (PStr "{}") with
                | Raise e => (Raise e, f)
                | Ok arguments_str =>
                    match arguments_str with
                    | PStr s =>
                        let parsed :=
                          if truthy (strip s) then json_loads true s
                          else inl (PDict []) in
                        match parsed with
                        | inr e =>
                            (Ok (Some (tool_result tool_call_id function_name
                                         ("Failed to parse arguments: "
                                          +:+ e))), f)
                        | inl args =>
                            match ex function_name args f with
                            | (Ok result, f') =>
                                (Ok (Some (tool_result tool_call_id
                                             function_name (py_str result))),
                                 f')
                            | (Raise e, f') =>
                                (Ok (Some (tool_result tool_call_id
                                             function_name
                                             ("Error executing " +:+
                                              py_str function_name +:+ ": "
                                              +:+ exn_text e))), f')
                            end
                        end
                    | _ =>
                        (* [arguments_str.strip()] on a value that is no
                           [str] *)
                        (Raise (mk_exn "AttributeError"
                                  ("'" +:+ type_name arguments_str +:+
                                   "' object has no attribute 'strip'")), f)
                    end
                end
            end
      end
  end.

Fixpoint answer_all (ex : executor) (tool_calls : list pyval)
    (f : SkillLoader.fs) : outcome (list pyval) * SkillLoader.fs :=
  match tool_calls with
  | [] => (Ok [], f)
  | tool_call :: rest =>
      match answer ex tool_call f with
      | (Raise e, f') => (Raise e, f')
      | (Ok m, f') =>
          match answer_all ex rest f' with
          | (Raise e, f'') => (Raise e, f'')
          | (Ok ms, f'') =>
              (Ok (match m with Some m => m :: ms | None => ms end), f'')
          end
      end
  end.

(** [LLMClient._execute_tool_calls] *)
Definition _execute_tool_calls (tool_executor : option executor)
    (tool_calls : list pyval) (f : SkillLoader.fs)
  : outcome (list pyval) * SkillLoader.fs :=
  match tool_executor with
  | None => (unconfigured_all tool_calls, f)
  | Some ex => answer_all ex tool_calls f
  end.
End Execute.

End Executor.

(* ===================================================================== *)
(** ** Conversations that an invocation can reach *)
(* ===================================================================== *)

Module Transcript.
Import Conversation.

(** [grown gw start final]: the conversation [final] comes from [start]
    by rounds of the loop, each of which appends a reply that the
    gateway gave to the conversation as it stood, followed by tool
    messages. *)
Inductive grown {B : Type} (gw : BaseAgent.gateway B)
  : list message -> list message -> Prop :=
| grown_refl (start : list message) : grown gw start start
| grown_round (start reply answers final : list message) (b b' : B)
    (tools : list tool_schema) :
    gw b start tools = (Py.Ok reply, b') ->
    Forall (fun m => role m = "tool") answers ->
    grown gw (start ++ reply ++ answers) final ->
    grown gw start final.

End Transcript.

(* ===================================================================== *)
(** * Properties *)
(* ===================================================================== *)

Import Py Conversation.

(** ** Strings *)

Lemma app_cons c a b : String c a +:+ b = String c (a +:+ b).
Proof. reflexivity. Qed.

Lemma app_nil b : "" +:+ b = b.
Proof. reflexivity. Qed.

Lemma prefix_app p r : String.prefix p (p +:+ r) = true.
Proof.
  induction p as [|c p IH].
  - rewrite app_nil. by destruct r.
  - rewrite app_cons. simpl. destruct (ascii_dec c c); [apply IH | congruence].
Qed.

Lemma prefix_true p s :
  String.prefix p s = true -> s = p +:+ drop (String.length p) s.
Proof.
  revert s. induction p as [|c p IH]; intros s H.
  - by destruct s.
  - destruct s as [|d s]; [discriminate|]. simpl in H.
    destruct (ascii_dec c d) as [->|]; [|discriminate].
    rewrite app_cons. simpl. f_equal. by apply IH.
Qed.

Lemma drop_app p r : drop (String.length p) (p +:+ r) = r.
Proof.
  induction p as [|c p IH]; [by destruct r | rewrite app_cons; exact IH].
Qed.

Lemma cut_eq sep s :
  cut sep s =
  if startswith sep s then Some (EmptyString, drop (String.length sep) s)
  else match s with
       | EmptyString => None
       | String c s' =>
           match cut sep s' with
           | Some (a, b) => Some (String c a, b)
           | None => None
           end
       end.
Proof. by destruct s. Qed.

Lemma startswith_app p r : startswith p (p +:+ r) = true.
Proof. apply prefix_app. Qed.

Lemma cut_some sep s a b :
  cut sep s = Some (a, b) -> s = a +:+ sep +:+ b.
Proof.
  revert a b. induction s as [|c s IH]; intros a b; rewrite cut_eq;
    destruct (startswith sep _) eqn:E.
  - intros [= <- <-]. rewrite app_nil. by apply prefix_true in E.
  - discriminate.
  - intros [= <- <-]. rewrite app_nil. by apply prefix_true in E.
  - destruct (cut sep s) as [[a0 b0]|] eqn:C; [|discriminate].
    intros [= <- <-]. rewrite app_cons. f_equal. by apply IH.
Qed.

Lemma cut_leftmost sep s a b a' b' :
  cut sep s = Some (a, b) -> s = a' +:+ sep +:+ b' ->
  String.length a <= String.length a'.
Proof.
  revert a b a'. induction s as [|c s IH]; intros a b a'; rewrite cut_eq;
    destruct (startswith sep _) eqn:E.
  - intros [= <- <-] _. simpl. lia.
  - discriminate.
  - intros [= <- <-] _. simpl. lia.
  - destruct (cut sep s) as [[a0 b0]|] eqn:C; [|discriminate].
    intros [= <- <-] Hs. destruct a' as [|d a'].
    + rewrite app_nil in Hs. rewrite Hs, startswith_app in E. discriminate.
    + rewrite app_cons in Hs. injection Hs as -> ->. simpl.
      specialize (IH a0 b0 a' eq_refl eq_refl). lia.
Qed.

Lemma cut_none sep s a' b' :
  cut sep s = None -> s <> a' +:+ sep +:+ b'.
Proof.
  revert a'. induction s as [|c s IH]; intros a'; rewrite cut_eq;
    destruct (startswith sep _) eqn:E; try discriminate; intros H Hs.
  - destruct a'; [|discriminate].
    rewrite app_nil in Hs. by rewrite Hs, startswith_app in E.
  - destruct (cut sep s) as [[a0 b0]|] eqn:C; [discriminate|].
    destruct a' as [|d a'].
    + rewrite app_nil in Hs. rewrite Hs, startswith_app in E. discriminate.
    + rewrite app_cons in Hs. injection Hs as -> Hs. by apply (IH a').
Qed.

(** ** Front matter *)

Lemma split_delimited rest :
  split "---" ("---" +:+ rest) 2 =
  match cut "---" rest with
  | Some (a, b) => [""; a; b]
  | None => [""; rest]
  end.
Proof.
  cbn [split]. rewrite cut_eq, startswith_app, (drop_app "---" rest).
  by destruct (cut "---" rest) as [[a b]|].
Qed.

Lemma frontmatter_text_delimited rest :
  SkillLoader.frontmatter_text ("---" +:+ rest) =
  Some (match cut "---" rest with Some (a, _) => a | None => rest end).
Proof.
  unfold SkillLoader.frontmatter_text.
  rewrite startswith_app, split_delimited.
  by destruct (cut "---" rest) as [[a b]|].
Qed.

Lemma frontmatter_text_between rest :
  exists text,
    SkillLoader.frontmatter_text ("---" +:+ rest) = Some text /\
    Described.header_between rest text.
Proof.
  rewrite frontmatter_text_delimited.
  destruct (cut "---" rest) as [[a b]|] eqn:C; eexists; split; try reflexivity.
  - left. exists b. split; [by apply cut_some|].
    intros a' b' H. by apply (cut_leftmost _ _ _ _ _ _ C H).
  - right. split; [|done]. intros a' b'. by apply cut_none.
Qed.

Section FrontMatter.
Variable yaml_safe_load : string -> outcome SkillLoader.yamldoc.

(** The metadata built from a header that decodes to the mapping [d]. *)
Let metadata_of (folder : string) (d : list (string * string)) :=
  SkillLoader.mk_metadata
    (default (SkillLoader.basename folder) (dict_get "name" d))
    (default "" (dict_get "description" d))
    folder
    (default "" (dict_get "license" d)).

Lemma load_metadata_delimited f folder rest :
  SkillLoader.read_text f (SkillLoader.joinpath folder "SKILL.md")
    = Ok ("---" +:+ rest) ->
  fst (SkillLoader._load_skill_metadata yaml_safe_load f folder) =
  match yaml_safe_load
          (match cut "---" rest with Some (a, _) => a | None => rest end)
  with
  | Raise e => Raise e
  | Ok (SkillLoader.YMapping d) => Ok (Some (metadata_of folder d))
  | Ok (SkillLoader.YOther ty) =>
      Raise (mk_exn "AttributeError"
               ("'" +:+ ty +:+ "' object has no attribute 'get'"))
  end.
Proof.
  intros Hread. unfold SkillLoader._load_skill_metadata. cbn [fst].
  rewrite Hread, frontmatter_text_delimited.
  destruct (yaml_safe_load _) as [[d|ty]|e]; reflexivity.
Qed.

(** C10. A marker file that begins with the delimiter is accepted
    whether or not the delimiter occurs again: the header text handed
    to the YAML decoder is the text up to the next delimiter, or the
    whole remainder of the file when there is none; when it decodes to
    a mapping the metadata is built from it and the bundle is
    registered by discovery. *)
Theorem frontmatter_needs_no_closing_delimiter f folder rest :
  SkillLoader.read_text f (SkillLoader.joinpath folder "SKILL.md")
    = Ok ("---" +:+ rest) ->
  exists text,
    Described.header_between rest text /\
    ((forall a b, rest <> a +:+ "---" +:+ b) -> text = rest) /\
    (forall e,
        yaml_safe_load text = Raise e ->
        fst (SkillLoader._load_skill_metadata yaml_safe_load f folder)
          = Raise e) /\
    (forall d,
        yaml_safe_load text = Ok (SkillLoader.YMapping d) ->
        fst (SkillLoader._load_skill_metadata yaml_safe_load f folder)
          = Ok (Some (metadata_of folder d)) /\
        forall meta,
          fst (SkillLoader.load_folder yaml_safe_load f folder meta)
            = dict_set (SkillLoader.md_name (metadata_of folder d))
                (metadata_of folder d) meta).
Proof.
  intros Hread.
  pose proof (load_metadata_delimited f folder rest Hread) as Hload.
  destruct (frontmatter_text_between rest) as (text & Htext & Hbetween).
  rewrite frontmatter_text_delimited in Htext. injection Htext as Htext.
  rewrite Htext in Hload. exists text. split; [exact Hbetween|].
  split; [|split].
  - intros Hnone. destruct Hbetween as [(after & Heq & _)|[_ ?]]; [|done].
    by destruct (Hnone _ _ Heq).
  - intros e He. by rewrite Hload, He.
  - intros d Hd. rewrite Hd in Hload. split; [exact Hload|].
    intros meta. unfold SkillLoader.load_folder.
    destruct (SkillLoader._load_skill_metadata yaml_safe_load f folder)
      as [r ev]. cbn [fst] in Hload. by subst r.
Qed.
End FrontMatter.

(** The bundle [skills/notes] of the sample disk never closes its front
    matter and is discovered. *)
Lemma frontmatter_needs_no_closing_delimiter_witness :
  exists text,
    Described.header_between Sample.open_header text /\
    text = Sample.open_header /\
    fst (SkillLoader.load_folder Sample.yaml_safe_load Sample.disk
           "skills/notes" [])
      = [("notes", Sample.notes_metadata)].
Proof.
  destruct (frontmatter_needs_no_closing_delimiter Sample.yaml_safe_load
              Sample.disk "skills/notes" Sample.open_header eq_refl)
    as (text & Hb & Hrest & _ & Hmap).
  assert (text = Sample.open_header) as ->.
  { apply Hrest. intros a b. apply cut_none. by vm_compute. }
  exists Sample.open_header. split; [exact Hb|]. split; [reflexivity|].
  destruct (Hmap [("name", "notes"); ("description", "take notes")] eq_refl)
    as [_ Hreg].
  exact (Hreg []).
Defined.

(** ** The loader's caches *)

Lemma set_skill_resources_same ld :
  SkillLoader.set_skill_resources ld (SkillLoader.skill_resources ld) = ld.
Proof. by destruct ld. Qed.

(** A cached body is returned as it is, whatever the file system holds. *)
Lemma activate_skill_cached f ld skill_name md body :
  dict_get skill_name (SkillLoader.skill_metadata ld) = Some md ->
  SkillLoader.skill_content ld !! skill_name = Some body ->
  SkillLoader.activate_skill f ld skill_name = (Some body, ld, []).
Proof.
  intros Hmd Hc. unfold SkillLoader.activate_skill. by rewrite Hmd, Hc.
Qed.

(** What a successful activation leaves behind. *)
Lemma activate_skill_some f ld skill_name md body ld1 ev1 :
  dict_get skill_name (SkillLoader.skill_metadata ld) = Some md ->
  SkillLoader.activate_skill f ld skill_name = (Some body, ld1, ev1) ->
  SkillLoader.skill_metadata ld1 = SkillLoader.skill_metadata ld /\
  SkillLoader.skill_content ld1 !! skill_name = Some body /\
  SkillLoader.skill_resources ld1 = SkillLoader.skill_resources ld /\
  forall p, SkillLoader.reads_of p ev1 <= 1.
Proof.
  intros Hmd. unfold SkillLoader.activate_skill. rewrite Hmd.
  destruct (SkillLoader.skill_content ld !! skill_name) as [c|] eqn:Hc.
  - intros [= <- <- <-]. repeat split; try done. intros p. cbn. lia.
  - destruct (SkillLoader.read_text f _) as [c|e]; [|discriminate].
    intros [= <- <- <-]. cbn. repeat split; try done.
    + by rewrite lookup_insert_eq.
    + intros p. unfold SkillLoader.reads_of. cbn.
      destruct (String.eqb p _); cbn; lia.
Qed.

Lemma load_resource_some f ld skill_name resource_path md c ld1 ev1 :
  dict_get skill_name (SkillLoader.skill_metadata ld) = Some md ->
  SkillLoader.load_resource f ld skill_name resource_path = (Some c, ld1, ev1) ->
  SkillLoader.skill_metadata ld1 = SkillLoader.skill_metadata ld /\
  SkillLoader.skill_content ld1 = SkillLoader.skill_content ld /\
  SkillLoader.path_exists f
    (SkillLoader.joinpath (SkillLoader.md_path md) resource_path) = true /\
  (exists cache,
      SkillLoader.skill_resources ld1 !! skill_name = Some cache /\
      cache !! resource_path = Some c) /\
  forall p, SkillLoader.reads_of p ev1 <= 1.
Proof.
  intros Hmd. unfold SkillLoader.load_resource. rewrite Hmd.
  destruct (SkillLoader.path_exists f _) eqn:Hex; [|discriminate]. cbn [negb].
  set (resources :=
         match SkillLoader.skill_resources ld !! skill_name with
         | Some _ => SkillLoader.skill_resources ld
         | None => <[skill_name:=∅]> (SkillLoader.skill_resources ld)
         end).
  assert (exists cache0, resources !! skill_name = Some cache0) as [cache0 H0].
  { subst resources.
    destruct (SkillLoader.skill_resources ld !! skill_name) eqn:E; eauto.
    rewrite lookup_insert_eq. eauto. }
  rewrite H0. cbn [from_option id].
  destruct (cache0 !! resource_path) as [c0|] eqn:Hc0.
  - intros [= <- <- <-]. cbn. repeat split; try done; [eauto|].
    intros p. cbn. lia.
  - destruct (SkillLoader.read_text f _) as [c1|e]; [|discriminate].
    intros [= <- <- <-]. cbn. repeat split; try done.
    + eexists. split; [apply lookup_insert_eq | apply lookup_insert_eq].
    + intros p. unfold SkillLoader.reads_of. cbn.
      destruct (String.eqb p _); cbn; lia.
Qed.

(** A cached resource is returned without a read while its file exists. *)
Lemma load_resource_cached f ld skill_name resource_path md cache c :
  dict_get skill_name (SkillLoader.skill_metadata ld) = Some md ->
  SkillLoader.path_exists f
    (SkillLoader.joinpath (SkillLoader.md_path md) resource_path) = true ->
  SkillLoader.skill_resources ld !! skill_name = Some cache ->
  cache !! resource_path = Some c ->
  SkillLoader.load_resource f ld skill_name resource_path = (Some c, ld, []).
Proof.
  intros Hmd Hex Hcache Hc. unfold SkillLoader.load_resource.
  rewrite Hmd, Hex, Hcache. cbn [negb]. rewrite Hcache. cbn [from_option id].
  by rewrite Hc, set_skill_resources_same.
Qed.

(** C8. For a name that was not discovered, [activate_skill] and
    [load_resource] return [None] (they are total functions: nothing is
    raised), report the name as not found, and leave the loader, with
    both caches, as it was. *)
Theorem unknown_skill_is_absent f ld skill_name resource_path :
  dict_get skill_name (SkillLoader.skill_metadata ld) = None ->
  SkillLoader.activate_skill f ld skill_name
    = (None, ld, [SkillLoader.EvSkillNotFound skill_name]) /\
  SkillLoader.load_resource f ld skill_name resource_path
    = (None, ld, [SkillLoader.EvSkillNotFound skill_name]).
Proof.
  intros H. unfold SkillLoader.activate_skill, SkillLoader.load_resource.
  by rewrite H.
Qed.

Lemma unknown_skill_is_absent_witness :
  SkillLoader.activate_skill Sample.disk Sample.catalog "docx"
    = (None, Sample.catalog, [SkillLoader.EvSkillNotFound "docx"]) /\
  SkillLoader.load_resource Sample.disk Sample.catalog "docx" "ooxml.md"
    = (None, Sample.catalog, [SkillLoader.EvSkillNotFound "docx"]).
Proof.
  apply (unknown_skill_is_absent Sample.disk Sample.catalog "docx" "ooxml.md").
  reflexivity.
Defined.



(** ** Discovery *)

Section DiscoveryFacts.
Variable yaml_safe_load : string -> outcome SkillLoader.yamldoc.
Variable f : SkillLoader.fs.

Lemma load_folders_fold folders meta :
  fst (SkillLoader.load_folders yaml_safe_load f folders meta) =
  fold_left (fun m md => dict_set (SkillLoader.md_name md) md m)
    (Described.valid_bundles yaml_safe_load f folders) meta.
Proof.
  revert meta. induction folders as [|folder rest IH]; intros meta;
    [reflexivity|].
  cbn [SkillLoader.load_folders Described.valid_bundles omap list_omap].
  specialize (IH (fst (SkillLoader.load_folder yaml_safe_load f folder meta))).
  unfold SkillLoader.load_folder in *.
  destruct (SkillLoader._load_skill_metadata yaml_safe_load f folder)
    as [[[md|]|e] ev]; cbn [fst] in *;
    destruct (SkillLoader.load_folders yaml_safe_load f rest _) as [m2 ev2];
    cbn [fst] in *; exact IH.
Qed.

Lemma skill_folders_skip before item after :
  SkillLoader.is_dir f item
    && SkillLoader.path_exists f (SkillLoader.joinpath item "SKILL.md")
    = false ->
  SkillLoader.skill_folders f (before ++ item :: after)
  = SkillLoader.skill_folders f (before ++ after).
Proof.
  intros H. unfold SkillLoader.skill_folders.
  rewrite !List.filter_app. cbn [List.filter]. by rewrite H.
Qed.

Lemma load_folder_raises folder meta e :
  fst (SkillLoader._load_skill_metadata yaml_safe_load f folder) = Raise e ->
  SkillLoader.load_folder yaml_safe_load f folder meta =
  (meta, [SkillLoader.EvRead (SkillLoader.joinpath folder "SKILL.md");
          SkillLoader.EvFailedToLoad (SkillLoader.basename folder) e]).
Proof.
  unfold SkillLoader.load_folder, SkillLoader._load_skill_metadata.
  cbn [fst]. by intros ->.
Qed.

Lemma init_ok dir :
  SkillLoader.path_exists f dir = true ->
  SkillLoader.init f dir = Ok (SkillLoader.mk_loader dir [] ∅ ∅).
Proof. unfold SkillLoader.init. by intros ->. Qed.


(** A root that exists but is a regular file passes the constructor's
    check, and [discover_skills] raises when it lists the root. *)
Lemma discover_skills_on_a_file dir text :
  f dir = Some (SkillLoader.File text) ->
  exists ld e,
    SkillLoader.init f dir = Ok ld /\
    SkillLoader.discover_skills yaml_safe_load f ld = (Raise e, ld, []) /\
    exn_class e = "NotADirectoryError".
Proof.
  intros Hfile. eexists (SkillLoader.mk_loader dir [] ∅ ∅), _.
  split; [|split].
  - apply init_ok. unfold SkillLoader.path_exists. by rewrite Hfile.
  - unfold SkillLoader.discover_skills, SkillLoader.iterdir.
    cbn [SkillLoader.skills_directory]. by rewrite Hfile.
  - reflexivity.
Qed.
End DiscoveryFacts.


(** ** Tool-argument parsing *)

Lemma take_length n s :
  n <= String.length s -> String.length (take n s) = n.
Proof.
  revert s. induction n as [|n IH]; intros [|c s] H; cbn in *; try lia.
  rewrite IH; lia.
Qed.

Lemma take_drop n s : take n s +:+ drop n s = s.
Proof.
  revert s. induction n as [|n IH]; intros [|c s]; try reflexivity.
  cbn [take drop]. rewrite app_cons. by rewrite IH.
Qed.

Lemma take_all n s : String.length s <= n -> take n s = s.
Proof.
  revert s. induction n as [|n IH]; intros [|c s] H; cbn in *;
    try reflexivity; try lia.
  f_equal. apply IH. lia.
Qed.

Lemma app_empty_r s : s +:+ "" = s.
Proof.
  induction s as [|c s IH]; [reflexivity|]. rewrite app_cons. by rewrite IH.
Qed.

Section ParseToolArgs.
Variable json_loads : bool -> string -> pyval + string.

(** The echo of the raw payload in a parse error. *)
Let echo (text : string) : string :=
  if (200 <? String.length (strip text))%nat
  then take 200 (strip text) +:+ "...(truncated)"
  else strip text.

End ParseToolArgs.


(** ** The gateway *)

Lemma init_client_ready getenv installed model key url provider c :
  LLMClient.init getenv installed model key url provider = Ok c ->
  LLMClient.client_ready c = true.
Proof.
  unfold LLMClient.init.
  destruct (negb _); [discriminate|]. destruct installed; [|discriminate].
  by intros [= <-].
Qed.

Section GatewayFacts.
Variable B : Type.
Variable create : B -> LLMClient.api_params -> outcome LLMClient.completion * B.

(** With the API client in place, [LLMClient.chat] raises nothing and
    returns one assistant message. *)
Lemma llm_chat_one_assistant_message c b messages tools :
  LLMClient.client_ready c = true ->
  exists m b',
    LLMClient.chat B create c b messages tools = (Ok [m], b') /\
    role m = "assistant".
Proof.
  intros Hready. unfold LLMClient.chat. rewrite Hready. cbn [negb].
  destruct (create b _) as [[completion|e] b']; [|by eexists _, _].
  destruct (LLMClient.choices completion) as [|message ?]; [by eexists _, _|].
  destruct (LLMClient.am_tool_calls message) as [[|? ?]|]; by eexists _, _.
Qed.

Lemma llm_chat_failure c b messages tools e b' :
  LLMClient.client_ready c = true ->
  create b (LLMClient.build_params c messages tools) = (Raise e, b') ->
  LLMClient.chat B create c b messages tools
    = (Ok [LLMClient.error_reply e], b').
Proof.
  intros Hready Hfail. unfold LLMClient.chat.
  by rewrite Hready, Hfail.
Qed.
End GatewayFacts.

(** ** The reasoning loop *)

Section LoopFacts.
Variable B : Type.
Variable json_loads : bool -> string -> pyval + string.
Variable py_repr : pyval -> string.
Variable call_handler :
  string -> pyval -> SkillLoader.fs -> outcome string * SkillLoader.fs.

Abbreviation round := (BaseAgent.round B json_loads py_repr call_handler).
Abbreviation react_loop := (BaseAgent.react_loop B json_loads py_repr call_handler).
Abbreviation process_tool_call :=
  (BaseAgent.process_tool_call B json_loads py_repr call_handler).
Abbreviation process_tool_calls :=
  (BaseAgent.process_tool_calls B json_loads py_repr call_handler).

(** A round whose reply ends in an assistant message without tool calls
    returns that message. *)
Lemma round_plain_reply gw full_messages (ag : BaseAgent.agent B) w
    response m b' :
  gw (BaseAgent.w_backend w) full_messages (BaseAgent.offered_tools B ag)
    = (Ok response, b') ->
  last (full_messages ++ response) = Some m ->
  role m = "assistant" ->
  tool_calls m = None ->
  round gw full_messages ag w
    = (BaseAgent.Return m, ag, BaseAgent.after_call B w full_messages b').
Proof.
  intros Hgw Hlast Hrole Hcalls. unfold BaseAgent.round.
  by rewrite Hgw, Hlast, Hrole, Hcalls.
Qed.

(** C9. A client built by the constructor never raises from [chat]: it
    returns one assistant message, and when the call of the endpoint
    fails with an exception, that message is an assistant message whose
    content is the text of the error. The loop takes it for a plain
    reply: the round returns it and [chat] ends with it as its result,
    without an exception. *)
Theorem backend_failure_is_a_final_reply
    (create : B -> LLMClient.api_params -> outcome LLMClient.completion * B)
    getenv installed model key url provider c
    (ag : BaseAgent.agent B) full_messages w e b' :
  LLMClient.init getenv installed model key url provider = Ok c ->
  create (BaseAgent.w_backend w)
    (LLMClient.build_params c full_messages
       (Some (BaseAgent.offered_tools B ag)))
    = (Raise e, b') ->
  let gw : BaseAgent.gateway B :=
    fun b messages tools => LLMClient.chat B create c b messages (Some tools) in
  let reply := assistant_message (Some ("Error: " +:+ exn_text e)) None in
  (forall b messages tools,
      exists m b1,
        LLMClient.chat B create c b messages tools = (Ok [m], b1) /\
        role m = "assistant") /\
  LLMClient.chat B create c (BaseAgent.w_backend w) full_messages
    (Some (BaseAgent.offered_tools B ag)) = (Ok [reply], b') /\
  round gw full_messages ag w
    = (BaseAgent.Return reply, ag, BaseAgent.after_call B w full_messages b') /\
  forall rounds,
    react_loop gw (S rounds) full_messages ag w
      = (Ok reply, ag, BaseAgent.after_call B w full_messages b').
Proof.
  intros Hinit Hfail gw reply.
  pose proof (init_client_ready _ _ _ _ _ _ _ Hinit) as Hready.
  pose proof (llm_chat_failure B create c _ _ _ e b' Hready Hfail) as Hchat.
  assert (round gw full_messages ag w
          = (BaseAgent.Return reply, ag,
             BaseAgent.after_call B w full_messages b')) as Hround.
  { apply (round_plain_reply gw full_messages ag w [reply] reply b');
      [exact Hchat | apply last_snoc | reflexivity | reflexivity]. }
  split; [|split; [exact Hchat|split; [exact Hround|]]].
  - intros b messages tools.
    by apply llm_chat_one_assistant_message.
  - intros rounds. cbn [BaseAgent.react_loop]. by rewrite Hround.
Qed.
End LoopFacts.

(** An endpoint out of reach: the conversation ends with the error text
    as the assistant's reply. *)
Lemma backend_failure_is_a_final_reply_witness :
  exists c w',
    LLMClient.init Sample.getenv true "gpt-4" None None "openai" = Ok c /\
    BaseAgent.chat nat Sample.json_loads Sample.py_repr Sample.call_handler
      (Sample.agent_with
         (fun b messages tools =>
            LLMClient.chat nat Sample.unreachable c b messages (Some tools))
         100 (Some Sample.catalog))
      [user_message "hello"] Sample.start
    = (Ok (assistant_message (Some "Error: Connection error.") None),
       Sample.agent_with
         (fun b messages tools =>
            LLMClient.chat nat Sample.unreachable c b messages (Some tools))
         100 (Some Sample.catalog),
       w').
Proof.
  eexists _, _. split; [reflexivity|].
  unfold BaseAgent.chat.
  cbn [BaseAgent.llm_client Sample.agent_with BaseAgent.max_rounds].
  change (Z.to_nat 100) with (S 99).
  destruct (backend_failure_is_a_final_reply nat Sample.json_loads
              Sample.py_repr Sample.call_handler Sample.unreachable
              Sample.getenv true "gpt-4" None None "openai" _
              (Sample.agent_with
                 (fun b messages tools =>
                    LLMClient.chat nat Sample.unreachable
                      (LLMClient.mk_client "gpt-4" "openai" "sk-test"
                         "https://api.openai.com/v1" true)
                      b messages (Some tools))
                 100 (Some Sample.catalog))
              (system_message
                 (BaseAgent.system_content nat
                    (Sample.agent_with
                       (fun b messages tools =>
                          LLMClient.chat nat Sample.unreachable
                            (LLMClient.mk_client "gpt-4" "openai" "sk-test"
                               "https://api.openai.com/v1" true)
                            b messages (Some tools))
                       100 (Some Sample.catalog)))
               :: [user_message "hello"])
              Sample.start
              (mk_exn "APIConnectionError" "Connection error.") 1
              eq_refl eq_refl) as (_ & _ & _ & Hloop).
  exact (Hloop 99).
Defined.

Section LoopInvariants.
Variable B : Type.
Variable json_loads : bool -> string -> pyval + string.
Variable py_repr : pyval -> string.
Variable call_handler :
  string -> pyval -> SkillLoader.fs -> outcome string * SkillLoader.fs.

Abbreviation round := (BaseAgent.round B json_loads py_repr call_handler).
Abbreviation react_loop :=
  (BaseAgent.react_loop B json_loads py_repr call_handler).
Abbreviation process_tool_call :=
  (BaseAgent.process_tool_call B json_loads py_repr call_handler).
Abbreviation process_tool_calls :=
  (BaseAgent.process_tool_calls B json_loads py_repr call_handler).
Abbreviation registry_result :=
  (Described.registry_result json_loads call_handler).

Lemma set_fs_same (w : BaseAgent.world B) :
  BaseAgent.set_fs B w (BaseAgent.w_fs w) = w.
Proof. by destruct w. Qed.

(** A request for anything but [use_skill] raises nothing and appends its
    tool message. *)
Lemma process_tool_call_registry tc full_messages (ag : BaseAgent.agent B) w :
  tc_name tc <> "use_skill" ->
  process_tool_call tc full_messages ag w =
  (Ok (full_messages ++
       [tool_message (tc_id tc) (tc_name tc)
          (fst (registry_result tc (BaseAgent.w_fs w)))]),
   ag, BaseAgent.set_fs B w (snd (registry_result tc (BaseAgent.w_fs w)))).
Proof.
  intros Hname. apply String.eqb_neq in Hname.
  unfold BaseAgent.process_tool_call, Described.registry_result.
  destruct (BaseAgent._parse_tool_args _ _ _) as [args parse_error].
  destruct (BaseAgent.truthy_opt parse_error).
  - cbn [fst snd]. by rewrite set_fs_same.
  - rewrite Hname.
    by destruct (BaseTools.execute_tool _ _ _ _) as [r f'].
Qed.

(** The effects of [activate_skill] on the world are loader events. *)
Lemma activate_skill_world (ag : BaseAgent.agent B) w skill_name r ag' w' :
  BaseAgent.activate_skill B py_repr ag w skill_name = (r, ag', w') ->
  BaseAgent.w_calls w' = BaseAgent.w_calls w /\
  BaseAgent.w_backend w' = BaseAgent.w_backend w /\
  BaseAgent.llm_client ag' = BaseAgent.llm_client ag.
Proof.
  unfold BaseAgent.activate_skill.
  destruct (BaseAgent.skill_loader ag) as [ld|]; [|by intros [= <- <- <-]].
  destruct (hashable skill_name); cbn [negb]; [|by intros [= <- <- <-]].
  destruct skill_name; try by intros [= <- <- <-].
  destruct (dict_mem s _); [by intros [= <- <- <-]|].
  destruct (SkillLoader.activate_skill _ _ _) as [[content ld'] ev].
  destruct (BaseAgent.truthy_opt content); by intros [= <- <- <-].
Qed.

Lemma process_tool_call_world tc full_messages (ag : BaseAgent.agent B) w
    r ag' w' :
  process_tool_call tc full_messages ag w = (r, ag', w') ->
  BaseAgent.w_calls w' = BaseAgent.w_calls w /\
  BaseAgent.w_backend w' = BaseAgent.w_backend w /\
  BaseAgent.llm_client ag' = BaseAgent.llm_client ag /\
  forall msgs, r = Ok msgs -> exists m, msgs = full_messages ++ [m].
Proof.
  unfold BaseAgent.process_tool_call.
  destruct (BaseAgent._parse_tool_args _ _ _) as [args parse_error].
  destruct (BaseAgent.truthy_opt parse_error).
  { intros [= <- <- <-]. repeat split; try done.
    intros msgs [= <-]. eauto. }
  destruct (String.eqb (tc_name tc) "use_skill").
  - destruct (get_attr_get _ "skill_name" _) as [skill_name|e];
      [|intros [= <- <- <-]; repeat split; try done].
    destruct (get_attr_get _ "reason" _) as [reason|e];
      [|intros [= <- <- <-]; repeat split; try done].
    unfold BaseAgent._handle_use_skill.
    destruct (BaseAgent.activate_skill B py_repr ag w skill_name)
      as [[res ag1] w1] eqn:Hact.
    destruct (activate_skill_world _ _ _ _ _ _ Hact) as (Hc & Hb & Hl).
    destruct res as [[|]|e]; intros [= <- <- <-]; repeat split; try done;
      intros msgs [= <-]; eauto.
  - destruct (BaseTools.execute_tool _ _ _ _) as [res f'].
    intros [= <- <- <-]. repeat split; try done.
    intros msgs [= <-]. eauto.
Qed.

Lemma process_tool_calls_world tcs full_messages (ag : BaseAgent.agent B) w
    r ag' w' :
  process_tool_calls tcs full_messages ag w = (r, ag', w') ->
  BaseAgent.w_calls w' = BaseAgent.w_calls w /\
  BaseAgent.w_backend w' = BaseAgent.w_backend w /\
  BaseAgent.llm_client ag' = BaseAgent.llm_client ag /\
  forall msgs, r = Ok msgs -> exists suffix, msgs = full_messages ++ suffix.
Proof.
  revert full_messages ag w.
  induction tcs as [|tc rest IH]; intros full_messages ag w;
    cbn [BaseAgent.process_tool_calls].
  - intros [= <- <- <-]. repeat split; try done.
    intros msgs [= <-]. exists []. by rewrite app_nil_r.
  - destruct (process_tool_call tc full_messages ag w)
      as [[[msgs1|e] ag1] w1] eqn:Hone;
      destruct (process_tool_call_world _ _ _ _ _ _ _ Hone)
        as (Hc & Hb & Hl & Hm).
    + intros Hrest. destruct (IH _ _ _ Hrest) as (Hc' & Hb' & Hl' & Hm').
      repeat split; try congruence.
      intros msgs Hr. destruct (Hm' _ Hr) as [suffix ->].
      destruct (Hm _ eq_refl) as [m ->]. exists (m :: suffix).
      by rewrite <- app_assoc.
    + intros [= <- <- <-]. repeat split; try done.
Qed.

(** Every round makes exactly one gateway call, with the conversation as
    it stood when the round began. *)
Lemma round_world gw full_messages (ag : BaseAgent.agent B) w r ag' w' :
  round gw full_messages ag w = (r, ag', w') ->
  BaseAgent.w_calls w' = BaseAgent.w_calls w ++ [full_messages] /\
  BaseAgent.llm_client ag' = BaseAgent.llm_client ag /\
  forall msgs,
    r = BaseAgent.Continue msgs -> exists suffix, msgs = full_messages ++ suffix.
Proof.
  unfold BaseAgent.round.
  destruct (gw _ _ _) as [[response|e] b'];
    [|by intros [= <- <- <-]].
  destruct (last (full_messages ++ response)) as [last_message|];
    [|by intros [= <- <- <-]].
  destruct (String.eqb (role last_message) "assistant").
  - destruct (tool_calls last_message) as [tcs|]; [|by intros [= <- <- <-]].
    destruct (process_tool_calls tcs _ ag _) as [[[msgs|e] ag1] w1] eqn:Hp;
      destruct (process_tool_calls_world _ _ _ _ _ _ _ Hp)
        as (Hc & Hb & Hl & Hm);
      intros [= <- <- <-]; repeat split; try done.
    intros msgs' [= <-]. destruct (Hm _ eq_refl) as [suffix ->].
    exists (response ++ suffix). by rewrite app_assoc.
  - intros [= <- <- <-]. repeat split; try done.
    intros msgs [= <-]. eauto.
Qed.

(** The loop makes at most as many gateway calls as it has rounds, and
    at least one when it has a round; every call starts with the first
    message the loop was entered with. *)
Lemma react_loop_calls gw rounds first rest (ag : BaseAgent.agent B) w
    r ag' w' :
  react_loop gw rounds (first :: rest) ag w = (r, ag', w') ->
  exists calls,
    BaseAgent.w_calls w' = BaseAgent.w_calls w ++ calls /\
    length calls <= rounds /\
    (0 < rounds -> 0 < length calls) /\
    Forall (fun msgs => head msgs = Some first) calls.
Proof.
  revert rest ag w.
  induction rounds as [|rounds IH]; intros rest ag w;
    cbn [BaseAgent.react_loop].
  - intros [= <- <- <-]. exists []. rewrite app_nil_r.
    repeat split; try done; lia.
  - destruct (round gw (first :: rest) ag w) as [[res ag1] w1] eqn:Hround.
    destruct (round_world _ _ _ _ _ _ _ Hround) as (Hc & _ & Hm).
    destruct res as [msgs|m|e].
    + destruct (Hm _ eq_refl) as [suffix ->]. intros Hloop.
      change ((first :: rest) ++ suffix) with (first :: (rest ++ suffix))
        in Hloop.
      destruct (IH _ _ _ Hloop) as (calls & Hcalls & Hlen & _ & Hall).
      exists ((first :: rest) :: calls). rewrite Hcalls, Hc, <- app_assoc.
      repeat split; cbn; try done; try lia. by constructor.
    + intros [= <- <- <-]. exists [first :: rest].
      repeat split; cbn; try done; try lia. by repeat constructor.
    + intros [= <- <- <-]. exists [first :: rest].
      repeat split; cbn; try done; try lia. by repeat constructor.
Qed.
End LoopInvariants.

Section LoopClaims.
Variable B : Type.
Variable json_loads : bool -> string -> pyval + string.
Variable py_repr : pyval -> string.
Variable call_handler :
  string -> pyval -> SkillLoader.fs -> outcome string * SkillLoader.fs.

Abbreviation round' := (BaseAgent.round B json_loads py_repr call_handler).
Abbreviation react_loop' :=
  (BaseAgent.react_loop B json_loads py_repr call_handler).
Abbreviation process_tool_call' :=
  (BaseAgent.process_tool_call B json_loads py_repr call_handler).
Abbreviation process_tool_calls' :=
  (BaseAgent.process_tool_calls B json_loads py_repr call_handler).
Abbreviation registry_result' :=
  (Described.registry_result json_loads call_handler).
Abbreviation registry_messages' :=
  (Described.registry_messages json_loads call_handler).

(** Whatever a request is dispatched to, the message appended for it
    carries its identifier and its tool name. *)
Lemma process_tool_call_answer tc full_messages (ag : BaseAgent.agent B) w
    msgs ag' w' :
  process_tool_call' tc full_messages ag w = (Ok msgs, ag', w') ->
  exists result, msgs = full_messages ++ [Described.answer tc result].
Proof.
  unfold BaseAgent.process_tool_call, Described.answer.
  destruct (BaseAgent._parse_tool_args _ _ _) as [args parse_error].
  destruct (BaseAgent.truthy_opt parse_error); [intros [= <- <- <-]; eauto|].
  destruct (String.eqb (tc_name tc) "use_skill").
  - destruct (get_attr_get _ "skill_name" _) as [skill_name|e];
      [|discriminate].
    destruct (get_attr_get _ "reason" _) as [reason|e]; [|discriminate].
    destruct (BaseAgent._handle_use_skill B py_repr ag w skill_name reason)
      as [[[res|e] ag1] w1]; [|discriminate].
    intros [= <- <- <-]. eauto.
  - destruct (BaseTools.execute_tool _ _ _ _) as [res f'].
    intros [= <- <- <-]. eauto.
Qed.

(** X3. When the requests of a reply are all processed, the conversation has
    grown by one tool message per request, in the order of the requests,
    each with the identifier and the name of its request. *)
Lemma process_tool_calls_in_order tcs full_messages (ag : BaseAgent.agent B)
    w msgs ag' w' :
  process_tool_calls' tcs full_messages ag w = (Ok msgs, ag', w') ->
  exists results,
    length results = length tcs /\
    msgs = full_messages ++ zip_with Described.answer tcs results.
Proof.
  revert full_messages ag w.
  induction tcs as [|tc rest IH]; intros full_messages ag w;
    cbn [BaseAgent.process_tool_calls].
  - intros [= <- <- <-]. exists []. by rewrite app_nil_r.
  - destruct (process_tool_call' tc full_messages ag w)
      as [[[msgs1|e] ag1] w1] eqn:Hone; [|discriminate].
    destruct (process_tool_call_answer _ _ _ _ _ _ _ Hone) as [result ->].
    intros Hrest. destruct (IH _ _ _ Hrest) as (results & Hlen & ->).
    exists (result :: results). cbn [length zip_with].
    split; [by rewrite Hlen|]. by rewrite <- List.app_assoc.
Qed.

(** Requests that all go to the registry are all answered: nothing is
    raised. *)
Lemma process_tool_calls_registry tcs full_messages (ag : BaseAgent.agent B)
    w :
  Forall (fun tc => tc_name tc <> "use_skill") tcs ->
  process_tool_calls' tcs full_messages ag w =
  (Ok (full_messages ++ fst (registry_messages' tcs (BaseAgent.w_fs w))),
   ag,
   BaseAgent.set_fs B w (snd (registry_messages' tcs (BaseAgent.w_fs w)))).
Proof.
  intros Hall. revert full_messages w.
  induction Hall as [|tc rest Hname _ IH]; intros full_messages w;
    cbn [BaseAgent.process_tool_calls Described.registry_messages].
  - cbn [fst snd]. by rewrite app_nil_r, set_fs_same.
  - rewrite (process_tool_call_registry B json_loads py_repr call_handler
               tc full_messages ag w Hname).
    rewrite IH. cbn [BaseAgent.set_fs BaseAgent.w_fs].
    destruct (registry_result' tc (BaseAgent.w_fs w)) as [result f1].
    cbn [fst snd].
    destruct (registry_messages' rest f1) as [msgs f2]. cbn [fst snd].
    by rewrite <- List.app_assoc.
Qed.

(** X4. The defect behind the failures of the loop: arguments of [use_skill]
    that decode to anything but a mapping pass the parser, and the lookup
    of the skill name in them raises. *)
Lemma use_skill_non_mapping_raises tc full_messages (ag : BaseAgent.agent B)
    w v :
  tc_name tc = "use_skill" ->
  BaseAgent._parse_tool_args json_loads (tc_arguments tc) "use_skill"
    = (Some v, None) ->
  (forall d, v <> PDict d) ->
  process_tool_call' tc full_messages ag w =
  (Raise (mk_exn "AttributeError"
            ("'" +:+ type_name v +:+ "' object has no attribute 'get'")),
   ag, w).
Proof.
  intros Hname Hparse Hv. unfold BaseAgent.process_tool_call.
  rewrite Hname, Hparse. cbn [BaseAgent.truthy_opt from_option id].
  rewrite String.eqb_refl.
  destruct v; try reflexivity. by destruct (Hv d).
Qed.

Lemma react_loop_count gw rounds full_messages (ag : BaseAgent.agent B) w
    r ag' w' :
  react_loop' gw rounds full_messages ag w = (r, ag', w') ->
  exists calls,
    BaseAgent.w_calls w' = BaseAgent.w_calls w ++ calls /\
    length calls <= rounds /\
    (0 < rounds -> head calls = Some full_messages).
Proof.
  revert full_messages ag w.
  induction rounds as [|rounds IH]; intros full_messages ag w;
    cbn [BaseAgent.react_loop].
  - intros [= <- <- <-]. exists []. rewrite app_nil_r.
    repeat split; try done; lia.
  - destruct (round' gw full_messages ag w) as [[res ag1] w1] eqn:Hround.
    destruct (round_world _ _ _ _ _ _ _ _ _ _ _ Hround) as (Hc & _ & _).
    destruct res as [msgs|m|e].
    + intros Hloop.
      destruct (IH _ _ _ Hloop) as (calls & Hcalls & Hlen & _).
      exists (full_messages :: calls). rewrite Hcalls, Hc, <- List.app_assoc.
      repeat split; cbn; try done; lia.
    + intros [= <- <- <-]. exists [full_messages].
      repeat split; cbn; try done; lia.
    + intros [= <- <- <-]. exists [full_messages].
      repeat split; cbn; try done; lia.
Qed.

Lemma last_two {A} (l : list A) a b : last (l ++ [a; b]) = Some b.
Proof.
  change (l ++ [a; b]) with (l ++ [a] ++ [b]).
  by rewrite List.app_assoc, last_snoc.
Qed.

End LoopClaims.



(** C5: the code at a reply with the requests A, B, C where B asks for
    [use_skill] with the JSON array [[]] as arguments. A is answered, B
    raises [AttributeError], and C is never reached: the round, and with
    it [chat], ends in the exception, with one tool message instead of
    three. *)
Theorem three_requests_one_answer :
  let ag := Sample.agent_with
              (Sample.repeating
                 [assistant_message None (Some Sample.three_requests)])
              5 (Some Sample.catalog) in
  let fault := mk_exn "AttributeError" "'list' object has no attribute 'get'" in
  (exists ag' w',
      BaseAgent.process_tool_calls nat Sample.json_loads Sample.py_repr
        Sample.call_handler Sample.three_requests [] ag Sample.start
      = (Raise fault, ag', w')) /\
  (exists ag' w',
      BaseAgent.process_tool_call nat Sample.json_loads Sample.py_repr
        Sample.call_handler (Sample.request "call_a" "read_file"
                               (PStr Sample.path_args)) [] ag Sample.start
      = (Ok [tool_message "call_a" "read_file"
               ("File: skills/README.txt" +:+ nl +:+ nl +:+ "about")],
         ag', w')) /\
  (exists ag' w',
      Sample.chat ag [user_message "go"] Sample.start
      = (Raise fault, ag', w')).
Proof. repeat split; eexists _, _; by vm_compute. Qed.

(** C2: the code at a backend whose every reply requests [use_skill]
    with the JSON array [[]] as arguments, with [max_rounds = 3]: [chat]
    raises [AttributeError] in the first round, after one gateway call
    instead of three. *)
Theorem tool_calling_backend_can_raise :
  exists ag' w',
    Sample.chat
      (Sample.agent_with (Sample.repeating Sample.use_skill_array_reply) 3
         (Some Sample.catalog))
      [user_message "go"] Sample.start
    = (Raise (mk_exn "AttributeError" "'list' object has no attribute 'get'"),
       ag', w') /\
    length (BaseAgent.w_calls w') = 1.
Proof. eexists _, _. split; by vm_compute. Qed.

(** C1: the code in the scenario of the catalog with [pptx]. The first
    reply activates [pptx]: the agent holds its body afterwards and the
    tool message tells the model that it has access to the full
    instructions. The second gateway call of the same [chat] still
    carries the system message built before the loop: the Level-1 list,
    no "Activated Skills" section and no body. Only the next invocation of
    [chat] sends the body. *)
Theorem activated_body_is_missing_from_the_next_round :
  let ag := Sample.agent_with
              (Sample.scripted [Sample.use_pptx_reply; Sample.plain_reply;
                                Sample.plain_reply])
              100 (Some Sample.catalog) in
  exists ag' w',
    Sample.chat ag [user_message "make slides"] Sample.start
    = (Ok (assistant_message (Some "Here is your deck.") None), ag', w') /\
    BaseAgent.activated_skills ag' = [("pptx", Sample.pptx_body)] /\
    length (BaseAgent.w_calls w') = 2 /\
    last (nth 1 (BaseAgent.w_calls w') [])
      = Some (tool_message "call_1" "use_skill"
                "Skill 'pptx' activated successfully. You now have access to its full instructions and capabilities.") /\
    Sample.system_of_call w' 0 = Some Sample.level1_prompt /\
    Sample.system_of_call w' 1 = Some Sample.level1_prompt /\
    contains "Activated Skills" Sample.level1_prompt = false /\
    contains Sample.pptx_body Sample.level1_prompt = false /\
    BaseAgent.system_content nat ag'
      = Sample.level1_prompt +:+ Sample.pptx_section /\
    exists r ag'' w'',
      Sample.chat ag' [user_message "and a title slide"] w' = (r, ag'', w'') /\
      Sample.system_of_call w'' 2
        = Some (Sample.level1_prompt +:+ Sample.pptx_section).
Proof.
  eexists _, _. repeat split; try by vm_compute.
  eexists _, _, _. split; by vm_compute.
Qed.

(** ** What holds of the loop for every backend *)

Section LoopBounds.
Variable B : Type.
Variable json_loads : bool -> string -> pyval + string.
Variable py_repr : pyval -> string.
Variable call_handler :
  string -> pyval -> SkillLoader.fs -> outcome string * SkillLoader.fs.

Abbreviation chat' := (BaseAgent.chat B json_loads py_repr call_handler).
Abbreviation loop' := (BaseAgent.react_loop B json_loads py_repr call_handler).

(** X1. One invocation of [chat] makes at most [max_rounds] gateway calls,
    whatever the backend replies and however the invocation ends, and
    every one of these calls carries, as its first message, the system
    message built from the agent as it was on entry. *)
Theorem chat_calls_within_budget (ag : BaseAgent.agent B) messages w :
  exists calls,
    BaseAgent.w_calls (snd (chat' ag messages w))
      = BaseAgent.w_calls w ++ calls /\
    (Z.of_nat (length calls) <= Z.max 0 (BaseAgent.max_rounds ag))%Z /\
    Forall (fun msgs =>
              head msgs
                = Some (system_message (BaseAgent.system_content B ag)))
      calls.
Proof.
  unfold BaseAgent.chat. destruct (BaseAgent.llm_client ag) as [gw|].
  - destruct (loop' gw _ _ ag w) as [[r ag'] w'] eqn:Hloop.
    destruct (react_loop_calls _ _ _ _ _ _ _ _ _ _ _ _ _ Hloop)
      as (calls & Hcalls & Hlen & _ & Hall).
    exists calls. cbn [snd]. split; [exact Hcalls|]. split; [lia|exact Hall].
  - exists []. cbn [snd]. rewrite app_nil_r. split; [done|].
    split; [cbn; lia | constructor].
Qed.

End LoopBounds.


(** A reply with three requests for registry tools, one of them unknown:
    three tool messages, in the order of the requests. *)
Lemma process_tool_calls_in_order_witness :
  exists results,
    length results = 3 /\
    fst (fst (BaseAgent.process_tool_calls nat Sample.json_loads
                Sample.py_repr Sample.call_handler
                [Sample.request "call_a" "read_file" (PStr Sample.path_args);
                 Sample.request "call_b" "foo" (PStr "{}");
                 Sample.request "call_c" "list_files" (PStr Sample.path_args)]
                [] (Sample.agent_with (Sample.repeating []) 1 None)
                Sample.start))
    = Ok ([] ++
          zip_with Described.answer
            [Sample.request "call_a" "read_file" (PStr Sample.path_args);
             Sample.request "call_b" "foo" (PStr "{}");
             Sample.request "call_c" "list_files" (PStr Sample.path_args)]
            results).
Proof.
  destruct (BaseAgent.process_tool_calls nat Sample.json_loads
              Sample.py_repr Sample.call_handler
              [Sample.request "call_a" "read_file" (PStr Sample.path_args);
               Sample.request "call_b" "foo" (PStr "{}");
               Sample.request "call_c" "list_files" (PStr Sample.path_args)]
              [] (Sample.agent_with (Sample.repeating []) 1 None)
              Sample.start) as [[r ag'] w'] eqn:E.
  assert (exists msgs, r = Ok msgs) as [msgs ->].
  { vm_compute in E. injection E as <- _ _. eauto. }
  destruct (process_tool_calls_in_order nat Sample.json_loads Sample.py_repr
              Sample.call_handler _ _ _ _ _ _ _ E) as (results & Hlen & ->).
  exists results. split; [exact Hlen | reflexivity].
Defined.

(** The JSON array [[]] as the arguments of [use_skill]. *)
Lemma use_skill_non_mapping_raises_witness :
  BaseAgent.process_tool_call nat Sample.json_loads Sample.py_repr
    Sample.call_handler (Sample.request "call_1" "use_skill" (PStr "[]")) []
    (Sample.agent_with (Sample.repeating []) 1 (Some Sample.catalog))
    Sample.start
  = (Raise (mk_exn "AttributeError" "'list' object has no attribute 'get'"),
     Sample.agent_with (Sample.repeating []) 1 (Some Sample.catalog),
     Sample.start).
Proof.
  apply (use_skill_non_mapping_raises nat Sample.json_loads Sample.py_repr
           Sample.call_handler
           (Sample.request "call_1" "use_skill" (PStr "[]")) [] _ _
           (PList [])); [reflexivity | reflexivity | discriminate].
Defined.

(** ** The system prompt *)

Lemma sapp_assoc a b c : (a +:+ b) +:+ c = a +:+ b +:+ c.
Proof.
  induction a as [|x a IH]; [reflexivity|].
  rewrite !app_cons. by rewrite IH.
Qed.

(** A fold that appends one piece of text per element yields the texts of
    all elements, in order, after the initial text. *)
Lemma fold_append {A} (f : string -> A -> string) (g : A -> string) l init :
  (forall acc x, f acc x = acc +:+ g x) ->
  fold_left f l init = init +:+ fold_right String.append "" (map g l).
Proof.
  intros Hf. revert init. induction l as [|x l IH]; intros init; cbn.
  - by rewrite app_empty_r.
  - by rewrite IH, Hf, sapp_assoc.
Qed.

Lemma concat_has {A} (g : A -> string) l x :
  In x l ->
  exists before after,
    fold_right String.append "" (map g l) = before +:+ g x +:+ after.
Proof.
  induction l as [|y l IH]; [done|]. intros [->|Hin]; cbn.
  - by exists "", (fold_right String.append "" (map g l)).
  - destruct (IH Hin) as (before & after & ->).
    exists (g y +:+ before), after. by rewrite sapp_assoc.
Qed.

Lemma dict_get_in_keys {V} (d : list (string * V)) k v :
  dict_get k d = Some v -> In k (dict_keys d).
Proof.
  induction d as [|[k' v'] d IH]; [done|]. cbn.
  destruct (String.eqb k k') eqn:E; [|by right; apply IH].
  apply String.eqb_eq in E. by left.
Qed.

Section SystemPrompt.
Variable B : Type.

(** The line of a skill in the Level-1 list, and the block of an
    activated skill in the Level-2 section. *)
Let level1_line (skill_name description : string) : string :=
  "- **" +:+ skill_name +:+ "**: " +:+ description +:+ nl.

Let level2_block (skill_name body : string) : string :=
  "### Skill: " +:+ skill_name +:+ nl +:+ nl +:+ body +:+ nl +:+ nl.

(** X5. The system message that [chat] builds contains the name and the
    description of every discovered skill, and the full body of every
    skill that is activated when [chat] is entered; it does not depend on
    the bodies the loader has cached. *)
Theorem system_prompt_lists_skills_and_activated_bodies
    (ag : BaseAgent.agent B) :
  (forall ld skill_name md,
      BaseAgent.skill_loader ag = Some ld ->
      dict_get skill_name (SkillLoader.skill_metadata ld) = Some md ->
      exists before after,
        BaseAgent.system_content B ag
          = before +:+
            level1_line skill_name (SkillLoader.md_description md) +:+ after) /\
  (forall skill_name body,
      In (skill_name, body) (BaseAgent.activated_skills ag) ->
      exists before after,
        BaseAgent.system_content B ag
          = before +:+ level2_block skill_name body +:+ after) /\
  (forall ld cached,
      BaseAgent.skill_loader ag = Some ld ->
      BaseAgent.system_content B
        (BaseAgent.set_loader B ag (SkillLoader.set_skill_content ld cached))
      = BaseAgent.system_content B ag).
Proof.
  split; [|split].
  - intros ld skill_name md Hld Hmd.
    assert (exists before after,
               BaseAgent.skill_list (BaseAgent.get_available_skills B ag)
               = before +:+
                 level1_line skill_name (SkillLoader.md_description md)
                 +:+ after) as (b1 & a1 & Hlist).
    { unfold BaseAgent.skill_list.
      rewrite (fold_append _
                 (fun skill => level1_line (fst skill)
                                 (BaseAgent.fmt_opt (snd skill))))
        by reflexivity.
      destruct (concat_has
                  (fun skill : string * option string =>
                     level1_line (fst skill) (BaseAgent.fmt_opt (snd skill)))
                  (BaseAgent.get_available_skills B ag)
                  (skill_name, Some (SkillLoader.md_description md)))
        as (b0 & a0 & ->).
      - unfold BaseAgent.get_available_skills. rewrite Hld.
        apply in_map_iff. exists skill_name. split.
        + unfold SkillLoader.get_skill_description. by rewrite Hmd.
        + by apply (dict_get_in_keys _ _ md).
      - eexists (_ +:+ b0), a0. symmetry. apply sapp_assoc. }
    unfold BaseAgent.system_content. rewrite Hld.
    destruct (BaseAgent.get_available_skills B ag) as [|s0 rest] eqn:Hav.
    { exfalso. revert Hav. unfold BaseAgent.get_available_skills.
      rewrite Hld. unfold SkillLoader.list_skills.
      pose proof (dict_get_in_keys _ _ _ Hmd) as Hin.
      destruct (dict_keys (SkillLoader.skill_metadata ld)); [done|].
      discriminate. }
    rewrite Hlist.
    destruct (BaseAgent.activated_skills ag).
    + exists (BaseAgent.system_prompt ag +:+ b1), a1.
      by rewrite !sapp_assoc.
    + match goal with
      | |- context [BaseAgent.skill_instructions ?l] =>
          exists (BaseAgent.system_prompt ag +:+ b1),
                 (a1 +:+ BaseAgent.skill_instructions l)
      end.
      by rewrite !sapp_assoc.
  - intros skill_name body Hin.
    unfold BaseAgent.system_content.
    destruct (BaseAgent.activated_skills ag) as [|s0 rest] eqn:Hact; [done|].
    unfold BaseAgent.skill_instructions.
    rewrite (fold_append _
               (fun skill => level2_block (fst skill) (snd skill))).
    2:{ intros acc x. unfold level2_block. by rewrite !sapp_assoc. }
    destruct (concat_has
                (fun skill : string * string =>
                   level2_block (fst skill) (snd skill))
                (s0 :: rest) (skill_name, body) Hin) as (b0 & a0 & ->).
    cbn [fst snd].
    match goal with
    | |- exists _ _, ?c1 +:+ ?i2 +:+ b0 +:+ _ = _ =>
        exists (c1 +:+ i2 +:+ b0), a0
    end.
    by rewrite !sapp_assoc.
  - intros ld cached Hld. unfold BaseAgent.system_content.
    unfold BaseAgent.get_available_skills. rewrite Hld.
    by destruct ag.
Qed.
End SystemPrompt.

(** The agent with [pptx] activated. *)
Lemma system_prompt_lists_skills_and_activated_bodies_witness :
  let ag := BaseAgent.set_activated nat
              (Sample.agent_with (Sample.repeating []) 1 (Some Sample.catalog))
              [("pptx", Sample.pptx_body)] in
  BaseAgent.system_content nat ag
    = Sample.level1_prompt +:+ Sample.pptx_section /\
  (exists before after,
      BaseAgent.system_content nat ag
      = before +:+
        ("- **notes**: take notes" +:+ nl) +:+ after) /\
  (exists before after,
      BaseAgent.system_content nat ag
      = before +:+
        ("### Skill: pptx" +:+ nl +:+ nl +:+ Sample.pptx_body +:+ nl +:+ nl)
        +:+ after).
Proof.
  intros ag.
  destruct (system_prompt_lists_skills_and_activated_bodies nat ag)
    as (Hlevel1 & Hlevel2 & _).
  split; [by vm_compute|]. split.
  - exact (Hlevel1 Sample.catalog "notes" Sample.notes_metadata
             eq_refl eq_refl).
  - apply (Hlevel2 "pptx" Sample.pptx_body). by left.
Defined.

(** ** Dictionaries *)

Lemma dict_get_set_eq {V} (d : list (string * V)) k v :
  dict_get k (dict_set k v d) = Some v.
Proof.
  induction d as [|[k' v'] d IH]; cbn.
  - by rewrite String.eqb_refl.
  - destruct (String.eqb k k') eqn:E; cbn; [by rewrite String.eqb_refl|].
    by rewrite E.
Qed.

Lemma dict_get_set_ne {V} (d : list (string * V)) k k' v :
  k <> k' -> dict_get k (dict_set k' v d) = dict_get k d.
Proof.
  intros Hne. apply String.eqb_neq in Hne.
  induction d as [|[k0 v0] d IH]; cbn.
  - by rewrite Hne.
  - destruct (String.eqb k' k0) eqn:E; cbn.
    + apply String.eqb_eq in E. subst k0. by rewrite Hne.
    + by rewrite IH.
Qed.

(** Setting a key that is not in the dictionary appends it. *)
Lemma dict_set_fresh {V} (d : list (string * V)) k v :
  dict_mem k d = false -> dict_set k v d = d ++ [(k, v)].
Proof.
  unfold dict_mem. induction d as [|[k' v'] d IH]; cbn; [done|].
  destruct (String.eqb k k'); [done|]. intros H. by rewrite IH.
Qed.

Lemma dict_get_in {V} (d : list (string * V)) k v :
  dict_get k d = Some v -> In (k, v) d.
Proof.
  induction d as [|[k' v'] d IH]; cbn; [done|].
  destruct (String.eqb k k') eqn:E.
  - apply String.eqb_eq in E. intros [= ->]. left. by subst.
  - intros H. right. by apply IH.
Qed.

Lemma dict_mem_keys {V} (d : list (string * V)) k :
  dict_mem k d = false -> ~ In k (dict_keys d).
Proof.
  unfold dict_mem, dict_keys. induction d as [|[k' v'] d IH]; cbn; [tauto|].
  destruct (String.eqb k k') eqn:E; [done|].
  apply String.eqb_neq in E. intros H [Heq|Hin]; [by subst|]. by apply IH.
Qed.

Lemma dict_keys_set {V} (d : list (string * V)) k v :
  dict_keys (dict_set k v d) =
  if dict_mem k d then dict_keys d else dict_keys d ++ [k].
Proof.
  unfold dict_mem, dict_keys. induction d as [|[k' v'] d IH]; cbn; [done|].
  destruct (String.eqb k k') eqn:E; cbn.
  - apply String.eqb_eq in E. by subst.
  - rewrite IH. by destruct (dict_get k d).
Qed.

(** ** The agent's state over a session *)

Lemma loader_activate_grows f ld skill_name content ld' ev :
  SkillLoader.activate_skill f ld skill_name = (content, ld', ev) ->
  SkillLoader.skills_directory ld' = SkillLoader.skills_directory ld /\
  SkillLoader.skill_metadata ld' = SkillLoader.skill_metadata ld /\
  SkillLoader.skill_resources ld' = SkillLoader.skill_resources ld /\
  SkillLoader.skill_content ld ⊆ SkillLoader.skill_content ld' /\
  forall body,
    content = Some body ->
    SkillLoader.skill_content ld' !! skill_name = Some body /\
    exists md,
      dict_get skill_name (SkillLoader.skill_metadata ld) = Some md.
Proof.
  unfold SkillLoader.activate_skill.
  destruct (dict_get skill_name _) as [md|] eqn:Hmd;
    [|intros [= <- <- <-]; split_and!; done].
  destruct (SkillLoader.skill_content ld !! skill_name) as [c|] eqn:Hc.
  { intros [= <- <- <-]. split_and!; try done.
    intros body [= <-]. eauto. }
  destruct (SkillLoader.read_text f _) as [c|e];
    intros [= <- <- <-]; cbn; split_and!; try done.
  - by apply insert_subseteq.
  - intros body [= <-]. rewrite lookup_insert_eq. eauto.
Qed.

Section SessionFacts.
Variable B : Type.
Variable json_loads : bool -> string -> pyval + string.
Variable py_repr : pyval -> string.
Variable call_handler :
  string -> pyval -> SkillLoader.fs -> outcome string * SkillLoader.fs.

(** One step of the session: the state grows and stays consistent. *)
Abbreviation keeps ag ag' :=
  (Session.grows (B:=B) ag ag' /\
   (Session.consistent ag -> Session.consistent ag')).

Lemma keeps_refl ag : keeps ag ag.
Proof.
  split; [|done]. repeat split; try done.
  - exists []. by rewrite app_nil_r.
  - destruct (BaseAgent.skill_loader ag); done.
Qed.

Lemma keeps_trans ag1 ag2 ag3 : keeps ag1 ag2 -> keeps ag2 ag3 -> keeps ag1 ag3.
Proof.
  intros [(Hp & Hm & Hl & (a1 & Ha) & Hld) Hc] [(Hp' & Hm' & Hl' & (a2 & Ha') & Hld') Hc'].
  split; [|auto]. repeat split; try congruence.
  - exists (a1 ++ a2). by rewrite Ha', Ha, List.app_assoc.
  - destruct (BaseAgent.skill_loader ag1), (BaseAgent.skill_loader ag2),
      (BaseAgent.skill_loader ag3); try done.
    destruct Hld as (? & ? & ? & ?), Hld' as (? & ? & ? & ?).
    repeat split; try congruence. by etransitivity.
Qed.

Lemma activate_skill_keeps (ag : BaseAgent.agent B) w skill_name r ag' w' :
  BaseAgent.activate_skill B py_repr ag w skill_name = (r, ag', w') ->
  keeps ag ag'.
Proof.
  unfold BaseAgent.activate_skill.
  destruct (BaseAgent.skill_loader ag) as [ld|] eqn:Hld;
    [|intros [= <- <- <-]; apply keeps_refl].
  destruct (hashable skill_name); cbn [negb];
    [|intros [= <- <- <-]; apply keeps_refl].
  destruct skill_name as [| | | |s| |];
    try (intros [= <- <- <-]; apply keeps_refl).
  destruct (dict_mem s (BaseAgent.activated_skills ag)) eqn:Hmem;
    [intros [= <- <- <-]; apply keeps_refl|].
  destruct (SkillLoader.activate_skill (BaseAgent.w_fs w) ld s)
    as [[content ld'] ev] eqn:Hact.
  destruct (loader_activate_grows _ _ _ _ _ _ Hact)
    as (Hdir & Hmeta & Hres & Hsub & Hbody).
  assert (forall name body,
             SkillLoader.skill_content ld !! name = Some body ->
             SkillLoader.skill_content ld' !! name = Some body) as Hweak
      by (intros name body H; by eapply lookup_weaken).
  destruct content as [c|]; cbn [BaseAgent.truthy_opt];
    [destruct (truthy c) eqn:Htruthy|]; intros [= <- <- <-].
  - (* activated *)
    cbn [BaseAgent.set_activated BaseAgent.set_loader
           BaseAgent.activated_skills BaseAgent.skill_loader from_option id].
    rewrite (dict_set_fresh _ _ _ Hmem).
    split.
    + repeat split; cbn; try done; [eauto|]. by rewrite Hld.
    + intros [Hnodup Hall]. split; cbn.
      * unfold dict_keys. rewrite map_app. cbn.
        apply NoDup_app. split; [exact Hnodup|]. split.
        -- intros x Hx Hin. apply list_elem_of_In in Hx.
           apply list_elem_of_In in Hin. destruct Hin as [<-|[]].
           by apply (dict_mem_keys _ _ Hmem).
        -- apply NoDup_singleton.
      * intros name body Hin. apply in_app_or in Hin.
        destruct Hin as [Hin|[[= <- <-]|[]]].
        -- destruct (Hall _ _ Hin) as (Hne & ld0 & md & Hl0 & Hmd & Hc).
           split; [exact Hne|]. rewrite Hld in Hl0. injection Hl0 as <-.
           exists ld', md. rewrite Hmeta. auto.
        -- destruct (Hbody c eq_refl) as (Hc & md & Hmd).
           split; [by destruct c|]. exists ld', md. by rewrite Hmeta.
  - (* an empty body *)
    split.
    + repeat split; cbn; try done; [exists []; by rewrite app_nil_r|].
      by rewrite Hld.
    + intros [Hnodup Hall]. split; [exact Hnodup|]. cbn.
      intros name body Hin.
      destruct (Hall _ _ Hin) as (Hne & ld0 & md & Hl0 & Hmd & Hc).
      split; [exact Hne|]. rewrite Hld in Hl0. injection Hl0 as <-.
      exists ld', md. rewrite Hmeta. auto.
  - (* not loaded *)
    split.
    + repeat split; cbn; try done; [exists []; by rewrite app_nil_r|].
      by rewrite Hld.
    + intros [Hnodup Hall]. split; [exact Hnodup|]. cbn.
      intros name body Hin.
      destruct (Hall _ _ Hin) as (Hne & ld0 & md & Hl0 & Hmd & Hc).
      split; [exact Hne|]. rewrite Hld in Hl0. injection Hl0 as <-.
      exists ld', md. rewrite Hmeta. auto.
Qed.

Lemma process_tool_call_keeps tc full_messages (ag : BaseAgent.agent B) w
    r ag' w' :
  BaseAgent.process_tool_call B json_loads py_repr call_handler
    tc full_messages ag w = (r, ag', w') ->
  keeps ag ag'.
Proof.
  unfold BaseAgent.process_tool_call.
  destruct (BaseAgent._parse_tool_args _ _ _) as [args parse_error].
  destruct (BaseAgent.truthy_opt parse_error);
    [intros [= <- <- <-]; apply keeps_refl|].
  destruct (String.eqb (tc_name tc) "use_skill").
  - destruct (get_attr_get _ "skill_name" _) as [skill_name|e];
      [|intros [= <- <- <-]; apply keeps_refl].
    destruct (get_attr_get _ "reason" _) as [reason|e];
      [|intros [= <- <- <-]; apply keeps_refl].
    unfold BaseAgent._handle_use_skill.
    destruct (BaseAgent.activate_skill B py_repr ag w skill_name)
      as [[res ag1] w1] eqn:Hact.
    pose proof (activate_skill_keeps _ _ _ _ _ _ Hact) as Hkeeps.
    by destruct res as [[|]|e]; intros [= <- <- <-].
  - destruct (BaseTools.execute_tool _ _ _ _) as [res f'].
    intros [= <- <- <-]. apply keeps_refl.
Qed.

Lemma process_tool_calls_keeps tcs full_messages (ag : BaseAgent.agent B) w
    r ag' w' :
  BaseAgent.process_tool_calls B json_loads py_repr call_handler
    tcs full_messages ag w = (r, ag', w') ->
  keeps ag ag'.
Proof.
  revert full_messages ag w.
  induction tcs as [|tc rest IH]; intros full_messages ag w;
    cbn [BaseAgent.process_tool_calls].
  - intros [= <- <- <-]. apply keeps_refl.
  - destruct (BaseAgent.process_tool_call _ _ _ _ tc full_messages ag w)
      as [[[msgs1|e] ag1] w1] eqn:Hone;
      pose proof (process_tool_call_keeps _ _ _ _ _ _ _ Hone) as H1.
    + intros Hrest. eapply keeps_trans; [exact H1|]. by eapply IH.
    + by intros [= <- <- <-].
Qed.

Lemma round_keeps gw full_messages (ag : BaseAgent.agent B) w r ag' w' :
  BaseAgent.round B json_loads py_repr call_handler gw full_messages ag w
    = (r, ag', w') ->
  keeps ag ag'.
Proof.
  unfold BaseAgent.round.
  destruct (gw _ _ _) as [[response|e] b'];
    [|intros [= <- <- <-]; apply keeps_refl].
  destruct (last (full_messages ++ response)) as [last_message|];
    [|intros [= <- <- <-]; apply keeps_refl].
  destruct (String.eqb (role last_message) "assistant");
    [|intros [= <- <- <-]; apply keeps_refl].
  destruct (tool_calls last_message) as [tcs|];
    [|intros [= <- <- <-]; apply keeps_refl].
  destruct (BaseAgent.process_tool_calls _ _ _ _ tcs _ ag _)
    as [[[msgs|e] ag1] w1] eqn:Hp;
    pose proof (process_tool_calls_keeps _ _ _ _ _ _ _ Hp);
    by intros [= <- <- <-].
Qed.

Lemma react_loop_keeps gw rounds full_messages (ag : BaseAgent.agent B) w
    r ag' w' :
  BaseAgent.react_loop B json_loads py_repr call_handler gw rounds
    full_messages ag w = (r, ag', w') ->
  keeps ag ag'.
Proof.
  revert full_messages ag w.
  induction rounds as [|rounds IH]; intros full_messages ag w;
    cbn [BaseAgent.react_loop].
  - intros [= <- <- <-]. apply keeps_refl.
  - destruct (BaseAgent.round _ _ _ _ gw full_messages ag w)
      as [[res ag1] w1] eqn:Hround.
    pose proof (round_keeps _ _ _ _ _ _ _ Hround) as H1.
    destruct res as [msgs|m|e]; [|by intros [= <- <- <-]..].
    intros Hloop. eapply keeps_trans; [exact H1|]. by eapply IH.
Qed.

(** X6. Over one invocation of [chat], whatever the backend does and
    however the invocation ends, the agent's state only grows: the
    prompt, the round budget and the client stay, no skill is deactivated
    and no activated body changes (the activated skills are those before,
    in the same order, followed by new ones), the loader keeps its
    metadata and its resource cache, and its body cache only gains
    entries. If the activated set agreed with the catalog before (no name
    twice, every activated skill discovered, non-empty, and equal to the
    loader's cached body), it does so afterwards. *)
Theorem chat_grows_the_session (ag : BaseAgent.agent B) messages w :
  Session.grows ag
    (snd (fst (BaseAgent.chat B json_loads py_repr call_handler
                 ag messages w))) /\
  (Session.consistent ag ->
   Session.consistent
     (snd (fst (BaseAgent.chat B json_loads py_repr call_handler
                  ag messages w)))).
Proof.
  unfold BaseAgent.chat.
  destruct (BaseAgent.llm_client ag) as [gw|]; [|apply keeps_refl].
  destruct (BaseAgent.react_loop _ _ _ _ gw _ _ ag w) as [[r ag'] w'] eqn:H.
  exact (react_loop_keeps _ _ _ _ _ _ _ _ H).
Qed.
End SessionFacts.

Section UseSkill.
Variable B : Type.
Variable py_repr : pyval -> string.

(** X7. With a loader attached and a skill name that is a string,
    [_handle_use_skill] raises nothing and its answer tells the truth
    about the activated set: it is the success text exactly when the
    skill is activated afterwards, and the failure text otherwise, in
    which case the activated set is as before. A skill that is already
    activated is confirmed without any access to the loader or the file
    system. A name that cannot be hashed (a list or a mapping) raises
    [TypeError]. Without a loader every request is answered with the
    failure text, whatever the name is. *)
Theorem use_skill_answer_is_truthful (ag : BaseAgent.agent B) w reason :
  (forall ld s,
      BaseAgent.skill_loader ag = Some ld ->
      exists ag' w',
        (BaseAgent._handle_use_skill B py_repr ag w (PStr s) reason
           = (Ok (Session.activated_text s), ag', w') /\
         dict_mem s (BaseAgent.activated_skills ag') = true) \/
        (BaseAgent._handle_use_skill B py_repr ag w (PStr s) reason
           = (Ok (Session.failed_text s), ag', w') /\
         dict_mem s (BaseAgent.activated_skills ag') = false /\
         BaseAgent.activated_skills ag' = BaseAgent.activated_skills ag)) /\
  (forall ld s,
      BaseAgent.skill_loader ag = Some ld ->
      dict_mem s (BaseAgent.activated_skills ag) = true ->
      BaseAgent._handle_use_skill B py_repr ag w (PStr s) reason
        = (Ok (Session.activated_text s), ag, w)) /\
  (forall ld skill_name,
      BaseAgent.skill_loader ag = Some ld ->
      hashable skill_name = false ->
      BaseAgent._handle_use_skill B py_repr ag w skill_name reason
        = (Raise (mk_exn "TypeError"
                    ("unhashable type: '" +:+ type_name skill_name +:+ "'")),
           ag, w)) /\
  (forall skill_name,
      BaseAgent.skill_loader ag = None ->
      BaseAgent._handle_use_skill B py_repr ag w skill_name reason
        = (Ok (Session.failed_text (BaseAgent.py_str py_repr skill_name)),
           ag, w)).
Proof.
  unfold BaseAgent._handle_use_skill, BaseAgent.activate_skill.
  split; [|split; [|split]].
  - intros ld s ->. cbn [hashable negb].
    destruct (dict_mem s (BaseAgent.activated_skills ag)) eqn:Hmem.
    { exists ag, w. left. by split. }
    destruct (SkillLoader.activate_skill (BaseAgent.w_fs w) ld s)
      as [[content ld'] ev].
    destruct (BaseAgent.truthy_opt content) eqn:Htruthy.
    + eexists _, _. left. split; [reflexivity|].
      cbn [BaseAgent.set_activated BaseAgent.activated_skills].
      unfold dict_mem. by rewrite dict_get_set_eq.
    + eexists _, _. right. split; [reflexivity|]. by split.
  - intros ld s -> Hmem. cbn [hashable negb]. by rewrite Hmem.
  - intros ld skill_name -> Hhash. by rewrite Hhash.
  - by intros skill_name ->.
Qed.
End UseSkill.

(** The skill [pptx] on the sample disk, a name that is not in the
    catalog, and a list as the name. *)
Lemma use_skill_answer_is_truthful_witness :
  let ag := Sample.agent_with (Sample.repeating []) 1 (Some Sample.catalog) in
  (exists ag' w',
      BaseAgent._handle_use_skill nat Sample.py_repr ag Sample.start
        (PStr "pptx") (PStr "slides")
      = (Ok (Session.activated_text "pptx"), ag', w') /\
      BaseAgent.activated_skills ag' = [("pptx", Sample.pptx_body)]) /\
  (exists w',
      BaseAgent._handle_use_skill nat Sample.py_repr ag Sample.start
        (PStr "docx") (PStr "report")
      = (Ok (Session.failed_text "docx"), ag, w')) /\
  BaseAgent._handle_use_skill nat Sample.py_repr ag Sample.start
    (PList [PStr "pptx"]) (PStr "slides")
  = (Raise (mk_exn "TypeError" "unhashable type: 'list'"), ag, Sample.start).
Proof.
  intros ag.
  destruct (use_skill_answer_is_truthful nat Sample.py_repr ag Sample.start
              (PStr "slides")) as (Htruth & _ & Hlist & _).
  split; [|split].
  - destruct (Htruth Sample.catalog "pptx" eq_refl)
      as (ag' & w' & [[Heq Hmem]|[Heq [Hmem Hsame]]]).
    + exists ag', w'. split; [exact Heq|].
      vm_compute in Heq. by injection Heq as <- _.
    + vm_compute in Heq. discriminate.
  - eexists. by vm_compute.
  - exact (Hlist Sample.catalog (PList [PStr "pptx"]) eq_refl eq_refl).
Defined.

Section ParseThenDispatch.
Variable B : Type.
Variable json_loads : bool -> string -> pyval + string.
Variable py_repr : pyval -> string.
Variable call_handler :
  string -> pyval -> SkillLoader.fs -> outcome string * SkillLoader.fs.

End ParseThenDispatch.


(** ** From discovery to activation *)

Lemma startswith_truthy p s :
  truthy p = true -> startswith p s = true -> truthy s = true.
Proof. destruct p; [done|]. by destruct s. Qed.

Lemma frontmatter_text_starts content text :
  SkillLoader.frontmatter_text content = Some text ->
  startswith "---" content = true.
Proof.
  unfold SkillLoader.frontmatter_text.
  by destruct (startswith "---" content).
Qed.

Section Level1ThenLevel2.
Variable yaml_safe_load : string -> outcome SkillLoader.yamldoc.
Variable f : SkillLoader.fs.

Lemma load_metadata_some folder md :
  fst (SkillLoader._load_skill_metadata yaml_safe_load f folder)
    = Ok (Some md) ->
  SkillLoader.md_path md = folder /\
  exists content,
    SkillLoader.read_text f (SkillLoader.joinpath folder "SKILL.md")
      = Ok content /\
    startswith "---" content = true.
Proof.
  unfold SkillLoader._load_skill_metadata. cbn [fst].
  destruct (SkillLoader.read_text f _) as [content|e]; [|discriminate].
  destruct (SkillLoader.frontmatter_text content) as [text|] eqn:Htext;
    [|discriminate].
  apply frontmatter_text_starts in Htext.
  destruct (yaml_safe_load text) as [doc|e]; [|discriminate].
  destruct doc as [d|ty]; cbn [SkillLoader.yaml_get]; [|discriminate].
  intros [= <-]. cbn. eauto.
Qed.

Lemma load_folder_sound folder meta :
  Catalog.sound f meta ->
  Catalog.sound f
    (fst (SkillLoader.load_folder yaml_safe_load f folder meta)).
Proof.
  intros [Hnodup Hsound]. unfold SkillLoader.load_folder.
  pose proof (load_metadata_some folder) as Hsome.
  destruct (SkillLoader._load_skill_metadata yaml_safe_load f folder)
    as [[[md|]|e] ev]; cbn [fst] in *; [|by split..].
  destruct (Hsome md eq_refl) as [Hpath Hread]. split.
  - rewrite dict_keys_set.
    destruct (dict_mem (SkillLoader.md_name md) meta) eqn:Hmem; [done|].
    apply NoDup_app. split_and!; [done| |apply NoDup_singleton].
    intros k Hin ->%list_elem_of_singleton.
    apply (dict_mem_keys _ _ Hmem). by apply list_elem_of_In.
  - intros k md'.
    destruct (String.eqb_spec k (SkillLoader.md_name md)) as [->|Hne].
    + rewrite dict_get_set_eq. intros [= <-]. split; [done|].
      by rewrite Hpath.
    + rewrite dict_get_set_ne by done. apply Hsound.
Qed.

Lemma load_folders_sound folders meta :
  Catalog.sound f meta ->
  Catalog.sound f
    (fst (SkillLoader.load_folders yaml_safe_load f folders meta)).
Proof.
  revert meta. induction folders as [|folder rest IH]; intros meta Hsound;
    [done|].
  cbn [SkillLoader.load_folders].
  pose proof (load_folder_sound folder meta Hsound) as H1.
  destruct (SkillLoader.load_folder yaml_safe_load f folder meta)
    as [meta1 ev1]. cbn [fst] in H1.
  specialize (IH meta1 H1).
  by destruct (SkillLoader.load_folders yaml_safe_load f rest meta1).
Qed.

Lemma load_folders_reads folders meta :
  Catalog.reads (snd (SkillLoader.load_folders yaml_safe_load f folders meta))
  = map (fun folder => SkillLoader.joinpath folder "SKILL.md") folders.
Proof.
  revert meta. induction folders as [|folder rest IH]; intros meta;
    [done|].
  cbn [SkillLoader.load_folders map].
  assert (forall m,
             Catalog.reads
               (snd (SkillLoader.load_folder yaml_safe_load f folder m))
             = [SkillLoader.joinpath folder "SKILL.md"]) as Hone.
  { intros m. unfold SkillLoader.load_folder,
      SkillLoader._load_skill_metadata.
    destruct (SkillLoader.read_text f _) as [content|e]; [|done].
    destruct (SkillLoader.frontmatter_text content) as [text|]; [|done].
    destruct (yaml_safe_load text) as [doc|e]; [|done].
    by destruct doc as [d|ty]. }
  specialize (Hone meta).
  destruct (SkillLoader.load_folder yaml_safe_load f folder meta)
    as [meta1 ev1]. cbn [snd] in Hone.
  specialize (IH meta1).
  destruct (SkillLoader.load_folders yaml_safe_load f rest meta1)
    as [meta2 ev2]. cbn [snd] in *.
  unfold Catalog.reads in *. by rewrite omap_app, Hone, IH.
Qed.

End Level1ThenLevel2.


(** ** What [chat] returns *)

Lemma last_cons_app_some {A} (x : A) l suffix :
  exists y, last (x :: l ++ suffix) = Some y.
Proof.
  destruct (last (x :: l ++ suffix)) as [y|] eqn:E; [eauto|].
  by apply last_None in E.
Qed.

Section ChatResult.
Variable B : Type.
Variable json_loads : bool -> string -> pyval + string.
Variable py_repr : pyval -> string.
Variable call_handler :
  string -> pyval -> SkillLoader.fs -> outcome string * SkillLoader.fs.

(** The tool messages of the requests of a reply. *)
Lemma process_tool_calls_tail tcs full_messages (ag : BaseAgent.agent B) w
    msgs ag' w' :
  BaseAgent.process_tool_calls B json_loads py_repr call_handler
    tcs full_messages ag w = (Ok msgs, ag', w') ->
  exists answers,
    msgs = full_messages ++ answers /\
    length answers = length tcs /\
    Forall (fun m => role m = "tool") answers.
Proof.
  revert full_messages ag w.
  induction tcs as [|tc rest IH]; intros full_messages ag w;
    cbn [BaseAgent.process_tool_calls].
  - intros [= <- <- <-]. exists []. by rewrite app_nil_r.
  - destruct (BaseAgent.process_tool_call _ _ _ _ tc full_messages ag w)
      as [[[msgs1|e] ag1] w1] eqn:Hone; [|discriminate].
    destruct (process_tool_call_answer _ _ _ _ _ _ _ _ _ _ _ Hone)
      as [result ->].
    intros Hrest. destruct (IH _ _ _ Hrest) as (answers & -> & Hlen & Hall).
    exists (Described.answer tc result :: answers).
    rewrite <- List.app_assoc. split; [done|].
    split; [cbn; by rewrite Hlen|]. by constructor.
Qed.

(** A round that ends the loop returns the last message of the
    conversation with the gateway's reply: an assistant message without
    tool calls. *)
Lemma round_return gw full_messages (ag : BaseAgent.agent B) w m ag' w' :
  BaseAgent.round B json_loads py_repr call_handler gw full_messages ag w
    = (BaseAgent.Return m, ag', w') ->
  role m = "assistant" /\ tool_calls m = None /\
  exists reply b',
    gw (BaseAgent.w_backend w) full_messages (BaseAgent.offered_tools B ag)
      = (Ok reply, b') /\
    last (full_messages ++ reply) = Some m.
Proof.
  unfold BaseAgent.round.
  destruct (gw _ _ _) as [[reply|e] b']; [|discriminate].
  destruct (last (full_messages ++ reply)) as [last_message|] eqn:Hlast;
    [|discriminate].
  destruct (String.eqb (role last_message) "assistant") eqn:Hrole;
    [|discriminate].
  apply String.eqb_eq in Hrole.
  destruct (tool_calls last_message) as [tcs|] eqn:Htcs.
  - by destruct (BaseAgent.process_tool_calls _ _ _ _ _ _ _ _)
      as [[[msgs|e] ag1] w1].
  - intros [= <- <- <-]. split_and!; try done. by eexists _, _.
Qed.

(** A round after which the loop goes on has appended the gateway's
    reply and the tool messages of its requests. *)
Lemma round_continue gw full_messages (ag : BaseAgent.agent B) w
    msgs ag' w' :
  BaseAgent.round B json_loads py_repr call_handler gw full_messages ag w
    = (BaseAgent.Continue msgs, ag', w') ->
  exists reply b' answers,
    gw (BaseAgent.w_backend w) full_messages (BaseAgent.offered_tools B ag)
      = (Ok reply, b') /\
    msgs = full_messages ++ reply ++ answers /\
    Forall (fun m => role m = "tool") answers.
Proof.
  unfold BaseAgent.round.
  destruct (gw _ _ _) as [[reply|e] b']; [|discriminate].
  destruct (last (full_messages ++ reply)) as [last_message|];
    [|discriminate].
  destruct (String.eqb (role last_message) "assistant").
  - destruct (tool_calls last_message) as [tcs|]; [|discriminate].
    destruct (BaseAgent.process_tool_calls _ _ _ _ tcs _ ag _)
      as [[[msgs1|e] ag1] w1] eqn:Hp; [|discriminate].
    intros [= <- <- <-].
    destruct (process_tool_calls_tail _ _ _ _ _ _ _ Hp)
      as (answers & -> & _ & Hall).
    exists reply, b', answers. by rewrite <- List.app_assoc.
  - intros [= <- <- <-]. exists reply, b', []. by rewrite app_nil_r.
Qed.

Lemma react_loop_result gw rounds full_messages (ag : BaseAgent.agent B) w
    m ag' w' :
  full_messages <> [] ->
  BaseAgent.react_loop B json_loads py_repr call_handler gw rounds
    full_messages ag w = (Ok m, ag', w') ->
  exists calls final,
    BaseAgent.w_calls w' = BaseAgent.w_calls w ++ calls /\
    Transcript.grown gw full_messages final /\
    last final = Some m /\
    ((calls <> [] /\ role m = "assistant" /\ tool_calls m = None)
     \/ length calls = rounds).
Proof.
  revert full_messages ag w.
  induction rounds as [|rounds IH]; intros full_messages ag w Hne;
    cbn [BaseAgent.react_loop].
  - intros [= <- <- <-]. exists [], full_messages. rewrite app_nil_r.
    split_and!; [done|constructor| |by right].
    destruct (last full_messages) eqn:E; [done|].
    by apply last_None in E.
  - destruct (BaseAgent.round _ _ _ _ gw full_messages ag w)
      as [[res ag1] w1] eqn:Hround.
    destruct (round_world _ _ _ _ _ _ _ _ _ _ _ Hround) as (Hcalls & _ & _).
    destruct res as [msgs|last_message|e]; [| |discriminate].
    + destruct (round_continue _ _ _ _ _ _ _ Hround)
        as (reply & b' & answers & Hreply & -> & Htool).
      intros Hloop.
      assert (full_messages ++ reply ++ answers <> []) as Hne'
        by (by destruct full_messages).
      destruct (IH _ _ _ Hne' Hloop)
        as (calls & final & Hc & Hgrown & Hlast & Hcases).
      exists (full_messages :: calls), final.
      rewrite Hc, Hcalls, <- List.app_assoc.
      split_and!; [done|by econstructor|done|].
      destruct Hcases as [(_ & Hrole & Htcs)|Hlen].
      * left. by split_and!.
      * right. cbn [length]. by rewrite Hlen.
    + intros [= <- <- <-].
      destruct (round_return _ _ _ _ _ _ _ Hround)
        as (Hrole & Htcs & reply & b' & Hreply & Hlast).
      exists [full_messages], (full_messages ++ reply ++ []).
      split_and!; [done| |by rewrite app_nil_r|left; by split_and!].
      econstructor; [exact Hreply|constructor|constructor].
Qed.

(** X10. What an invocation of [chat] that returns normally returns:
    the last message of the conversation as it stands at the end, which
    begins with the system message and the caller's messages and has
    grown only by replies of the gateway and tool messages; so the
    message for an empty conversation ("Max reasoning rounds reached")
    never comes from the loop itself. Either at least one gateway call
    was made and the result is an assistant message without tool calls,
    or the round budget was used up and the result is whatever message
    stands last: a tool message, a message of the gateway, or the
    caller's own. With a budget of zero or less no gateway call is
    made, nothing changes, the last message passed in is returned (the
    system message if none was passed), and [process] returns the
    prompt it was given. *)
Theorem chat_returns_the_last_message (ag : BaseAgent.agent B) messages w :
  (forall gw m ag' w',
      BaseAgent.llm_client ag = Some gw ->
      BaseAgent.chat B json_loads py_repr call_handler ag messages w
        = (Ok m, ag', w') ->
      exists calls final,
        BaseAgent.w_calls w' = BaseAgent.w_calls w ++ calls /\
        Transcript.grown gw
          (system_message (BaseAgent.system_content B ag) :: messages)
          final /\
        last final = Some m /\
        ((calls <> [] /\ role m = "assistant" /\ tool_calls m = None) \/
         length calls = Z.to_nat (BaseAgent.max_rounds ag))) /\
  (forall gw,
      BaseAgent.llm_client ag = Some gw ->
      (BaseAgent.max_rounds ag <= 0)%Z ->
      BaseAgent.chat B json_loads py_repr call_handler ag messages w
        = (Ok (default (system_message (BaseAgent.system_content B ag))
                 (last messages)), ag, w) /\
      forall prompt,
        BaseAgent.process B json_loads py_repr call_handler ag prompt w
          = (Ok (Some prompt), ag, w)).
Proof.
  split.
  - intros gw m ag' w' Hgw. unfold BaseAgent.chat. rewrite Hgw.
    by apply react_loop_result.
  - intros gw Hgw Hle.
    assert (Z.to_nat (BaseAgent.max_rounds ag) = 0%nat) as Hzero by lia.
    assert (forall msgs,
               BaseAgent.chat B json_loads py_repr call_handler ag msgs w
               = (Ok (default (system_message (BaseAgent.system_content B ag))
                        (last msgs)), ag, w)) as Hchat.
    { intros msgs. unfold BaseAgent.chat. rewrite Hgw, Hzero.
      cbn [BaseAgent.react_loop]. rewrite last_cons.
      by destruct (last msgs). }
    split; [apply Hchat|].
    intros prompt. unfold BaseAgent.process. by rewrite Hchat.
Qed.
End ChatResult.

(** An agent with no rounds to spend answers a prompt with the prompt. *)
Lemma chat_returns_the_last_message_witness :
  let ag := Sample.agent_with (Sample.repeating Sample.plain_reply) 0
              (Some Sample.catalog) in
  BaseAgent.process nat Sample.json_loads Sample.py_repr Sample.call_handler
    ag "Make a deck about Q3." Sample.start
  = (Ok (Some "Make a deck about Q3."), ag, Sample.start) /\
  BaseAgent.chat nat Sample.json_loads Sample.py_repr Sample.call_handler
    ag [] Sample.start
  = (Ok (system_message Sample.level1_prompt), ag, Sample.start).
Proof.
  intros ag.
  destruct (chat_returns_the_last_message nat Sample.json_loads
              Sample.py_repr Sample.call_handler ag
              [user_message "Make a deck about Q3."] Sample.start)
    as [_ Hzero].
  destruct (Hzero _ eq_refl ltac:(done)) as [_ Hprocess].
  split; [apply Hprocess|].
  destruct (chat_returns_the_last_message nat Sample.json_loads
              Sample.py_repr Sample.call_handler ag [] Sample.start)
    as [_ Hzero'].
  destruct (Hzero' _ eq_refl ltac:(done)) as [Hchat _].
  rewrite Hchat. reflexivity.
Defined.

(** ** The resource cache and the disk *)

(** X11. The resource cache of a discovered skill is never refreshed and
    never consulted before the disk. Once [load_resource] has returned a
    content for a path, later calls return that content without a read
    on every file system that still has something at the file's path,
    whatever it holds now; on a file system where the path is gone they
    return [None] although the content is cached, and the cache is
    kept. A read that fails (an unreadable file, a directory) is caught:
    the result is [None], the failure is logged, the skill gets its
    (possibly empty) cache entry, and nothing is remembered about the
    failure, so a later call reads the file again. The file is looked up
    under the skill's folder unless the resource path is absolute: then
    it is that path itself. *)
Theorem resource_cache_ignores_the_disk f ld skill_name resource_path md :
  dict_get skill_name (SkillLoader.skill_metadata ld) = Some md ->
  (forall c ld1 ev1,
      SkillLoader.load_resource f ld skill_name resource_path
        = (Some c, ld1, ev1) ->
      (forall f',
          SkillLoader.path_exists f'
            (SkillLoader.joinpath (SkillLoader.md_path md) resource_path)
            = true ->
          SkillLoader.load_resource f' ld1 skill_name resource_path
            = (Some c, ld1, [])) /\
      (forall f',
          f' (SkillLoader.joinpath (SkillLoader.md_path md) resource_path)
            = None ->
          SkillLoader.load_resource f' ld1 skill_name resource_path
            = (None, ld1, [SkillLoader.EvResourceNotFound resource_path]))) /\
  (forall e,
      SkillLoader.path_exists f
        (SkillLoader.joinpath (SkillLoader.md_path md) resource_path) = true ->
      SkillLoader.read_text f
        (SkillLoader.joinpath (SkillLoader.md_path md) resource_path)
        = Raise e ->
      default ∅ (SkillLoader.skill_resources ld !! skill_name)
        !! resource_path = None ->
      exists ld1,
        SkillLoader.load_resource f ld skill_name resource_path
          = (None, ld1,
             [SkillLoader.EvLoadingResource resource_path;
              SkillLoader.EvRead
                (SkillLoader.joinpath (SkillLoader.md_path md) resource_path);
              SkillLoader.EvLoadFailed e]) /\
        SkillLoader.skill_resources ld1 !! skill_name
          = Some (default ∅ (SkillLoader.skill_resources ld !! skill_name)) /\
        forall f' c,
          f' (SkillLoader.joinpath (SkillLoader.md_path md) resource_path)
            = Some (SkillLoader.File (Ok c)) ->
          exists ld2,
            SkillLoader.load_resource f' ld1 skill_name resource_path
            = (Some c, ld2,
               [SkillLoader.EvLoadingResource resource_path;
                SkillLoader.EvRead
                  (SkillLoader.joinpath (SkillLoader.md_path md)
                     resource_path);
                SkillLoader.EvLoaded (String.length c)])) /\
  (startswith "/" resource_path = true ->
   SkillLoader.joinpath (SkillLoader.md_path md) resource_path
     = resource_path).
Proof.
  intros Hmd. split_and!.
  - intros c ld1 ev1 Hload.
    destruct (load_resource_some _ _ _ _ _ _ _ _ Hmd Hload)
      as (Hmeta & _ & _ & (cache & Hcache & Hc) & _).
    rewrite <- Hmeta in Hmd. split.
    + intros f' Hex. by eapply load_resource_cached.
    + intros f' Hgone. unfold SkillLoader.load_resource, SkillLoader.path_exists.
      by rewrite Hmd, Hgone.
  - intros e Hex Hread Hfresh.
    unfold SkillLoader.load_resource. rewrite Hmd, Hex. cbn [negb].
    set (resources :=
           match SkillLoader.skill_resources ld !! skill_name with
           | Some _ => SkillLoader.skill_resources ld
           | None => <[skill_name:=∅]> (SkillLoader.skill_resources ld)
           end).
    assert (resources !! skill_name
            = Some (default ∅ (SkillLoader.skill_resources ld !! skill_name)))
      as Hres.
    { subst resources.
      destruct (SkillLoader.skill_resources ld !! skill_name) eqn:E;
        [done|]. by rewrite lookup_insert_eq. }
    rewrite Hres. cbn [from_option id] in *. rewrite Hfresh, Hread.
    eexists. split; [reflexivity|]. split; [exact Hres|].
    intros f' c Hfile.
    cbn [SkillLoader.set_skill_resources SkillLoader.skill_metadata
           SkillLoader.skill_resources SkillLoader.skills_directory
           SkillLoader.skill_content].
    unfold SkillLoader.path_exists, SkillLoader.read_text.
    rewrite Hmd, Hfile. cbn [negb]. rewrite Hres. cbn [from_option id].
    rewrite Hres. cbn [from_option id]. rewrite Hfresh. eauto.
  - intros Habs. unfold SkillLoader.joinpath. by rewrite Habs.
Qed.

(** The marker file of [pptx] loaded as a resource from the sample disk:
    it is served from the cache on a disk that holds another text at its
    path, and refused on an empty disk. *)
Lemma resource_cache_ignores_the_disk_witness :
  exists c ld1 ev1,
    SkillLoader.load_resource Sample.disk Sample.catalog "pptx" "SKILL.md"
      = (Some c, ld1, ev1) /\
    SkillLoader.load_resource
      (fun p => if String.eqb p "skills/pptx/SKILL.md"
                then Some (SkillLoader.File (Ok "changed")) else None)
      ld1 "pptx" "SKILL.md" = (Some c, ld1, []) /\
    SkillLoader.load_resource (fun _ => None) ld1 "pptx" "SKILL.md"
      = (None, ld1, [SkillLoader.EvResourceNotFound "SKILL.md"]).
Proof.
  destruct (SkillLoader.load_resource Sample.disk Sample.catalog "pptx"
              "SKILL.md") as [[[c|] ld1] ev1] eqn:Hload;
    [|vm_compute in Hload; discriminate].
  exists c, ld1, ev1. split; [reflexivity|].
  destruct (resource_cache_ignores_the_disk Sample.disk Sample.catalog
              "pptx" "SKILL.md" Sample.pptx_metadata eq_refl)
    as (Hcached & _ & _).
  destruct (Hcached c ld1 ev1 Hload) as [Hstale Hgone].
  split; [by apply Hstale | by apply Hgone].
Defined.

(** ** The exceptions that leave the loop *)

Section Escapes.
Variable B : Type.
Variable json_loads : bool -> string -> pyval + string.
Variable py_repr : pyval -> string.
Variable call_handler :
  string -> pyval -> SkillLoader.fs -> outcome string * SkillLoader.fs.

(** The only requests that raise are those for [use_skill], at the
    lookup of the name in arguments that are no mapping or at the
    membership test of a name that cannot be hashed. *)
Lemma process_tool_call_raise tc full_messages (ag : BaseAgent.agent B) w
    e ag' w' :
  BaseAgent.process_tool_call B json_loads py_repr call_handler
    tc full_messages ag w = (Raise e, ag', w') ->
  tc_name tc = "use_skill" /\
  (exn_class e = "AttributeError" \/ exn_class e = "TypeError").
Proof.
  unfold BaseAgent.process_tool_call.
  destruct (BaseAgent._parse_tool_args _ _ _) as [args parse_error].
  destruct (BaseAgent.truthy_opt parse_error); [discriminate|].
  destruct (String.eqb (tc_name tc) "use_skill") eqn:Hname.
  - apply String.eqb_eq in Hname. intros H. split; [done|]. revert H.
    unfold get_attr_get.
    destruct (default PNone args) as [| | | | | |d];
      try (intros [= <- <- <-]; by left).
    unfold BaseAgent._handle_use_skill, BaseAgent.activate_skill.
    destruct (BaseAgent.skill_loader ag) as [ld|]; [|discriminate].
    destruct (negb (hashable _)); [intros [= <- <- <-]; by right|].
    destruct (match dict_get "skill_name" d with
              | Some x => x | None => PStr "" end) as [| | | |s| |];
      try discriminate.
    destruct (dict_mem s _); [discriminate|].
    destruct (SkillLoader.activate_skill _ _ _) as [[content ld'] ev].
    by destruct (BaseAgent.truthy_opt content).
  - by destruct (BaseTools.execute_tool _ _ _ _).
Qed.

Lemma process_tool_calls_raise tcs full_messages (ag : BaseAgent.agent B) w
    e ag' w' :
  BaseAgent.process_tool_calls B json_loads py_repr call_handler
    tcs full_messages ag w = (Raise e, ag', w') ->
  exists tc,
    In tc tcs /\ tc_name tc = "use_skill" /\
    (exn_class e = "AttributeError" \/ exn_class e = "TypeError").
Proof.
  revert full_messages ag w.
  induction tcs as [|tc rest IH]; intros full_messages ag w;
    cbn [BaseAgent.process_tool_calls]; [discriminate|].
  destruct (BaseAgent.process_tool_call _ _ _ _ tc full_messages ag w)
    as [[[msgs|e1] ag1] w1] eqn:Hone.
  - intros Hrest. destruct (IH _ _ _ Hrest) as (tc' & Hin & H).
    exists tc'. split; [by right|done].
  - intros [= <- <- <-].
    destruct (process_tool_call_raise _ _ _ _ _ _ _ Hone) as [Hname Hclass].
    exists tc. split; [by left|done].
Qed.

(** A round of a gateway that raises nothing, on a conversation that is
    not empty, fails only through a request for [use_skill] in the reply
    it has just received. *)
Lemma round_fault gw full_messages (ag : BaseAgent.agent B) w e ag' w' :
  (forall b msgs tools, exists reply b', gw b msgs tools = (Ok reply, b')) ->
  full_messages <> [] ->
  BaseAgent.round B json_loads py_repr call_handler gw full_messages ag w
    = (BaseAgent.Fault e, ag', w') ->
  (exn_class e = "AttributeError" \/ exn_class e = "TypeError") /\
  exists b tools reply b' m tcs tc,
    gw b full_messages tools = (Ok reply, b') /\
    last (full_messages ++ reply) = Some m /\
    tool_calls m = Some tcs /\ In tc tcs /\ tc_name tc = "use_skill".
Proof.
  intros Hgw Hne. unfold BaseAgent.round.
  destruct (gw (BaseAgent.w_backend w) full_messages
              (BaseAgent.offered_tools B ag)) as [[reply|e0] b'] eqn:Hreply.
  2:{ destruct (Hgw (BaseAgent.w_backend w) full_messages
                  (BaseAgent.offered_tools B ag)) as (r & b0 & H).
      rewrite H in Hreply. discriminate. }
  destruct (last (full_messages ++ reply)) as [last_message|] eqn:Hlast.
  - destruct (String.eqb (role last_message) "assistant"); [|discriminate].
    destruct (tool_calls last_message) as [tcs|] eqn:Htcs; [|discriminate].
    destruct (BaseAgent.process_tool_calls _ _ _ _ tcs _ ag _)
      as [[[msgs|e1] ag1] w1] eqn:Hp; [discriminate|].
    intros [= <- <- <-].
    destruct (process_tool_calls_raise _ _ _ _ _ _ _ Hp)
      as (tc & Hin & Hname & Hclass).
    split; [done|]. eexists _, _, _, _, _, _, _. by split_and!.
  - apply last_None in Hlast. by destruct full_messages.
Qed.

Lemma react_loop_fault gw rounds full_messages (ag : BaseAgent.agent B) w
    e ag' w' :
  (forall b msgs tools, exists reply b', gw b msgs tools = (Ok reply, b')) ->
  full_messages <> [] ->
  BaseAgent.react_loop B json_loads py_repr call_handler gw rounds
    full_messages ag w = (Raise e, ag', w') ->
  (exn_class e = "AttributeError" \/ exn_class e = "TypeError") /\
  exists conversation b tools reply b' m tcs tc,
    gw b conversation tools = (Ok reply, b') /\
    last (conversation ++ reply) = Some m /\
    tool_calls m = Some tcs /\ In tc tcs /\ tc_name tc = "use_skill".
Proof.
  intros Hgw. revert full_messages ag w.
  induction rounds as [|rounds IH]; intros full_messages ag w Hne;
    cbn [BaseAgent.react_loop]; [discriminate|].
  destruct (BaseAgent.round _ _ _ _ gw full_messages ag w)
    as [[res ag1] w1] eqn:Hround.
  destruct res as [msgs|m|e1]; [|discriminate|].
  - destruct (round_world _ _ _ _ _ _ _ _ _ _ _ Hround) as (_ & _ & Hgrow).
    destruct (Hgrow msgs eq_refl) as [suffix ->].
    apply IH. by destruct full_messages.
  - intros [= <- <- <-].
    destruct (round_fault _ _ _ _ _ _ _ Hgw Hne Hround) as [Hclass Hwhere].
    split; [done|]. by exists full_messages.
Qed.
End Escapes.

Section RealClient.
Variable B : Type.
Variable json_loads : bool -> string -> pyval + string.
Variable py_repr : pyval -> string.
Variable call_handler :
  string -> pyval -> SkillLoader.fs -> outcome string * SkillLoader.fs.
Variable create :
  B -> LLMClient.api_params -> outcome LLMClient.completion * B.

End RealClient.


(** ** What the client relays *)

Section Relay.
Variable B : Type.
Variable create :
  B -> LLMClient.api_params -> outcome LLMClient.completion * B.
Variable json_loads : bool -> string -> pyval + string.

(** X13. When the endpoint answers, [LLMClient.chat] relays the first
    choice and only that one: one assistant message with the choice's
    content, and with every tool call of the choice, in order, with its
    identifier, type, name and argument text unchanged; the key
    [tool_calls] is absent when the choice has no tool call or an empty
    list of them, so a message with [tool_calls] has at least one. The
    request carries the whole tool list when there is one and no tool
    list when it is empty. The arguments of a relayed call are always a
    string, so of the two errors of [_parse_tool_args] only the one about
    invalid JSON can answer a call that came through the client. *)
Theorem llm_chat_relays_tool_calls c b messages tools completion b'
    message rest :
  LLMClient.client_ready c = true ->
  create b (LLMClient.build_params c messages tools) = (Ok completion, b') ->
  LLMClient.choices completion = message :: rest ->
  LLMClient.ap_tools (LLMClient.build_params c messages tools)
    = match tools with Some [] => None | _ => tools end /\
  exists m,
    LLMClient.chat B create c b messages tools = (Ok [m], b') /\
    role m = "assistant" /\
    content m = LLMClient.am_content message /\
    (forall calls,
        LLMClient.am_tool_calls message = Some calls -> calls <> [] ->
        exists tcs,
          tool_calls m = Some tcs /\
          length tcs = length calls /\
          (forall i call,
              calls !! i = Some call ->
              tcs !! i
              = Some (mk_tool_call (LLMClient.atc_id call)
                        (LLMClient.atc_type call) (LLMClient.atc_name call)
                        (PStr (LLMClient.atc_arguments call)))) /\
          (forall tc function_name e,
              In tc tcs ->
              BaseAgent._parse_tool_args json_loads (tc_arguments tc)
                function_name = (None, Some e) ->
              startswith
                ("Error: Invalid JSON arguments for tool '" +:+
                 function_name +:+ "': ") e = true)) /\
    (LLMClient.am_tool_calls message = None \/
     LLMClient.am_tool_calls message = Some [] ->
     tool_calls m = None).
Proof.
  intros Hready Hcreate Hchoices. split.
  { unfold LLMClient.build_params. by destruct tools as [[|t ts]|]. }
  unfold LLMClient.chat. rewrite Hready, Hcreate, Hchoices. cbn [negb].
  destruct (LLMClient.am_tool_calls message) as [[|call calls]|] eqn:Hcalls.
  - eexists. split; [reflexivity|]. split_and!; try done.
    by intros calls [= <-].
  - eexists. split; [reflexivity|]. split_and!; try done.
    + intros calls' [= <-] _.
      exists (map LLMClient.convert_tool_call (call :: calls)).
      split_and!.
      * done.
      * by rewrite length_map.
      * intros i call' Hi. rewrite list_lookup_fmap, Hi. done.
      * intros tc function_name e Hin.
        apply in_map_iff in Hin as (call' & <- & _).
        unfold BaseAgent._parse_tool_args, LLMClient.convert_tool_call.
        cbn [tc_arguments].
        destruct (negb _); [discriminate|].
        destruct (json_loads true _); [discriminate|].
        destruct (json_loads false _); [discriminate|].
        intros [= <-].
        rewrite <- (sapp_assoc function_name "': ").
        rewrite <- (sapp_assoc "Error: Invalid JSON arguments for tool '"
                      (function_name +:+ "': ")).
        apply startswith_app.
    + by intros [|].
  - eexists. split; [reflexivity|]. split_and!; try done.
Qed.
End Relay.

(** Two tool calls in one choice, and a second choice that is ignored. *)
Lemma llm_chat_relays_tool_calls_witness :
  let c := LLMClient.mk_client "gpt-4" "openai" "sk-test"
             "https://api.openai.com/v1" true in
  let first := LLMClient.mk_api_message (Some "On it.")
                 (Some [LLMClient.mk_api_tool_call "call_1" "function"
                          "use_skill" Sample.use_pptx_args;
                        LLMClient.mk_api_tool_call "call_2" "function"
                          "read_file" "{oops"]) in
  let create := fun (n : nat) (_ : LLMClient.api_params) =>
    (Ok (LLMClient.mk_completion
           [first; LLMClient.mk_api_message (Some "Another.") None]), S n) in
  LLMClient.chat nat create c 0 [user_message "Make a deck about Q3."]
    (Some BaseTools.get_tool_definitions)
  = (Ok [assistant_message (Some "On it.")
           (Some [Sample.request "call_1" "use_skill"
                    (PStr Sample.use_pptx_args);
                  Sample.request "call_2" "read_file" (PStr "{oops")])], 1).
Proof.
  intros c first create.
  destruct (llm_chat_relays_tool_calls nat create Sample.json_loads c 0
              [user_message "Make a deck about Q3."]
              (Some BaseTools.get_tool_definitions) _ _ first _
              eq_refl eq_refl eq_refl)
    as (_ & m & Hchat & _).
  rewrite Hchat. vm_compute in Hchat. by injection Hchat as <-.
Defined.

(** ** The construction of the client *)

Lemma llm_init_ok getenv installed model key url provider c :
  LLMClient.init getenv installed model key url provider = Ok c ->
  installed = true /\
  truthy (LLMClient.api_key c) = true /\
  truthy (LLMClient.base_url c) = true /\
  (LLMClient.truthy_opt key = true -> key = Some (LLMClient.api_key c)) /\
  (LLMClient.truthy_opt key = false ->
   getenv (default "API_KEY" (dict_get provider LLMClient.env_key_map))
     = Some (LLMClient.api_key c)) /\
  (LLMClient.truthy_opt url = true -> url = Some (LLMClient.base_url c)) /\
  (LLMClient.truthy_opt url = false ->
   LLMClient.base_url c
     = default "https://api.openai.com/v1"
         (dict_get provider LLMClient.url_map)) /\
  LLMClient.model c = model /\ LLMClient.provider c = provider.
Proof.
  unfold LLMClient.init.
  set (k := if LLMClient.truthy_opt key then key
            else getenv (default "API_KEY"
                           (dict_get provider LLMClient.env_key_map))).
  destruct (LLMClient.truthy_opt k) eqn:Hk; [|discriminate]. cbn [negb].
  destruct installed; [|discriminate]. intros [= <-].
  cbn [LLMClient.api_key LLMClient.base_url LLMClient.model
         LLMClient.provider].
  destruct k as [kv|] eqn:Ek; [|discriminate]. cbn [from_option id].
  cbn [LLMClient.truthy_opt] in Hk.
  split_and!; try done.
  - destruct (LLMClient.truthy_opt url) eqn:Hurl.
    + destruct url as [u|]; [done|discriminate].
    + unfold LLMClient.url_map. cbn [dict_get].
      destruct (String.eqb provider "openai"); [done|].
      destruct (String.eqb provider "deepseek"); [done|].
      by destruct (String.eqb provider "anthropic").
  - intros Hkey. subst k. by rewrite Hkey in Ek.
  - intros Hkey. subst k. by rewrite Hkey in Ek.
  - intros Hurl. rewrite Hurl. by destruct url.
  - intros Hurl. by rewrite Hurl.
Qed.

(** X14. The construction of the client. [LLMClient] raises [ValueError]
    exactly when neither the argument nor the provider's environment
    variable gives a non-empty key, and otherwise [ImportError] exactly
    when the API package is missing. A client that was constructed has a
    non-empty key and a non-empty base URL: an argument that is given
    and not empty wins, an empty one counts as absent, and a provider
    that is not known falls back to the variable API_KEY and the OpenAI
    URL. [main] never meets the [ValueError]: once its own check has
    found a key, the provider it selects is the one whose variable is
    set, DeepSeek first, and the client is built with that variable's
    key, that provider's URL and the matching model. *)
Theorem main_finds_the_key_it_checked getenv openai_installed :
  (forall model key url provider,
      let env_key :=
        getenv (default "API_KEY" (dict_get provider LLMClient.env_key_map)) in
      ((exists e,
           LLMClient.init getenv openai_installed model key url provider
             = Raise e /\ exn_class e = "ValueError") <->
       LLMClient.truthy_opt key = false /\
       LLMClient.truthy_opt env_key = false) /\
      forall c,
        LLMClient.init getenv openai_installed model key url provider = Ok c ->
        LLMClient.client_ready c = true /\
        truthy (LLMClient.api_key c) = true /\
        truthy (LLMClient.base_url c) = true /\
        (LLMClient.truthy_opt key = true -> key = Some (LLMClient.api_key c)) /\
        (LLMClient.truthy_opt key = false ->
         env_key = Some (LLMClient.api_key c)) /\
        (LLMClient.truthy_opt url = true ->
         url = Some (LLMClient.base_url c))) /\
  (Main.make_client getenv openai_installed = None <->
   LLMClient.truthy_opt (getenv "OPENAI_API_KEY") = false /\
   LLMClient.truthy_opt (getenv "DEEPSEEK_API_KEY") = false) /\
  (forall r,
      Main.make_client getenv openai_installed = Some r ->
      (forall e,
          r = Raise e ->
          openai_installed = false /\ exn_class e = "ImportError") /\
      (forall c,
          r = Ok c ->
          (LLMClient.truthy_opt (getenv "DEEPSEEK_API_KEY") = true /\
           c = LLMClient.mk_client "deepseek-chat" "deepseek"
                 (default "" (getenv "DEEPSEEK_API_KEY"))
                 "https://api.deepseek.com/v1" true) \/
          (LLMClient.truthy_opt (getenv "DEEPSEEK_API_KEY") = false /\
           LLMClient.truthy_opt (getenv "OPENAI_API_KEY") = true /\
           c = LLMClient.mk_client "gpt-4" "openai"
                 (default "" (getenv "OPENAI_API_KEY"))
                 "https://api.openai.com/v1" true))).
Proof.
  split_and!.
  - intros model key url provider env_key. split.
    + unfold LLMClient.init. fold env_key.
      destruct (LLMClient.truthy_opt key) eqn:Hkey.
      * rewrite Hkey. cbn [negb]. split; [|by intros [? ?]].
        intros (e & H & Hclass). destruct openai_installed; [discriminate|].
        injection H as <-. discriminate.
      * destruct (LLMClient.truthy_opt env_key) eqn:Henv; cbn [negb].
        -- split; [|by intros [? ?]].
           intros (e & H & Hclass). destruct openai_installed; [discriminate|].
           injection H as <-. discriminate.
        -- split; [done|]. intros _. eauto.
    + intros c Hinit.
      pose proof (init_client_ready _ _ _ _ _ _ _ Hinit) as Hready.
      destruct (llm_init_ok _ _ _ _ _ _ _ Hinit)
        as (_ & Hk & Hu & Hkey & Henv & Hurl & _).
      by split_and!.
  - unfold Main.make_client, Main.select_provider, Main.or_else.
    destruct (LLMClient.truthy_opt (getenv "OPENAI_API_KEY")) eqn:Ho.
    + rewrite Ho. cbn [negb]. split; [discriminate|by intros [? ?]].
    + destruct (LLMClient.truthy_opt (getenv "DEEPSEEK_API_KEY")) eqn:Hd;
        cbn [negb]; split; try done. by intros [? ?].
  - intros r. unfold Main.make_client, Main.select_provider, Main.or_else.
    destruct (LLMClient.truthy_opt (getenv "DEEPSEEK_API_KEY")) eqn:Hd.
    + assert (LLMClient.truthy_opt
                (if LLMClient.truthy_opt (getenv "OPENAI_API_KEY")
                 then getenv "OPENAI_API_KEY"
                 else getenv "DEEPSEEK_API_KEY") = true) as ->.
      { by destruct (LLMClient.truthy_opt (getenv "OPENAI_API_KEY")) eqn:Ho. }
      cbn [negb String.eqb Ascii.eqb Bool.eqb andb]. intros [= <-].
      unfold LLMClient.init.
      change (dict_get "deepseek" LLMClient.env_key_map)
        with (Some "DEEPSEEK_API_KEY").
      change (dict_get "deepseek" LLMClient.url_map)
        with (Some "https://api.deepseek.com/v1").
      cbn [LLMClient.truthy_opt from_option id]. rewrite Hd. cbn [negb].
      destruct openai_installed; split; try done.
      * intros c [= <-]. by left.
      * by intros e [= <-].
    + destruct (LLMClient.truthy_opt (getenv "OPENAI_API_KEY")) eqn:Ho.
      * rewrite Ho.
        cbn [negb String.eqb Ascii.eqb Bool.eqb andb]. intros [= <-].
        unfold LLMClient.init.
        change (dict_get "openai" LLMClient.env_key_map)
          with (Some "OPENAI_API_KEY").
        change (dict_get "openai" LLMClient.url_map)
          with (Some "https://api.openai.com/v1").
        cbn [LLMClient.truthy_opt from_option id]. rewrite Ho. cbn [negb].
        destruct openai_installed; split; try done.
        -- intros c [= <-]. by right.
        -- by intros e [= <-].
      * rewrite Hd. discriminate.
Qed.

(** Both variables set: DeepSeek is chosen, with its own key. *)
Lemma main_finds_the_key_it_checked_witness :
  let getenv := fun var =>
    if String.eqb var "OPENAI_API_KEY" then Some "sk-openai"
    else if String.eqb var "DEEPSEEK_API_KEY" then Some "sk-deepseek"
    else None in
  Main.make_client getenv true
  = Some (Ok (LLMClient.mk_client "deepseek-chat" "deepseek" "sk-deepseek"
                "https://api.deepseek.com/v1" true)) /\
  (exists e,
      LLMClient.init getenv true "gpt-4" (Some "") None "mistral" = Raise e).
Proof.
  intros getenv.
  destruct (main_finds_the_key_it_checked getenv true)
    as (Hinit & Hnone & Hsome).
  split.
  - destruct (Main.make_client getenv true) as [[c|e]|] eqn:Hmake.
    + destruct (Hsome _ eq_refl) as [_ Hc].
      destruct (Hc c eq_refl) as [[_ ->]|[Hd _]]; [done|discriminate].
    + destruct (Hsome _ eq_refl) as [He _].
      by destruct (He e eq_refl).
    + destruct Hnone as [Hn _]. destruct (Hn eq_refl) as [Ho _].
      discriminate.
  - destruct (Hinit "gpt-4" (Some "") None "mistral") as [[_ Hvalue] _].
    destruct (Hvalue (conj eq_refl eq_refl)) as (e & He & _). eauto.
Defined.

(** ** From an activation to the next invocation *)

(** The block of an activated skill is part of the system prompt. *)
Lemma activated_block_in_prompt {B} (ag : BaseAgent.agent B) skill_name body :
  In (skill_name, body) (BaseAgent.activated_skills ag) ->
  exists before after,
    BaseAgent.system_content B ag
    = before +:+
      ("### Skill: " +:+ skill_name +:+ nl +:+ nl +:+ body +:+ nl +:+ nl)
      +:+ after.
Proof.
  intros Hin. unfold BaseAgent.system_content.
  destruct (BaseAgent.activated_skills ag) as [|s0 rest] eqn:Hact; [done|].
  unfold BaseAgent.skill_instructions.
  rewrite (fold_append _
             (fun skill : string * string =>
                "### Skill: " +:+ fst skill +:+ nl +:+ nl +:+ snd skill
                +:+ nl +:+ nl)).
  2:{ intros acc x. by rewrite !sapp_assoc. }
  destruct (concat_has
              (fun skill : string * string =>
                 "### Skill: " +:+ fst skill +:+ nl +:+ nl +:+ snd skill
                 +:+ nl +:+ nl)
              (s0 :: rest) (skill_name, body) Hin) as (b0 & a0 & ->).
  cbn [fst snd].
  match goal with
  | |- exists _ _, ?c1 +:+ ?i2 +:+ b0 +:+ _ = _ =>
      exists (c1 +:+ i2 +:+ b0), a0
  end.
  by rewrite !sapp_assoc.
Qed.

Section NextInvocation.
Variable B : Type.
Variable json_loads : bool -> string -> pyval + string.
Variable py_repr : pyval -> string.
Variable call_handler :
  string -> pyval -> SkillLoader.fs -> outcome string * SkillLoader.fs.

(** Every gateway call of the loop carries the conversation the loop was
    entered with, followed by what was appended since. *)
Lemma react_loop_calls_extend gw rounds full_messages (ag : BaseAgent.agent B)
    w r ag' w' :
  BaseAgent.react_loop B json_loads py_repr call_handler gw rounds
    full_messages ag w = (r, ag', w') ->
  exists calls,
    BaseAgent.w_calls w' = BaseAgent.w_calls w ++ calls /\
    Forall (fun msgs => exists suffix, msgs = full_messages ++ suffix) calls.
Proof.
  revert full_messages ag w.
  induction rounds as [|rounds IH]; intros full_messages ag w;
    cbn [BaseAgent.react_loop].
  - intros [= <- <- <-]. exists []. by rewrite app_nil_r.
  - destruct (BaseAgent.round _ _ _ _ gw full_messages ag w)
      as [[res ag1] w1] eqn:Hround.
    destruct (round_world _ _ _ _ _ _ _ _ _ _ _ Hround) as (Hc & _ & Hm).
    assert (exists suffix, full_messages = full_messages ++ suffix) as Hself.
    { exists []. by rewrite app_nil_r. }
    destruct res as [msgs|m|e].
    + destruct (Hm _ eq_refl) as [suffix ->]. intros Hloop.
      destruct (IH _ _ _ Hloop) as (calls & Hcalls & Hall).
      exists (full_messages :: calls). rewrite Hcalls, Hc, <- List.app_assoc.
      split; [done|]. constructor; [done|].
      eapply Forall_impl; [exact Hall|].
      intros msgs [suffix' ->]. exists (suffix ++ suffix').
      by rewrite List.app_assoc.
    + intros [= <- <- <-]. exists [full_messages]. split; [done|].
      by constructor.
    + intros [= <- <- <-]. exists [full_messages]. split; [done|].
      by constructor.
Qed.

End NextInvocation.


(** ** The tools that are offered and the tools that are served *)

Section Offered.
Variable B : Type.
Variable json_loads : bool -> string -> pyval + string.
Variable py_repr : pyval -> string.
Variable call_handler :
  string -> pyval -> SkillLoader.fs -> outcome string * SkillLoader.fs.

(** X16. The tool list sent to the model and the dispatch agree. The
    list names each tool once; it is the five registered base tools, in
    the order of their definitions, preceded by [use_skill] exactly when
    a skill loader is attached; every entry is a function whose required
    parameters are declared. A request for an offered base tool with
    arguments that parse always reaches that tool's handler: the answer
    is the handler's text, or the text of its exception after "Error
    executing", never "Unknown tool", and the agent is left as it was.
    A request for a name that is neither [use_skill] nor registered is
    answered "Unknown tool" and changes nothing. *)
Theorem offered_tools_are_served (ag : BaseAgent.agent B) :
  map ts_name (BaseAgent.offered_tools B ag)
    = match BaseAgent.skill_loader ag with
      | Some _ => ["use_skill"]
      | None => []
      end ++ BaseTools.tools /\
  NoDup ("use_skill" :: BaseTools.tools) /\
  Forall (fun ts =>
            ts_type ts = "function" /\
            forall p, In p (ts_required ts) ->
                      In p (map (fun d => fst (fst d)) (ts_properties ts)))
    (BaseAgent.offered_tools B ag) /\
  (forall tc args full_messages w,
      BaseAgent._parse_tool_args json_loads (tc_arguments tc) (tc_name tc)
        = (Some args, None) ->
      (In (tc_name tc) (map ts_name BaseTools.get_tool_definitions) ->
       BaseAgent.process_tool_call B json_loads py_repr call_handler
         tc full_messages ag w
       = (Ok (full_messages ++
              [Described.answer tc
                 match fst (call_handler (tc_name tc) args (BaseAgent.w_fs w))
                 with
                 | Ok result => result
                 | Raise e =>
                     "Error executing " +:+ tc_name tc +:+ ": " +:+ exn_text e
                 end]),
          ag,
          BaseAgent.set_fs B w
            (snd (call_handler (tc_name tc) args (BaseAgent.w_fs w))))) /\
      (~ In (tc_name tc) ("use_skill" :: BaseTools.tools) ->
       BaseAgent.process_tool_call B json_loads py_repr call_handler
         tc full_messages ag w
       = (Ok (full_messages ++
              [Described.answer tc
                 ("Error: Unknown tool '" +:+ tc_name tc +:+ "'")]),
          ag, w))).
Proof.
  split_and!.
  - unfold BaseAgent.offered_tools.
    by destruct (BaseAgent.skill_loader ag).
  - unfold BaseTools.tools.
    apply (bool_decide_unpack _). by vm_compute.
  - unfold BaseAgent.offered_tools, BaseTools.get_tool_definitions.
    destruct (BaseAgent.skill_loader ag); cbn [app];
      repeat (apply List.Forall_cons;
              [split; [reflexivity|]; cbn; tauto|]);
      apply List.Forall_nil.
  - intros tc args full_messages w Hparse. split.
    + intros Hin.
      assert (tc_name tc <> "use_skill" /\
              existsb (String.eqb (tc_name tc)) BaseTools.tools = true)
        as [Hne Hreg].
      { cbn in Hin.
        destruct Hin as [<-|[<-|[<-|[<-|[<-|[]]]]]]; by split. }
      rewrite (process_tool_call_registry B json_loads py_repr call_handler
                 tc full_messages ag w Hne).
      unfold Described.registry_result, Described.answer. rewrite Hparse.
      cbn [BaseAgent.truthy_opt from_option id].
      unfold BaseTools.execute_tool. rewrite Hreg. cbn [negb].
      by destruct (call_handler _ _ _) as [[result|e] f'].
    + intros Hout.
      assert (tc_name tc <> "use_skill" /\
              existsb (String.eqb (tc_name tc)) BaseTools.tools = false)
        as [Hne Hreg].
      { split; [intros E; apply Hout; by left|].
        destruct (existsb _ _) eqn:E; [|done].
        exfalso. apply Hout. right.
        apply existsb_exists in E as (name & Hin & Heq).
        apply String.eqb_eq in Heq. by subst. }
      rewrite (process_tool_call_registry B json_loads py_repr call_handler
                 tc full_messages ag w Hne).
      unfold Described.registry_result, Described.answer. rewrite Hparse.
      cbn [BaseAgent.truthy_opt from_option id].
      unfold BaseTools.execute_tool. rewrite Hreg. cbn [negb fst snd].
      by rewrite set_fs_same.
Qed.
End Offered.

(** A request for [read_file] on the sample disk, and one for a tool
    that does not exist. *)
Lemma offered_tools_are_served_witness :
  let ag := Sample.agent_with (Sample.repeating []) 1 (Some Sample.catalog) in
  BaseAgent.process_tool_call nat Sample.json_loads Sample.py_repr
    Sample.call_handler
    (Sample.request "call_1" "read_file" (PStr Sample.path_args)) [] ag
    Sample.start
  = (Ok [tool_message "call_1" "read_file"
           (fst (BaseTools.execute_tool Sample.call_handler "read_file"
                   (PDict [("path", PStr "skills/README.txt")])
                   Sample.disk))],
     ag, Sample.start) /\
  BaseAgent.process_tool_call nat Sample.json_loads Sample.py_repr
    Sample.call_handler (Sample.request "call_2" "foo" (PStr "{}")) [] ag
    Sample.start
  = (Ok [tool_message "call_2" "foo" "Error: Unknown tool 'foo'"],
     ag, Sample.start).
Proof.
  intros ag.
  destruct (offered_tools_are_served nat Sample.json_loads Sample.py_repr
              Sample.call_handler ag) as (_ & _ & _ & Hserved).
  split.
  - destruct (Hserved
                (Sample.request "call_1" "read_file" (PStr Sample.path_args))
                (PDict [("path", PStr "skills/README.txt")]) []
                Sample.start eq_refl) as [Hin _].
    rewrite Hin; [reflexivity|]. cbn. tauto.
  - destruct (Hserved (Sample.request "call_2" "foo" (PStr "{}"))
                (PDict []) [] Sample.start eq_refl) as [_ Hout].
    rewrite Hout; [reflexivity|].
    cbn. intros [H|[H|[H|[H|[H|[H|[]]]]]]]; discriminate.
Defined.

(** ** The names of the discovered skills *)

Lemma contains_sep_app sep a b :
  truthy sep = true -> contains sep (a +:+ sep +:+ b) = true.
Proof.
  intros Hsep. unfold contains. destruct sep as [|c sep]; [done|].
  destruct (cut (String c sep) (a +:+ String c sep +:+ b)) eqn:E; [done|].
  by apply (cut_none _ _ a b) in E.
Qed.

(** [(dir / entry).name] is [entry]. *)
Lemma basename_joinpath dir entry :
  contains "/" entry = false ->
  SkillLoader.basename (SkillLoader.joinpath dir entry) = entry.
Proof.
  intros Hentry. unfold SkillLoader.joinpath.
  destruct (startswith "/" entry) eqn:Habs.
  { apply prefix_true in Habs.
    pose proof (contains_sep_app "/" "" (drop 1 entry) eq_refl) as H.
    rewrite app_nil in H. cbn [String.length] in Habs.
    rewrite <- Habs in H. congruence. }
  induction dir as [|c dir IH].
  - rewrite app_nil, app_cons, app_nil. cbn [SkillLoader.basename].
    by rewrite Hentry.
  - rewrite app_cons. cbn [SkillLoader.basename].
    by rewrite (contains_sep_app "/" dir entry eq_refl).
Qed.

(** Filing bundles one after the other leaves, under each name, the
    last bundle of that name. *)
Lemma dict_get_fold_set (bundles : list SkillLoader.metadata) meta k :
  dict_get k
    (fold_left (fun m md => dict_set (SkillLoader.md_name md) md m)
       bundles meta)
  = match last (List.filter
                  (fun md => String.eqb (SkillLoader.md_name md) k) bundles)
    with
    | Some md => Some md
    | None => dict_get k meta
    end.
Proof.
  revert meta. induction bundles as [|b bundles IH]; intros meta; [done|].
  cbn [fold_left List.filter]. rewrite IH.
  destruct (String.eqb_spec (SkillLoader.md_name b) k) as [<-|Hne].
  - rewrite last_cons.
    destruct (last (List.filter _ bundles)); [done|].
    by rewrite dict_get_set_eq.
  - destruct (last (List.filter _ bundles)); [done|].
    by rewrite dict_get_set_ne.
Qed.

Section Names.
Variable yaml_safe_load : string -> outcome SkillLoader.yamldoc.
Variable f : SkillLoader.fs.

(** X17. The name a bundle is filed under, over a root directory and a
    fresh loader. A bundle whose front matter is a mapping without the
    key [name] is filed under the name of its folder, which for an entry
    of the root is the entry's name. When several bundles carry one
    name, the table holds one entry for it, and that entry is the last
    of them in listing order: its description and its folder replace
    those of the earlier ones without a message, and only names that
    some valid bundle carries are in the table. *)
Theorem later_bundle_shadows_earlier dir entries ld meta ld' ev :
  f dir = Some (SkillLoader.Dir entries) ->
  SkillLoader.init f dir = Ok ld ->
  SkillLoader.discover_skills yaml_safe_load f ld = (Ok meta, ld', ev) ->
  (forall k,
      dict_get k meta
      = last (List.filter
                (fun md => String.eqb (SkillLoader.md_name md) k)
                (Described.valid_bundles yaml_safe_load f
                   (SkillLoader.skill_folders f
                      (map (SkillLoader.joinpath dir) entries))))) /\
  (forall entry content text d,
      contains "/" entry = false ->
      SkillLoader.read_text f
        (SkillLoader.joinpath (SkillLoader.joinpath dir entry) "SKILL.md")
        = Ok content ->
      SkillLoader.frontmatter_text content = Some text ->
      yaml_safe_load text = Ok (SkillLoader.YMapping d) ->
      dict_get "name" d = None ->
      exists md,
        fst (SkillLoader._load_skill_metadata yaml_safe_load f
               (SkillLoader.joinpath dir entry)) = Ok (Some md) /\
        SkillLoader.md_name md = entry /\
        SkillLoader.md_path md = SkillLoader.joinpath dir entry).
Proof.
  intros Hdir. unfold SkillLoader.init, SkillLoader.path_exists.
  rewrite Hdir. cbn [negb]. intros [= <-].
  unfold SkillLoader.discover_skills, SkillLoader.iterdir.
  cbn [SkillLoader.skills_directory SkillLoader.skill_metadata].
  rewrite Hdir. intros Hdisc. split.
  - intros k.
    set (folders :=
           SkillLoader.skill_folders f
             (map (SkillLoader.joinpath dir) entries)) in *.
    pose proof (load_folders_fold yaml_safe_load f folders []) as Hfold.
    assert (meta = fst (SkillLoader.load_folders yaml_safe_load f folders []))
      as ->.
    { destruct folders as [|folder rest].
      - by injection Hdisc as <- <- <-.
      - destruct (SkillLoader.load_folders yaml_safe_load f
                    (folder :: rest) []) as [meta' ev'].
        by injection Hdisc as <- <- <-. }
    rewrite Hfold, dict_get_fold_set.
    by destruct (last _).
  - intros entry content text d Hentry Hread Htext Hyaml Hname.
    unfold SkillLoader._load_skill_metadata. cbn [fst].
    rewrite Hread, Htext, Hyaml. cbn [SkillLoader.yaml_get].
    rewrite Hname. eexists. split; [reflexivity|].
    cbn [SkillLoader.md_name SkillLoader.md_path].
    split; [by apply basename_joinpath|done].
Qed.
End Names.

(** Two folders declare [pptx]: the later one is the one that is
    activated; the folder without a name goes by its folder's name. *)
Lemma later_bundle_shadows_earlier_witness :
  exists ld ld' ev,
    SkillLoader.init Twins.disk "skills" = Ok ld /\
    SkillLoader.discover_skills Twins.yaml_safe_load Twins.disk ld
    = (Ok [("pptx",
            SkillLoader.mk_metadata "pptx" "create PowerPoint files"
              "skills/pptx-old" "");
           ("plain",
            SkillLoader.mk_metadata "plain" "a bundle without a name"
              "skills/plain" "")],
       ld', ev) /\
    SkillLoader.get_skill_description ld' "pptx"
      = Some "create PowerPoint files" /\
    fst (fst (SkillLoader.activate_skill Twins.disk ld' "pptx"))
      = Some ("---" +:+ Sample.pptx_header +:+ "---" +:+ nl +:+ "old").
Proof.
  set (ld := SkillLoader.mk_loader "skills" [] ∅ ∅).
  destruct (SkillLoader.discover_skills Twins.yaml_safe_load Twins.disk ld)
    as [[r ld'] ev] eqn:Hdisc.
  destruct r as [meta|e]; [|vm_compute in Hdisc; discriminate].
  destruct (later_bundle_shadows_earlier Twins.yaml_safe_load Twins.disk
              "skills" ["pptx"; "pptx-old"; "plain"] ld meta ld' ev
              eq_refl eq_refl Hdisc) as [Hlast _].
  exists ld, ld', ev. split; [reflexivity|].
  pose proof (Hlast "pptx") as Hpptx.
  vm_compute in Hdisc. injection Hdisc as <- <- <-.
  split; [reflexivity|]. split; [|reflexivity].
  unfold SkillLoader.get_skill_description.
  cbn [SkillLoader.skill_metadata]. rewrite Hpptx. reflexivity.
Defined.

(** ** The interactive loop *)

Section ReplFacts.
Variable B : Type.
Variable json_loads : bool -> string -> pyval + string.
Variable py_repr : pyval -> string.
Variable call_handler :
  string -> pyval -> SkillLoader.fs -> outcome string * SkillLoader.fs.

Lemma turn_keeps (ag : BaseAgent.agent B) w i running ag' w' out :
  Repl.turn B json_loads py_repr call_handler ag w i
    = (running, ag', w', out) ->
  running = negb (Repl.ends i) /\
  Session.grows ag ag' /\
  (Session.consistent ag -> Session.consistent ag').
Proof.
  unfold Repl.turn, Repl.ends.
  destruct i as [text| |];
    [|intros [= <- <- <- <-]; split; [done|apply keeps_refl]..].
  destruct (Repl.is_quit (strip text));
    [intros [= <- <- <- <-]; split; [done|apply keeps_refl]|].
  destruct (negb (truthy (strip text)));
    [intros [= <- <- <- <-]; split; [done|apply keeps_refl]|].
  unfold BaseAgent.process, BaseAgent.chat.
  destruct (BaseAgent.llm_client ag) as [gw|];
    [|intros [= <- <- <- <-]; split; [done|apply keeps_refl]].
  destruct (BaseAgent.react_loop _ _ _ _ gw _ _ ag w) as [[r ag1] w1] eqn:Hloop.
  pose proof (react_loop_keeps _ _ _ _ _ _ _ _ _ _ _ _ Hloop) as Hkeeps.
  by destruct r; intros [= <- <- <- <-].
Qed.

End ReplFacts.


(** ** The client's own tool dispatch *)

Section ExecutorFacts.
Variable json_loads : bool -> string -> pyval + string.
Variable py_repr : pyval -> string.

(** One relayed call: skipped when its identifier is empty, answered
    under its identifier and name otherwise. *)
Lemma answer_as_dict (ex : Executor.executor) tc s f :
  tc_arguments tc = PStr s ->
  exists m f',
    Executor.answer json_loads py_repr ex (Executor.as_dict tc) f = (Ok m, f') /\
    (truthy (tc_id tc) = false -> m = None /\ f' = f) /\
    (truthy (tc_id tc) = true ->
     exists content,
       m = Some (Executor.tool_result (PStr (tc_id tc)) (PStr (tc_name tc))
                   content)).
Proof.
  intros Hargs. unfold Executor.answer, Executor.as_dict, get_attr_get.
  rewrite Hargs. cbn [dict_get String.eqb Ascii.eqb Bool.eqb andb].
  cbn [Executor.truth negb orb].
  destruct (truthy (tc_id tc)); cbn [negb].
  - destruct (if truthy (strip s) then json_loads true s else inl (PDict []))
      as [args|e].
    + destruct (ex (PStr (tc_name tc)) args f) as [[result|e] f'];
        eexists _, _; (split; [reflexivity|]); split; try done; eauto.
    + eexists _, _. split; [reflexivity|]. split; [done|]. eauto.
  - eexists _, _. split; [reflexivity|]. by split.
Qed.

End ExecutorFacts.

